(** * HealthCareAnalysis: the dashboard's data-access layer

    A shallow embedding of the JavaScript sources

    - [src/FrontEnd/src/services/api.js]  (module [FrontEndApi] below),
    - the second copy of [api.js] kept in the repository
      ([src/unnamed/part_001], module [AltApi] below),
    - the upload page component ([src/unnamed/part_000], module [UploadPage]),

    together with the properties stated about them.

    Conventions of the embedding.

    - JavaScript numbers are modelled as exact rationals ([Q]); the rounding
      error of IEEE doubles, [NaN] and the infinities are not modelled.
      Numbers are compared with [Qeq] ([==]).  The model and the source
      agree wherever every intermediate result is a number that binary64
      represents exactly (whole numbers and binary fractions of moderate
      size); a statement that pins a computed value either does not depend
      on the rounding or is restricted to such inputs.
    - A field that may be absent ([undefined]) is an [option]; [x || d] on a
      number takes [d] when [x] is absent or zero, as JavaScript's truthiness
      does.
    - Plain objects used as dictionaries are [gmap string _].
    - [throw] is the [Throw] constructor of [Completion]; stateful code
      threads a [World] explicitly. *)

From Stdlib Require Import ZArith QArith Qround Qminmax Lqa.
From Stdlib Require Import Ascii String List Bool Lia.
From stdpp Require Import base option list gmap strings pretty.

Import ListNotations.
Local Open Scope list_scope.
Local Open Scope string_scope.
Local Open Scope Q_scope.

(** ** Numbers *)

Module Num.

(** [Math.round x]: the integer nearest to [x], halves rounded up. *)
Definition Math_round (x : Q) : Q := inject_Z (Qfloor (x + (1 # 2))).

(** Truthiness of a number: every number but zero. *)
Definition truthy (x : Q) : bool := negb (Qeq_bool x 0).

(** [x || d] where [x] is a possibly absent number. *)
Definition num_or (x : option Q) (d : Q) : Q :=
  match x with
  | Some v => if truthy v then v else d
  | None => d
  end.

Definition is_integer (x : Q) : bool := Qeq_bool (inject_Z (Qfloor x)) x.

(** [y] is [x] rounded to a multiple of [1/k], halves rounded up: [y * k]
    is an integer [n] with [n - 1/2 <= x * k < n + 1/2].  Rounding to the
    nearest integer is [round_at 1]; to one decimal place, [round_at 10]. *)
Definition round_at (k x y : Q) : bool :=
  is_integer (y * k)
  && Qle_bool (y * k - (1 # 2)) (x * k)
  && negb (Qle_bool (y * k + (1 # 2)) (x * k)).

End Num.
Import Num.

(** ** Strings *)

Module Str.

(** [s.includes(sub)] *)
Fixpoint includes (sub s : string) : bool :=
  String.prefix sub s ||
  match s with
  | EmptyString => false
  | String _ rest => includes sub rest
  end.

(** [s.endsWith(suffix)] *)
Definition endsWith (suffix s : string) : bool :=
  let n := String.length s in
  let k := String.length suffix in
  (k <=? n)%nat && String.eqb (String.substring (n - k) k s) suffix.

(** A string is truthy unless it is empty. *)
Definition truthy (s : string) : bool := negb (String.eqb s "").

Definition opt_truthy (s : option string) : bool :=
  match s with Some v => truthy v | None => false end.

End Str.

(** ** Completions: a value or a thrown error *)

Inductive Completion (A : Type) : Type :=
| Return (a : A)
| Throw (msg : string).
Arguments Return {A} a.
Arguments Throw {A} msg.

Definition cbind {A B} (c : Completion A) (k : A -> Completion B) : Completion B :=
  match c with
  | Return a => k a
  | Throw m => Throw m
  end.

Fixpoint cfoldl {A B} (f : A -> B -> Completion A) (a : A) (l : list B) : Completion A :=
  match l with
  | [] => Return a
  | x :: l' => cbind (f a x) (fun a' => cfoldl f a' l')
  end.

(** ** The backend payload and the transformer
    ([transformBackendData], identical in both copies of [api.js]) *)

(** A property value of a chart point: a string (the day) or a number. *)
Inductive Prim : Type :=
| PStr (s : string)
| PNum (q : Q).

(** A chart point is a plain object, [{date, value, [metric]: value}]. *)
Abbreviation Point := (gmap string Prim).

(** [{ metric, day, value }] *)
Record TimeseriesItem := { metric : string; day : string; value : Q }.

(** [{ metric, change_percent }] *)
Record Trend := { trend_metric : string; change_percent : Q }.

(** An anomaly; only [reason] is read. *)
Record Anomaly := { reason : option string }.

Record Summary := {
  total_users : option Q;
  steps_avg_7d : option Q;
  heart_rate_avg_7d : option Q;
  sleep_avg_7d : option Q;
  water_avg_7d : option Q
}.

(** The payload of [GET /data/{id}/summary].  Each field is absent
    ([None], for which the transformer's default parameters stand in) or
    of the documented shape.  A JSON [null], or a value of another type, in
    the place of a field is outside this type: on those the transformer
    throws.  What is said below of a returning transformer is said of the
    payloads of this type. *)
Record BackendData := {
  summary : option Summary;
  trends : option (list Trend);
  anomalies : option (list Anomaly);
  timeseries : option (list TimeseriesItem)
}.

Record Metrics := {
  totalPatients : Q;
  activePatients : Q;
  avgAge : Q;
  criticalCases : Q;
  avgSteps : Q;
  avgHeartRate : Q;
  avgSleep : Q;
  avgWater : Q;
  stepsChange : Q;
  heartRateChange : Q;
  sleepChange : Q;
  waterChange : Q;
  userGrowth : option Q   (* added by the alternative [uploadFile] only *)
}.

(** The object returned by [transformBackendData]. *)
Module Transformed.
Record t := {
  metrics : Metrics;
  trendData : list Point;
  heartRateData : list Point;
  sleepData : list Point;
  waterData : list Point;
  anomalies : list Anomaly;
  trends : list Trend
}.
End Transformed.

Module Transformer.

Definition empty_summary : Summary :=
  {| total_users := None; steps_avg_7d := None; heart_rate_avg_7d := None;
     sleep_avg_7d := None; water_avg_7d := None |}.

(** [chartData] starts as [{}], which inherits the properties of
    [Object.prototype]: for these keys [chartData[key]] is already truthy,
    no array is created, and [.push] is not a function. *)
Definition Object_prototype_keys : list string :=
  [ "constructor"; "__proto__"; "hasOwnProperty"; "isPrototypeOf";
    "propertyIsEnumerable"; "toLocaleString"; "toString"; "valueOf";
    "__defineGetter__"; "__defineSetter__"; "__lookupGetter__";
    "__lookupSetter__" ].

Definition inherited (k : string) : bool :=
  existsb (String.eqb k) Object_prototype_keys.

(** [let scaledValue = item.value;
     if (item.metric === 'water') scaledValue = Math.round((item.value / 1000) * 10) / 10;] *)
Definition scaledValue (item : TimeseriesItem) : Q :=
  if String.eqb (metric item) "water"
  then Math_round ((value item / 1000) * 10) / 10
  else value item.

(** [{ date: item.day, value: scaledValue, [item.metric]: scaledValue }] *)
Definition chart_point (item : TimeseriesItem) : Point :=
  <[metric item := PNum (scaledValue item)]>
    (<["value" := PNum (scaledValue item)]>
       (<["date" := PStr (day item)]> ∅)).

(** One iteration of [timeseries.forEach(item => ...)]. *)
Definition chart_step (chartData : gmap string (list Point)) (item : TimeseriesItem)
  : Completion (gmap string (list Point)) :=
  if inherited (metric item)
  then Throw "chartData[item.metric].push is not a function"
  else
    let series : list Point := default [] (chartData !! metric item) in
    Return (<[metric item := (series ++ [chart_point item])%list]> chartData).

Definition build_chartData (ts : list TimeseriesItem) : Completion (gmap string (list Point)) :=
  cfoldl chart_step ∅ ts.

(** [trends.find(t => t.metric === metric)], then [trend ? trend.change_percent : 0] *)
Definition getTrendChange (trends : list Trend) (m : string) : Q :=
  match List.find (fun t => String.eqb (trend_metric t) m) trends with
  | Some t => change_percent t
  | None => 0
  end.

(** [a.reason && a.reason.includes('Urgent')] *)
Definition urgent (a : Anomaly) : bool :=
  match reason a with
  | Some r => Str.truthy r && Str.includes "Urgent" r
  | None => false
  end.

(** [timeseries.filter(item => item.metric === m).map(item => ({date: item.day, value: item.value}))] *)
Definition plain_series (m : string) (ts : list TimeseriesItem) : list Point :=
  map (fun item => <["value" := PNum (value item)]> (<["date" := PStr (day item)]> ∅))
      (filter (fun item => metric item = m) ts).

Definition transformBackendData (backendData : BackendData) : Completion Transformed.t :=
  let summary := default empty_summary (summary backendData) in
  let trends := default [] (trends backendData) in
  let anomalies := default [] (anomalies backendData) in
  let timeseries := default [] (timeseries backendData) in
  cbind (build_chartData timeseries) (fun chartData =>
  let users := num_or (total_users summary) 1 in
  Return
    {| Transformed.metrics :=
         {| totalPatients := users;
            activePatients := users;
            avgAge := 35;
            criticalCases := inject_Z (Z.of_nat (length (List.filter urgent anomalies)));
            avgSteps := Math_round (num_or (steps_avg_7d summary) 0);
            avgHeartRate := Math_round (num_or (heart_rate_avg_7d summary) 0);
            avgSleep := Math_round (num_or (sleep_avg_7d summary) 0 * 10) / 10;
            avgWater := Math_round (num_or (water_avg_7d summary) 0);
            stepsChange := getTrendChange trends "steps";
            heartRateChange := getTrendChange trends "heart_rate";
            sleepChange := getTrendChange trends "sleep";
            waterChange := getTrendChange trends "water";
            userGrowth := None |};
       Transformed.trendData :=
         match chartData !! "steps" with
         | Some l => l
         | None => plain_series "steps" timeseries
         end;
       Transformed.heartRateData := default [] (chartData !! "heart_rate");
       Transformed.sleepData := default [] (chartData !! "sleep");
       Transformed.waterData := default [] (chartData !! "water");
       Transformed.anomalies := anomalies;
       Transformed.trends := trends |}).

End Transformer.

(** ** The snapshot store, local storage and the outside world *)

(** A plain object with primitive properties. *)
Abbreviation Obj := (gmap string Prim).

(** [{ id, type, title, description, timestamp }] *)
Module Insight.
Record t := {
  id : Z;
  type : string;
  title : string;
  description : string;
  timestamp : string
}.
End Insight.

(** A forecast row: [predicted] and the properties the spread copies. *)
Module ForecastItem.
Record t := { predicted : Q; rest : Obj }.
End ForecastItem.

Module Forecast.
Record t := {
  steps : list ForecastItem.t;
  heartRate : list ForecastItem.t;
  sleep : list ForecastItem.t
}.
End Forecast.

(** A risk row: [type], [percentage], [level] and the copied properties. *)
Module Risk.
Record t := { type : string; percentage : Q; level : string; rest : Obj }.
End Risk.

(** The exports of [./mockData.js] that the sources read.  That file is not
    part of the sources at hand, so its constants are parameters. *)
Record MockData := {
  mockMetrics : Metrics;
  mockTrendData : list Point;
  mockDiseaseData : list Obj;
  mockAgeGroups : list Obj;
  mockInsights : list Insight.t;
  mockForecastData : Forecast.t;
  mockRiskData : list Risk.t
}.

(** [currentData], the single mutable store.  The series for heart rate,
    sleep and water, and the [anomalies] and [trends] properties do not exist
    until an assignment creates them. *)
Module Store.
Record t := {
  metrics : Metrics;
  trendData : list Point;
  diseaseData : list Obj;
  ageGroups : list Obj;
  insights : list Insight.t;
  searchResults : list Obj;
  currentDataId : option string;
  previousUserCount : Q;
  heartRateData : option (list Point);
  sleepData : option (list Point);
  waterData : option (list Point);
  anomalies : option (list Anomaly);
  trends : option (list Trend)
}.

(** [let currentData = { metrics: mockMetrics, ... }] *)
Definition initial (mock : MockData) : t :=
  {| metrics := mockMetrics mock;
     trendData := mockTrendData mock;
     diseaseData := mockDiseaseData mock;
     ageGroups := mockAgeGroups mock;
     insights := mockInsights mock;
     searchResults := [];
     currentDataId := None;
     previousUserCount := 0;
     heartRateData := None;
     sleepData := None;
     waterData := None;
     anomalies := None;
     trends := None |}.
End Store.

(** What [JSON.parse] makes of the object stored under a user key: every
    property the sources read or write; each may be absent. *)
Module Blob.
Record t := {
  metrics : option Metrics;
  trendData : option (list Point);
  heartRateData : option (list Point);
  sleepData : option (list Point);
  waterData : option (list Point);
  diseaseData : option (list Obj);
  anomalies : option (list Anomaly);
  trends : option (list Trend);
  data_id : option string;
  fileName : option string;
  uploadDate : option string;
  totalPatients : option Q
}.

(** [{}] *)
Definition empty : t :=
  {| metrics := None; trendData := None; heartRateData := None;
     sleepData := None; waterData := None; diseaseData := None;
     anomalies := None; trends := None; data_id := None;
     fileName := None; uploadDate := None; totalPatients := None |}.
End Blob.

(** The string held under a local-storage key, by what [JSON.parse] does
    with it.  A text that parses to a number, a string, a boolean or an
    array has none of the properties the sources read and stands as
    [Stored Blob.empty]; the text [null] is the one value on which reading
    a property throws. *)
Inductive StoredItem : Type :=
| EmptyItem                 (* the empty string *)
| Malformed                 (* [JSON.parse] throws a [SyntaxError] *)
| StoredNull                (* the text [null]: parses to [null] *)
| Stored (b : Blob.t).      (* parses to this object *)

Record File := { name : string; content : string }.

Inductive Request : Type :=
| GET (url : string)
| POST (url : string) (body : File).

Module Response.
Record t (A : Type) := {
  ok : bool;
  statusText : string;
  text : string;         (* [await response.text()] *)
  json : option A        (* [await response.json()]; [None]: not JSON *)
}.
Arguments ok {A} _.
Arguments statusText {A} _.
Arguments text {A} _.
Arguments json {A} _.
End Response.

(** The promise returned by [fetch]: rejected on a network failure,
    otherwise resolved with a response, whatever its status. *)
Inductive Fetched (A : Type) : Type :=
| Rejected (msg : string)
| Resolved (r : Response.t A).
Arguments Rejected {A} msg.
Arguments Resolved {A} r.

(** [{ data_id }], the body of the reply to [POST /upload]. *)
Record UploadReply := { reply_data_id : option string }.

(** What the environment answers during one call. *)
Record Env := {
  health : Fetched unit;                              (* GET /health *)
  upload : File -> Fetched UploadReply;               (* POST /upload *)
  data_summary : string -> Fetched BackendData;       (* GET /data/{id}/summary *)
  data_trends : string -> Fetched (list TimeseriesItem);  (* GET /data/{id}/trends *)
  Date_now : nat -> Z;          (* the successive clock readings of the call *)
  toISOString : Z -> string;    (* [new Date(t).toISOString()] *)
  Math_random : Q;              (* in [0, 1) *)
  generateRandomData : list Point;   (* what [generateRandomData()] returns *)
  setItem_throws : bool         (* [localStorage.setItem] fails (quota) *)
}.

Module UploadResult.
Record t := {
  success : bool;
  message : string;
  fileName : option string;
  data_id : option string;
  uploadData : option Blob.t
}.
End UploadResult.

(** The [detail] of a dispatched ['dataUpdated'] event. *)
Inductive Detail : Type :=
| DetailTransformed (d : Transformed.t)
| DetailStore (s : Store.t)
| DetailUpload (d : option Blob.t).

Record World := {
  currentData : Store.t;
  localStorage : gmap string StoredItem;
  network : list Request;      (* requests issued so far, oldest first *)
  events : list Detail         (* events dispatched so far, oldest first *)
}.

(** ** A state-and-exception monad for the [async] methods *)

Definition M (A : Type) : Type := World -> Completion A * World.

Definition ret {A} (a : A) : M A := fun w => (Return a, w).
Definition throw {A} (msg : string) : M A := fun w => (Throw msg, w).

Definition bind {A B} (m : M A) (k : A -> M B) : M B :=
  fun w =>
    match m w with
    | (Return a, w') => k a w'
    | (Throw msg, w') => (Throw msg, w')
    end.

(** [try { m } catch (error) { h error.message }] *)
Definition try_catch {A} (m : M A) (h : string -> M A) : M A :=
  fun w =>
    match m w with
    | (Return a, w') => (Return a, w')
    | (Throw msg, w') => h msg w'
    end.

Notation "'do' x <- m ; k" := (bind m (fun x => k))
  (at level 10, x name, m at level 99, k at level 200).
Notation "m ;; k" := (bind m (fun _ => k))
  (at level 100, k at level 200, right associativity).

Definition lift {A} (c : Completion A) : M A := fun w => (c, w).
Definition get_store : M Store.t := fun w => (Return (currentData w), w).
Definition modify_store (f : Store.t -> Store.t) : M unit :=
  fun w => (Return tt, {| currentData := f (currentData w);
                          localStorage := localStorage w;
                          network := network w;
                          events := events w |}).

(** [await fetch(url, ...)]: the request goes out, then the promise settles. *)
Definition fetch {A} (req : Request) (answer : Fetched A) : M (Response.t A) :=
  fun w =>
    let w' := {| currentData := currentData w;
                 localStorage := localStorage w;
                 network := (network w ++ [req])%list;
                 events := events w |} in
    match answer with
    | Rejected msg => (Throw msg, w')
    | Resolved r => (Return r, w')
    end.

(** [await response.json()] *)
Definition json_of {A} (r : Response.t A) : M A :=
  match Response.json r with
  | Some v => ret v
  | None => throw "Unexpected token in JSON"
  end.

(** [localStorage.getItem(key)] *)
Definition getItem (key : string) : M (option StoredItem) :=
  fun w => (Return (localStorage w !! key), w).

(** [JSON.parse(localStorage.getItem(key) || '{}')]; [None] is [null]. *)
Definition parse_item (key : string) : M (option Blob.t) :=
  do item <- getItem key;
  match item with
  | None | Some EmptyItem => ret (Some Blob.empty)
  | Some Malformed => throw "Unexpected token in JSON"
  | Some StoredNull => ret None
  | Some (Stored b) => ret (Some b)
  end.

(** The [TypeError] of reading the property [p] of [null]. *)
Definition null_read (p : string) : string :=
  "Cannot read properties of null (reading '" ++ p ++ "')".

(** [localStorage.setItem(key, JSON.stringify(data))] *)
Definition setItem (env : Env) (key : string) (data : Blob.t) : M unit :=
  fun w =>
    if setItem_throws env
    then (Throw "QuotaExceededError", w)
    else (Return tt, {| currentData := currentData w;
                        localStorage := <[key := Stored data]> (localStorage w);
                        network := network w;
                        events := events w |}).

(** [window.dispatchEvent(new CustomEvent('dataUpdated', { detail }))] *)
Definition dispatchEvent (d : Detail) : M unit :=
  fun w => (Return tt, {| currentData := currentData w;
                          localStorage := localStorage w;
                          network := network w;
                          events := (events w ++ [d])%list |}).

(** [userId ? `healthApp_user_${userId}` : 'healthApp_guest'] *)
Definition userKey (userId : option string) : string :=
  match userId with
  | Some u => if Str.truthy u then "healthApp_user_" ++ u else "healthApp_guest"
  | None => "healthApp_guest"
  end.

(** ** The health-status distribution of [getDiseaseData]
    (identical in both copies of [api.js]) *)

Module HealthChart.

(** One iteration of [timeseries.forEach(item => { if (!metrics[item.metric])
    { metrics[item.metric] = 0; counts[item.metric] = 0; }
    metrics[item.metric] += item.value; counts[item.metric]++; })].
    The sum kept for a metric is falsy when it is absent or zero, and both
    the sum and the count then restart.  For a key inherited from
    [Object.prototype] the property read is truthy and what is written is
    never read again (only [steps], [heart_rate], [sleep] and [water] are),
    so the step leaves the four tallies alone. *)
Definition tally_step (acc : gmap string Q * gmap string Q) (item : TimeseriesItem)
  : gmap string Q * gmap string Q :=
  let k := metric item in
  if Transformer.inherited k then acc
  else
    let fresh :=
      match fst acc !! k with
      | Some s => negb (Num.truthy s)
      | None => true
      end in
    let metrics := if fresh then <[k := 0]> (fst acc) else fst acc in
    let counts := if fresh then <[k := 0]> (snd acc) else snd acc in
    (<[k := default 0 (metrics !! k) + value item]> metrics,
     <[k := default 0 (counts !! k) + 1]> counts).

Definition tally (timeseries : list TimeseriesItem) : gmap string Q * gmap string Q :=
  fold_left tally_step timeseries (∅, ∅).

(** [(metrics[k] || 0) / (counts[k] || 1)] *)
Definition average (acc : gmap string Q * gmap string Q) (k : string) : Q :=
  num_or (fst acc !! k) 0 / num_or (snd acc !! k) 1.

(** [normalizedMetrics], in the order of its keys. *)
Definition normalizedMetrics (acc : gmap string Q * gmap string Q) : list (string * Q) :=
  [ ("steps", Math_round (average acc "steps" / 100));
    ("heart_rate", Math_round (average acc "heart_rate"));
    ("sleep", Math_round (average acc "sleep" * 10));
    ("water", Math_round (average acc "water" / 100)) ].

(** [colors[metric] || '#FFA500'] *)
Definition color_of (k : string) : string :=
  if String.eqb k "steps" then "#00D4FF"
  else if String.eqb k "heart_rate" then "#FF6B6B"
  else if String.eqb k "sleep" then "#8B5CF6"
  else if String.eqb k "water" then "#00FF88"
  else "#FFA500".

(** [c.toUpperCase()] for one ASCII character (the keys are ASCII). *)
Definition upper (c : Ascii.ascii) : Ascii.ascii :=
  let n := Ascii.nat_of_ascii c in
  if ((97 <=? n) && (n <=? 122))%nat then Ascii.ascii_of_nat (n - 32) else c.

(** [s.replace('_', ' ')]: the first underscore only. *)
Fixpoint replace_underscore (s : string) : string :=
  match s with
  | EmptyString => EmptyString
  | String c rest =>
      if Ascii.eqb c "_"%char then String " "%char rest
      else String c (replace_underscore rest)
  end.

(** [metric.charAt(0).toUpperCase() + metric.slice(1).replace('_', ' ')] *)
Definition display_name (k : string) : string :=
  match k with
  | EmptyString => EmptyString
  | String c rest => String (upper c) (replace_underscore rest)
  end.

(** [{ name, value, color }] *)
Definition segment (kv : string * Q) : Obj :=
  <["color" := PStr (color_of (fst kv))]>
    (<["value" := PNum (snd kv)]>
       (<["name" := PStr (display_name (fst kv))]> ∅)).

(** [Object.keys(normalizedMetrics).filter(metric => normalizedMetrics[metric] > 0).map(...)] *)
Definition healthData (timeseries : list TimeseriesItem) : list Obj :=
  map segment
      (List.filter (fun kv => negb (Qle_bool (snd kv) 0))
                   (normalizedMetrics (tally timeseries))).

End HealthChart.

(** ** [src/FrontEnd/src/services/api.js] *)

Module FrontEndApi.
Section Api.

Context (mock : MockData).

(** [import.meta.env.VITE_API_URL || 'http://localhost:8000'], with the
    variable unset. *)
Definition API_BASE_URL : string := "http://localhost:8000".

(** [Object.assign(currentData, transformed)] *)
Definition assign_transformed (t : Transformed.t) (s : Store.t) : Store.t :=
  {| Store.metrics := Transformed.metrics t;
     Store.trendData := Transformed.trendData t;
     Store.diseaseData := Store.diseaseData s;
     Store.ageGroups := Store.ageGroups s;
     Store.insights := Store.insights s;
     Store.searchResults := Store.searchResults s;
     Store.currentDataId := Store.currentDataId s;
     Store.previousUserCount := Store.previousUserCount s;
     Store.heartRateData := Some (Transformed.heartRateData t);
     Store.sleepData := Some (Transformed.sleepData t);
     Store.waterData := Some (Transformed.waterData t);
     Store.anomalies := Some (Transformed.anomalies t);
     Store.trends := Some (Transformed.trends t) |}.

(** [currentData.currentDataId = id] *)
Definition set_currentDataId (id : option string) (s : Store.t) : Store.t :=
  {| Store.metrics := Store.metrics s;
     Store.trendData := Store.trendData s;
     Store.diseaseData := Store.diseaseData s;
     Store.ageGroups := Store.ageGroups s;
     Store.insights := Store.insights s;
     Store.searchResults := Store.searchResults s;
     Store.currentDataId := id;
     Store.previousUserCount := Store.previousUserCount s;
     Store.heartRateData := Store.heartRateData s;
     Store.sleepData := Store.sleepData s;
     Store.waterData := Store.waterData s;
     Store.anomalies := Store.anomalies s;
     Store.trends := Store.trends s |}.

(** [{ ...mockMetrics, totalPatients: n }] *)
Definition with_totalPatients (n : Q) (m : Metrics) : Metrics :=
  {| totalPatients := n;
     activePatients := activePatients m;
     avgAge := avgAge m;
     criticalCases := criticalCases m;
     avgSteps := avgSteps m;
     avgHeartRate := avgHeartRate m;
     avgSleep := avgSleep m;
     avgWater := avgWater m;
     stepsChange := stepsChange m;
     heartRateChange := heartRateChange m;
     sleepChange := sleepChange m;
     waterChange := waterChange m;
     userGrowth := userGrowth m |}.

(** [Math.floor(Math.random() * 100) + 50] *)
Definition mock_totalPatients (env : Env) : Q :=
  inject_Z (Qfloor (Math_random env * 100)) + 50.

(** [Object.assign(currentData, mockProcessedData)] *)
Definition assign_mock (env : Env) (s : Store.t) : Store.t :=
  {| Store.metrics := with_totalPatients (mock_totalPatients env) (mockMetrics mock);
     Store.trendData := generateRandomData env;
     Store.diseaseData := Store.diseaseData s;
     Store.ageGroups := Store.ageGroups s;
     Store.insights := Store.insights s;
     Store.searchResults := Store.searchResults s;
     Store.currentDataId := Store.currentDataId s;
     Store.previousUserCount := Store.previousUserCount s;
     Store.heartRateData := Some [];
     Store.sleepData := Some [];
     Store.waterData := Some [];
     Store.anomalies := Store.anomalies s;
     Store.trends := Store.trends s |}.

Definition mockUploadResponse (env : Env) (file : File) : M UploadResult.t :=
  let mockDataId := "mock_" ++ pretty (Date_now env 0) in
  modify_store (set_currentDataId (Some mockDataId)) ;;
  modify_store (assign_mock env) ;;
  ret {| UploadResult.success := true;
         UploadResult.message := "File processed with mock data (backend unavailable)";
         UploadResult.fileName := Some (name file);
         UploadResult.data_id := Some mockDataId;
         UploadResult.uploadData := None |}.

Definition getDataById (env : Env) (dataId : string) : M BackendData :=
  do response <- fetch (GET (API_BASE_URL ++ "/data/" ++ dataId ++ "/summary"))
                       (data_summary env dataId);
  if negb (Response.ok response)
  then throw ("Failed to fetch data: " ++ Response.statusText response)
  else json_of response.

(** [{ ...transformed, data_id, fileName, uploadDate }] *)
Definition blob_of_transformed (t : Transformed.t) (m : Metrics)
    (data_id fileName uploadDate : string) : Blob.t :=
  {| Blob.metrics := Some m;
     Blob.trendData := Some (Transformed.trendData t);
     Blob.heartRateData := Some (Transformed.heartRateData t);
     Blob.sleepData := Some (Transformed.sleepData t);
     Blob.waterData := Some (Transformed.waterData t);
     Blob.diseaseData := None;
     Blob.anomalies := Some (Transformed.anomalies t);
     Blob.trends := Some (Transformed.trends t);
     Blob.data_id := Some data_id;
     Blob.fileName := Some fileName;
     Blob.uploadDate := Some uploadDate;
     Blob.totalPatients := None |}.

Definition saveUserData (env : Env) (userId : option string) (data : Blob.t) : M unit :=
  setItem env (userKey userId) data.

(** The body of the outer [try] of [uploadFile]. *)
Definition uploadFile_body (env : Env) (file : File) (userId : option string)
  : M UploadResult.t :=
  (* try { await fetch(`${API_BASE_URL}/health`) } catch { return this.mockUploadResponse(file) } *)
  do probe <- try_catch
                (fetch (GET (API_BASE_URL ++ "/health")) (health env) ;; ret true)
                (fun _ => ret false);
  if negb probe then mockUploadResponse env file
  else
    do response <- fetch (POST (API_BASE_URL ++ "/upload") file) (upload env file);
    if negb (Response.ok response)
    then throw ("Upload failed: " ++ Response.statusText response ++ " - "
                  ++ Response.text response)
    else
      do result <- json_of response;
      match reply_data_id result with
      | None => throw "No data ID received from server"
      | Some data_id =>
        if negb (Str.truthy data_id) then throw "No data ID received from server"
        else
          modify_store (set_currentDataId (Some data_id)) ;;
          do fullData <- getDataById env data_id;
          do transformed <- lift (Transformer.transformBackendData fullData);
          modify_store (assign_transformed transformed) ;;
          (if Str.opt_truthy userId
           then saveUserData env userId
                  (blob_of_transformed transformed (Transformed.metrics transformed)
                     data_id (name file) (toISOString env (Date_now env 0)))
           else ret tt) ;;
          dispatchEvent (DetailTransformed transformed) ;;
          do store <- get_store;
          ret {| UploadResult.success := true;
                 UploadResult.message := "Health data processed successfully";
                 UploadResult.fileName := Some (name file);
                 UploadResult.data_id := Some data_id;
                 UploadResult.uploadData :=
                   Some {| Blob.metrics := Some (Transformed.metrics transformed);
                           Blob.trendData := None;
                           Blob.heartRateData := None;
                           Blob.sleepData := None;
                           Blob.waterData := None;
                           (* transformed.diseaseData || currentData.diseaseData *)
                           Blob.diseaseData := Some (Store.diseaseData store);
                           Blob.anomalies := None;
                           Blob.trends := None;
                           Blob.data_id := Some data_id;
                           Blob.fileName := Some (name file);
                           Blob.uploadDate :=
                             Some (toISOString env
                                     (Date_now env (if Str.opt_truthy userId then 1 else 0)%nat));
                           Blob.totalPatients := None |} |}
      end.

Definition uploadFile (env : Env) (file : File) (userId : option string)
  : M UploadResult.t :=
  try_catch (uploadFile_body env file userId)
            (fun msg => throw ("File upload failed: " ++ msg)).

(** [loadUserData(userId)] *)
Definition load_into (b : Blob.t) (m : Metrics) (s : Store.t) : Store.t :=
  {| Store.metrics := m;
     Store.trendData := default [] (Blob.trendData b);
     Store.diseaseData := default (mockDiseaseData mock) (Blob.diseaseData b);
     Store.ageGroups := Store.ageGroups s;
     Store.insights := Store.insights s;
     Store.searchResults := Store.searchResults s;
     Store.currentDataId := Blob.data_id b;
     Store.previousUserCount := Store.previousUserCount s;
     Store.heartRateData := Some (default [] (Blob.heartRateData b));
     Store.sleepData := Some (default [] (Blob.sleepData b));
     Store.waterData := Some (default [] (Blob.waterData b));
     Store.anomalies := Store.anomalies s;
     Store.trends := Store.trends s |}.

Definition loadUserData (userId : option string) : M (option Blob.t) :=
  do json <- parse_item (userKey userId);
  match json with
  | None => throw (null_read "metrics")
  | Some userData =>
      match Blob.metrics userData with
      | Some m => modify_store (load_into userData m) ;; ret (Some userData)
      | None => ret None
      end
  end.

(** [timeseries.filter(item => item.metric === 'water').map(item => ({ date: item.day,
      value: Math.round((item.value / 1000) * 10) / 10 }))] *)
Definition water_series (ts : list TimeseriesItem) : list Point :=
  map (fun item =>
         <["value" := PNum (Math_round ((value item / 1000) * 10) / 10)]>
           (<["date" := PStr (day item)]> ∅))
      (filter (fun item => metric item = "water") ts).

(** [currentData.waterData = waterData] *)
Definition set_waterData (l : list Point) (s : Store.t) : Store.t :=
  {| Store.metrics := Store.metrics s;
     Store.trendData := Store.trendData s;
     Store.diseaseData := Store.diseaseData s;
     Store.ageGroups := Store.ageGroups s;
     Store.insights := Store.insights s;
     Store.searchResults := Store.searchResults s;
     Store.currentDataId := Store.currentDataId s;
     Store.previousUserCount := Store.previousUserCount s;
     Store.heartRateData := Store.heartRateData s;
     Store.sleepData := Store.sleepData s;
     Store.waterData := Some l;
     Store.anomalies := Store.anomalies s;
     Store.trends := Store.trends s |}.

(** The [try] block of [getWaterData]: the series when the backend answers
    with an OK status, nothing when the status is not OK or anything throws. *)
Definition fetch_water (env : Env) (id : string) : M (option (list Point)) :=
  try_catch
    (do response <- fetch (GET (API_BASE_URL ++ "/data/" ++ id ++ "/trends"))
                          (data_trends env id);
     if Response.ok response
     then
       do timeseries <- json_of response;
       modify_store (set_waterData (water_series timeseries)) ;;
       ret (Some (water_series timeseries))
     else ret None)
    (fun _ => ret None).

Definition getWaterData (env : Env) : M (list Point) :=
  do store <- get_store;
  do fetched <- (if Str.opt_truthy (Store.currentDataId store)
                 then fetch_water env (default "" (Store.currentDataId store))
                 else ret None);
  match fetched with
  | Some waterData => ret waterData
  | None =>
      (* return currentData.waterData || [] *)
      do store' <- get_store;
      ret (default [] (Store.waterData store'))
  end.

(** [currentData.metrics = m] *)
Definition set_metrics (m : Metrics) (s : Store.t) : Store.t :=
  {| Store.metrics := m;
     Store.trendData := Store.trendData s;
     Store.diseaseData := Store.diseaseData s;
     Store.ageGroups := Store.ageGroups s;
     Store.insights := Store.insights s;
     Store.searchResults := Store.searchResults s;
     Store.currentDataId := Store.currentDataId s;
     Store.previousUserCount := Store.previousUserCount s;
     Store.heartRateData := Store.heartRateData s;
     Store.sleepData := Store.sleepData s;
     Store.waterData := Store.waterData s;
     Store.anomalies := Store.anomalies s;
     Store.trends := Store.trends s |}.

(** [currentData.trendData = l] *)
Definition set_trendData (l : list Point) (s : Store.t) : Store.t :=
  {| Store.metrics := Store.metrics s;
     Store.trendData := l;
     Store.diseaseData := Store.diseaseData s;
     Store.ageGroups := Store.ageGroups s;
     Store.insights := Store.insights s;
     Store.searchResults := Store.searchResults s;
     Store.currentDataId := Store.currentDataId s;
     Store.previousUserCount := Store.previousUserCount s;
     Store.heartRateData := Store.heartRateData s;
     Store.sleepData := Store.sleepData s;
     Store.waterData := Store.waterData s;
     Store.anomalies := Store.anomalies s;
     Store.trends := Store.trends s |}.

(** [currentData.diseaseData = l] *)
Definition set_diseaseData (l : list Obj) (s : Store.t) : Store.t :=
  {| Store.metrics := Store.metrics s;
     Store.trendData := Store.trendData s;
     Store.diseaseData := l;
     Store.ageGroups := Store.ageGroups s;
     Store.insights := Store.insights s;
     Store.searchResults := Store.searchResults s;
     Store.currentDataId := Store.currentDataId s;
     Store.previousUserCount := Store.previousUserCount s;
     Store.heartRateData := Store.heartRateData s;
     Store.sleepData := Store.sleepData s;
     Store.waterData := Store.waterData s;
     Store.anomalies := Store.anomalies s;
     Store.trends := Store.trends s |}.

(** [currentData.heartRateData = l] *)
Definition set_heartRateData (l : list Point) (s : Store.t) : Store.t :=
  {| Store.metrics := Store.metrics s;
     Store.trendData := Store.trendData s;
     Store.diseaseData := Store.diseaseData s;
     Store.ageGroups := Store.ageGroups s;
     Store.insights := Store.insights s;
     Store.searchResults := Store.searchResults s;
     Store.currentDataId := Store.currentDataId s;
     Store.previousUserCount := Store.previousUserCount s;
     Store.heartRateData := Some l;
     Store.sleepData := Store.sleepData s;
     Store.waterData := Store.waterData s;
     Store.anomalies := Store.anomalies s;
     Store.trends := Store.trends s |}.

(** [currentData.sleepData = l] *)
Definition set_sleepData (l : list Point) (s : Store.t) : Store.t :=
  {| Store.metrics := Store.metrics s;
     Store.trendData := Store.trendData s;
     Store.diseaseData := Store.diseaseData s;
     Store.ageGroups := Store.ageGroups s;
     Store.insights := Store.insights s;
     Store.searchResults := Store.searchResults s;
     Store.currentDataId := Store.currentDataId s;
     Store.previousUserCount := Store.previousUserCount s;
     Store.heartRateData := Store.heartRateData s;
     Store.sleepData := Some l;
     Store.waterData := Store.waterData s;
     Store.anomalies := Store.anomalies s;
     Store.trends := Store.trends s |}.

(** The [if (currentData.currentDataId) { try { ... } catch (error) { ... } }]
    block the accessors share: with a session id, [run] is tried and a
    throw is swallowed; [None] stands for falling through the block. *)
Definition with_session {A} (run : string -> M (option A)) : M (option A) :=
  do store <- get_store;
  match Store.currentDataId store with
  | Some id => if Str.truthy id then try_catch (run id) (fun _ => ret None) else ret None
  | None => ret None
  end.

(** [const response = await fetch(`${API_BASE_URL}/data/${id}/trends`);
     if (response.ok) { const timeseries = await response.json(); ... }] *)
Definition fetch_trends {A} (env : Env) (id : string)
    (use : list TimeseriesItem -> M A) : M (option A) :=
  do response <- fetch (GET (API_BASE_URL ++ "/data/" ++ id ++ "/trends"))
                       (data_trends env id);
  if Response.ok response
  then
    do timeseries <- json_of response;
    do result <- use timeseries;
    ret (Some result)
  else ret None.

Definition getMetrics (env : Env) (userId : option string) : M Metrics :=
  do userData <- (if Str.opt_truthy userId then loadUserData userId else ret None);
  match userData ≫= Blob.metrics with
  | Some m => ret m
  | None =>
      do fetched <-
        with_session (fun id =>
          do data <- getDataById env id;
          do transformed <- lift (Transformer.transformBackendData data);
          modify_store (set_metrics (Transformed.metrics transformed)) ;;
          ret (Some (Transformed.metrics transformed)));
      match fetched with
      | Some m => ret m
      | None =>
          (* await delay(500); return currentData.metrics *)
          do store <- get_store;
          ret (Store.metrics store)
      end
  end.

Definition getTrendData (env : Env) : M (list Point) :=
  do fetched <-
    with_session (fun id =>
      fetch_trends env id (fun timeseries =>
        let stepsData := Transformer.plain_series "steps" timeseries in
        modify_store (set_trendData stepsData) ;;
        ret stepsData));
  match fetched with
  | Some stepsData => ret stepsData
  | None => do store <- get_store; ret (Store.trendData store)
  end.

Definition getDiseaseData (env : Env) : M (list Obj) :=
  do fetched <-
    with_session (fun id =>
      fetch_trends env id (fun timeseries =>
        let healthData := HealthChart.healthData timeseries in
        modify_store (set_diseaseData healthData) ;;
        ret healthData));
  match fetched with
  | Some healthData => ret healthData
  | None => do store <- get_store; ret (Store.diseaseData store)
  end.

Definition getHeartRateData (env : Env) : M (list Point) :=
  do fetched <-
    with_session (fun id =>
      fetch_trends env id (fun timeseries =>
        let heartRateData := Transformer.plain_series "heart_rate" timeseries in
        modify_store (set_heartRateData heartRateData) ;;
        ret heartRateData));
  match fetched with
  | Some heartRateData => ret heartRateData
  | None => do store <- get_store; ret (default [] (Store.heartRateData store))
  end.

Definition getSleepData (env : Env) : M (list Point) :=
  do fetched <-
    with_session (fun id =>
      fetch_trends env id (fun timeseries =>
        let sleepData := Transformer.plain_series "sleep" timeseries in
        modify_store (set_sleepData sleepData) ;;
        ret sleepData));
  match fetched with
  | Some sleepData => ret sleepData
  | None => do store <- get_store; ret (default [] (Store.sleepData store))
  end.

(** [currentData.trendData = generateRandomData(); return currentData] *)
Definition refreshData (env : Env) : M Store.t :=
  modify_store (set_trendData (generateRandomData env)) ;;
  get_store.

Definition clearCurrentData : M unit :=
  modify_store (fun s =>
    {| Store.metrics := mockMetrics mock;
       Store.trendData := mockTrendData mock;
       Store.diseaseData := mockDiseaseData mock;
       Store.ageGroups := Store.ageGroups s;
       Store.insights := mockInsights mock;
       Store.searchResults := Store.searchResults s;
       Store.currentDataId := None;
       Store.previousUserCount := Store.previousUserCount s;
       Store.heartRateData := Some [];
       Store.sleepData := Some [];
       Store.waterData := Some [];
       Store.anomalies := Store.anomalies s;
       Store.trends := Store.trends s |}).

(** [Math.floor(Math.random() * 40) + 20] *)
Definition getStressLevel (env : Env) : M Q :=
  ret (inject_Z (Qfloor (Math_random env * 40)) + 20).

End Api.
End FrontEndApi.

(** ** The second copy of [api.js] ([src/unnamed/part_001]) *)

Module AltApi.
Section Api.

Context (mock : MockData).

Definition API_BASE_URL : string := "http://localhost:8000".

Definition getDataById (env : Env) (dataId : string) : M BackendData :=
  do response <- fetch (GET (API_BASE_URL ++ "/data/" ++ dataId ++ "/summary"))
                       (data_summary env dataId);
  if negb (Response.ok response)
  then throw ("Failed to fetch data: " ++ Response.statusText response)
  else json_of response.

(** [transformed.metrics.userGrowth = userGrowth] *)
Definition with_userGrowth (g : Q) (m : Metrics) : Metrics :=
  {| totalPatients := totalPatients m;
     activePatients := activePatients m;
     avgAge := avgAge m;
     criticalCases := criticalCases m;
     avgSteps := avgSteps m;
     avgHeartRate := avgHeartRate m;
     avgSleep := avgSleep m;
     avgWater := avgWater m;
     stepsChange := stepsChange m;
     heartRateChange := heartRateChange m;
     sleepChange := sleepChange m;
     waterChange := waterChange m;
     userGrowth := Some g |}.

(** The five assignments [currentData.metrics = transformed.metrics; ...]. *)
Definition assign_series (m : Metrics) (t : Transformed.t) (s : Store.t) : Store.t :=
  {| Store.metrics := m;
     Store.trendData := Transformed.trendData t;
     Store.diseaseData := Store.diseaseData s;
     Store.ageGroups := Store.ageGroups s;
     Store.insights := Store.insights s;
     Store.searchResults := Store.searchResults s;
     Store.currentDataId := Store.currentDataId s;
     Store.previousUserCount := Store.previousUserCount s;
     Store.heartRateData := Some (Transformed.heartRateData t);
     Store.sleepData := Some (Transformed.sleepData t);
     Store.waterData := Some (Transformed.waterData t);
     Store.anomalies := Store.anomalies s;
     Store.trends := Store.trends s |}.

Definition set_insights (l : list Insight.t) (s : Store.t) : Store.t :=
  {| Store.metrics := Store.metrics s;
     Store.trendData := Store.trendData s;
     Store.diseaseData := Store.diseaseData s;
     Store.ageGroups := Store.ageGroups s;
     Store.insights := l;
     Store.searchResults := Store.searchResults s;
     Store.currentDataId := Store.currentDataId s;
     Store.previousUserCount := Store.previousUserCount s;
     Store.heartRateData := Store.heartRateData s;
     Store.sleepData := Store.sleepData s;
     Store.waterData := Store.waterData s;
     Store.anomalies := Store.anomalies s;
     Store.trends := Store.trends s |}.

(** [previousData = {}; try { previousData = JSON.parse(localStorage.getItem(userKey) || '{}') } catch (e) { ... }] *)
Definition previousData (key : string) : M (option Blob.t) :=
  try_catch (parse_item key) (fun _ => ret (Some Blob.empty)).

(** The user-growth figure of [uploadFile]. *)
Definition userGrowth_of (previousUserCount newTotal : Q) : Q :=
  if Qeq_bool previousUserCount 0
  then (if Qlt_le_dec 1 newTotal then 155 # 10 else 82 # 10)
  else Math_round (((newTotal - previousUserCount) / previousUserCount) * 100).

(** The two insights synthesised by [uploadFile]. *)
Definition new_insights (env : Env) (t : Transformed.t) : list Insight.t :=
  let anomalous := (0 <? length (Transformed.anomalies t))%nat in
  [ {| Insight.id := Date_now env 1;
       Insight.type := "success";
       Insight.title := "Health Data Processed";
       Insight.description :=
         "Analyzed health data with " ++ pretty (length (Transformed.trendData t))
           ++ " data points";
       Insight.timestamp := "Just now" |};
    {| Insight.id := (Date_now env 2 + 1)%Z;
       Insight.type := if anomalous then "warning" else "success";
       Insight.title := "Health Assessment";
       Insight.description :=
         if anomalous
         then pretty (length (Transformed.anomalies t)) ++ " anomalies detected"
         else "All health metrics within normal ranges";
       Insight.timestamp := "Just now" |} ].

(** [[...insights, ...(currentData.insights || []).slice(0, 2)]] *)
Definition prepend_insights (fresh old : list Insight.t) : list Insight.t :=
  (fresh ++ firstn 2 old)%list.

(** The body of the outer [try] of [uploadFile]. *)
Definition uploadFile_body (env : Env) (file : File) (userId : option string)
  : M UploadResult.t :=
  try_catch
    (fetch (GET (API_BASE_URL ++ "/health")) (health env) ;; ret tt)
    (fun _ => throw "Backend server is not running. Please start the backend server first.") ;;
  do response <- fetch (POST (API_BASE_URL ++ "/upload") file) (upload env file);
  if negb (Response.ok response)
  then throw ("Upload failed: " ++ Response.statusText response ++ " - "
                ++ Response.text response)
  else
    do result <- json_of response;
    match reply_data_id result with
    | None => throw "No data ID received from server"
    | Some data_id =>
      if negb (Str.truthy data_id) then throw "No data ID received from server"
      else
        modify_store (FrontEndApi.set_currentDataId (Some data_id)) ;;
        do fullData <- getDataById env data_id;
        do transformed <- lift (Transformer.transformBackendData fullData);
        modify_store (assign_series (Transformed.metrics transformed) transformed) ;;
        let userKey := userKey userId in
        do previous <- previousData userKey;
        (* [previousData.totalPatients || 0] *)
        do previousData <-
          match previous with
          | Some b => ret b
          | None => throw (null_read "totalPatients")
          end;
        let previousUserCount := num_or (Blob.totalPatients previousData) 0 in
        let userGrowth :=
          userGrowth_of previousUserCount
                        (totalPatients (Transformed.metrics transformed)) in
        (* [transformed.metrics] and [currentData.metrics] are one object *)
        let metrics' := with_userGrowth userGrowth (Transformed.metrics transformed) in
        modify_store (assign_series metrics' transformed) ;;
        let userDataToSave :=
          FrontEndApi.blob_of_transformed transformed metrics' data_id (name file)
            (toISOString env (Date_now env 0)) in
        try_catch (setItem env userKey userDataToSave) (fun _ => ret tt) ;;
        do store <- get_store;
        modify_store (set_insights
                        (prepend_insights (new_insights env transformed)
                                          (Store.insights store))) ;;
        do store' <- get_store;
        dispatchEvent (DetailStore store') ;;
        ret {| UploadResult.success := true;
               UploadResult.message := "Health data processed successfully";
               UploadResult.fileName := Some (name file);
               UploadResult.data_id := Some data_id;
               UploadResult.uploadData := Some userDataToSave |}
    end.

Definition uploadFile (env : Env) (file : File) (userId : option string)
  : M UploadResult.t :=
  try_catch (uploadFile_body env file userId)
            (fun msg => throw ("File upload failed: " ++ msg)).

(** [loadUserData(userId)] *)
Definition load_into (b : Blob.t) (m : Metrics) (s : Store.t) : Store.t :=
  {| Store.metrics := m;
     Store.trendData := default [] (Blob.trendData b);
     Store.diseaseData := Store.diseaseData s;
     Store.ageGroups := Store.ageGroups s;
     Store.insights := Store.insights s;
     Store.searchResults := Store.searchResults s;
     Store.currentDataId := Blob.data_id b;
     Store.previousUserCount := Store.previousUserCount s;
     Store.heartRateData := Some (default [] (Blob.heartRateData b));
     Store.sleepData := Some (default [] (Blob.sleepData b));
     Store.waterData := Some (default [] (Blob.waterData b));
     Store.anomalies := Store.anomalies s;
     Store.trends := Store.trends s |}.

Definition loadUserData (userId : option string) : M (option Blob.t) :=
  do json <- parse_item (userKey userId);
  match json with
  | None => throw (null_read "metrics")
  | Some userData =>
      match Blob.metrics userData with
      | Some m => modify_store (load_into userData m) ;; ret (Some userData)
      | None => ret None
      end
  end.

(** [timeseries.filter(item => item.metric === 'water').map(item => ({ date: item.day,
      value: Math.round(item.value * 10) / 10 }))]: no division by 1000 in
    this copy. *)
Definition water_series (ts : list TimeseriesItem) : list Point :=
  map (fun item =>
         <["value" := PNum (Math_round (value item * 10) / 10)]>
           (<["date" := PStr (day item)]> ∅))
      (filter (fun item => metric item = "water") ts).

(** The [try] block of [getWaterData]. *)
Definition fetch_water (env : Env) (id : string) : M (option (list Point)) :=
  try_catch
    (do response <- fetch (GET (API_BASE_URL ++ "/data/" ++ id ++ "/trends"))
                          (data_trends env id);
     if Response.ok response
     then
       do timeseries <- json_of response;
       modify_store (FrontEndApi.set_waterData (water_series timeseries)) ;;
       ret (Some (water_series timeseries))
     else ret None)
    (fun _ => ret None).

Definition getWaterData (env : Env) : M (list Point) :=
  do store <- get_store;
  do fetched <- (if Str.opt_truthy (Store.currentDataId store)
                 then fetch_water env (default "" (Store.currentDataId store))
                 else ret None);
  match fetched with
  | Some waterData => ret waterData
  | None => ret []
  end.

Definition getMetrics (env : Env) (userId : option string) : M Metrics :=
  do userData <- (if Str.opt_truthy userId then loadUserData userId else ret None);
  match userData ≫= Blob.metrics with
  | Some m => ret m
  | None =>
      do fetched <-
        FrontEndApi.with_session (fun id =>
          do data <- getDataById env id;
          do transformed <- lift (Transformer.transformBackendData data);
          modify_store (FrontEndApi.set_metrics (Transformed.metrics transformed)) ;;
          ret (Some (Transformed.metrics transformed)));
      match fetched with
      | Some m => ret m
      | None => do store <- get_store; ret (Store.metrics store)
      end
  end.

Definition getTrendData (env : Env) : M (list Point) :=
  do fetched <-
    FrontEndApi.with_session (fun id =>
      FrontEndApi.fetch_trends env id (fun timeseries =>
        let stepsData := Transformer.plain_series "steps" timeseries in
        modify_store (FrontEndApi.set_trendData stepsData) ;;
        ret stepsData));
  match fetched with
  | Some stepsData => ret stepsData
  | None => do store <- get_store; ret (Store.trendData store)
  end.

Definition getDiseaseData (env : Env) : M (list Obj) :=
  do fetched <-
    FrontEndApi.with_session (fun id =>
      FrontEndApi.fetch_trends env id (fun timeseries =>
        let healthData := HealthChart.healthData timeseries in
        modify_store (FrontEndApi.set_diseaseData healthData) ;;
        ret healthData));
  match fetched with
  | Some healthData => ret healthData
  | None => do store <- get_store; ret (Store.diseaseData store)
  end.

(** [timeseries.filter(item => item.metric === 'heart_rate').map(item => ({ date: item.day,
      value: Math.round(item.value) }))] *)
Definition heart_series (ts : list TimeseriesItem) : list Point :=
  map (fun item =>
         <["value" := PNum (Math_round (value item))]>
           (<["date" := PStr (day item)]> ∅))
      (filter (fun item => metric item = "heart_rate") ts).

(** [timeseries.filter(item => item.metric === 'sleep').map(item => ({ date: item.day,
      value: Math.round(item.value * 10) / 10 }))] *)
Definition sleep_series (ts : list TimeseriesItem) : list Point :=
  map (fun item =>
         <["value" := PNum (Math_round (value item * 10) / 10)]>
           (<["date" := PStr (day item)]> ∅))
      (filter (fun item => metric item = "sleep") ts).

Definition getHeartRateData (env : Env) : M (list Point) :=
  do fetched <-
    FrontEndApi.with_session (fun id =>
      FrontEndApi.fetch_trends env id (fun timeseries =>
        let heartRateData := heart_series timeseries in
        modify_store (FrontEndApi.set_heartRateData heartRateData) ;;
        ret heartRateData));
  match fetched with
  | Some heartRateData => ret heartRateData
  | None => ret []
  end.

Definition getSleepData (env : Env) : M (list Point) :=
  do fetched <-
    FrontEndApi.with_session (fun id =>
      FrontEndApi.fetch_trends env id (fun timeseries =>
        let sleepData := sleep_series timeseries in
        modify_store (FrontEndApi.set_sleepData sleepData) ;;
        ret sleepData));
  match fetched with
  | Some sleepData => ret sleepData
  | None => ret []
  end.

(** With a session the store is refreshed from the backend; when that
    fails, or without a session, the trend series is regenerated. *)
Definition refreshData (env : Env) : M Store.t :=
  do refreshed <-
    FrontEndApi.with_session (fun id =>
      do data <- getDataById env id;
      do transformed <- lift (Transformer.transformBackendData data);
      modify_store (FrontEndApi.set_metrics (Transformed.metrics transformed)) ;;
      modify_store (FrontEndApi.set_trendData (Transformed.trendData transformed)) ;;
      do store <- get_store;
      ret (Some store));
  match refreshed with
  | Some store => ret store
  | None =>
      modify_store (FrontEndApi.set_trendData (generateRandomData env)) ;;
      get_store
  end.

Definition clearCurrentData : M unit :=
  modify_store (fun s =>
    {| Store.metrics := mockMetrics mock;
       Store.trendData := mockTrendData mock;
       Store.diseaseData := Store.diseaseData s;
       Store.ageGroups := Store.ageGroups s;
       Store.insights := mockInsights mock;
       Store.searchResults := Store.searchResults s;
       Store.currentDataId := None;
       Store.previousUserCount := Store.previousUserCount s;
       Store.heartRateData := Some [];
       Store.sleepData := Some [];
       Store.waterData := Some [];
       Store.anomalies := Store.anomalies s;
       Store.trends := Store.trends s |}).

End Api.
End AltApi.

(** ** The upload page ([src/unnamed/part_000]) *)

Module UploadPage.

(** The signed-in user of [useAuth()], if any. *)
Record User := { user_id : option string }.

(** The argument of [saveUserUpload]. *)
Record SavedUpload := {
  saved_fileName : string;
  saved_data_id : option string;
  saved_metrics : option Metrics
}.

(** The component's state hooks, and the calls made to [saveUserUpload]. *)
Record PageState := {
  dragActive : bool;
  uploading : bool;
  uploadResult : option UploadResult.t;
  uploadedData : option Blob.t;
  savedUploads : list SavedUpload
}.

Definition failure (msg : string) : UploadResult.t :=
  {| UploadResult.success := false;
     UploadResult.message := msg;
     UploadResult.fileName := None;
     UploadResult.data_id := None;
     UploadResult.uploadData := None |}.

Section Handler.

(** [api.uploadFile] of whichever [../services/api] the page is built with. *)
Context (uploadFile : File -> option string -> M UploadResult.t).
Context (user : option User).

(** The [if (result.success) { ... }] block. *)
Definition on_success (file : File) (result : UploadResult.t) (p : PageState)
  : PageState :=
  {| dragActive := dragActive p;
     uploading := uploading p;
     uploadResult := uploadResult p;
     uploadedData :=
       match UploadResult.uploadData result with
       | Some d => Some d
       | None => uploadedData p
       end;
     savedUploads :=
       match user with
       | Some _ =>
           (savedUploads p ++
              [ {| saved_fileName := name file;
                   saved_data_id := UploadResult.data_id result;
                   saved_metrics :=
                     d ← UploadResult.uploadData result; Blob.metrics d |} ])%list
       | None => savedUploads p
       end |}.

Definition handleFile (file : File) (p : PageState) (w : World) : PageState * World :=
  if negb (Str.endsWith ".csv" (name file))
  then
    ({| dragActive := dragActive p;
        uploading := uploading p;
        uploadResult := Some (failure "Please upload a CSV file only.");
        uploadedData := uploadedData p;
        savedUploads := savedUploads p |}, w)
  else
    (* setUploading(true); setUploadResult(null); setUploadedData(null) *)
    let p1 := {| dragActive := dragActive p;
                 uploading := true;
                 uploadResult := None;
                 uploadedData := None;
                 savedUploads := savedUploads p |} in
    let '(p2, w2) :=
      match uploadFile file (u ← user; user_id u) w with
      | (Return result, w1) =>
          let p' := {| dragActive := dragActive p1;
                       uploading := uploading p1;
                       uploadResult := Some result;
                       uploadedData := uploadedData p1;
                       savedUploads := savedUploads p1 |} in
          if UploadResult.success result
          then
            (on_success file result p',
             snd (dispatchEvent (DetailUpload (UploadResult.uploadData result)) w1))
          else (p', w1)
      | (Throw msg, w1) =>
          ({| dragActive := dragActive p1;
              uploading := uploading p1;
              uploadResult :=
                Some (failure (if Str.truthy msg then msg
                               else "Upload failed. Please try again."));
              uploadedData := uploadedData p1;
              savedUploads := savedUploads p1 |}, w1)
      end in
    (* finally { setUploading(false) } *)
    ({| dragActive := dragActive p2;
        uploading := false;
        uploadResult := uploadResult p2;
        uploadedData := uploadedData p2;
        savedUploads := savedUploads p2 |}, w2).

End Handler.

End UploadPage.

(** ** The what-if simulator ([simulateForecast], identical in both copies) *)

Module Simulator.
Section Simulate.

Context (mock : MockData).
Context (sleepIncrease extraSteps hydrationIncrease : Q).

Definition stepMultiplier : Q := 1 + extraSteps / 10000.
Definition sleepImpact : Q := sleepIncrease * (5 # 10).
Definition hydrationImpact : Q := hydrationIncrease * (3 # 10).

(** [{ ...item, predicted: v }] *)
Definition with_predicted (v : Q) (item : ForecastItem.t) : ForecastItem.t :=
  {| ForecastItem.predicted := v; ForecastItem.rest := ForecastItem.rest item |}.

Definition adjust_steps (item : ForecastItem.t) : ForecastItem.t :=
  with_predicted
    (Math_round (ForecastItem.predicted item * stepMultiplier + extraSteps * (15 # 100)))
    item.

Definition adjust_heartRate (item : ForecastItem.t) : ForecastItem.t :=
  with_predicted
    (Qmax 55 (Math_round (ForecastItem.predicted item - sleepImpact - hydrationImpact)))
    item.

Definition adjust_sleep (item : ForecastItem.t) : ForecastItem.t :=
  with_predicted
    (Qmin (95 # 10) (Qmax 5 (ForecastItem.predicted item + sleepIncrease * (8 # 10))))
    item.

(** The [if / else if] chain on [risk.type]. *)
Definition newPercentage (risk : Risk.t) : Q :=
  if String.eqb (Risk.type risk) "fatigue"
  then Qmax 5 (Risk.percentage risk - sleepIncrease * 15 - hydrationIncrease * 8)
  else if String.eqb (Risk.type risk) "hydration"
  then Qmax 5 (Risk.percentage risk - hydrationIncrease * 25)
  else if String.eqb (Risk.type risk) "sleep"
  then Qmax 10 (Risk.percentage risk - sleepIncrease * 20)
  else if String.eqb (Risk.type risk) "stress"
  then Qmax 8 (Risk.percentage risk - sleepIncrease * 10 - (extraSteps / 1000) * 3)
  else Risk.percentage risk.

(** [newPercentage <= 25 ? 'low' : newPercentage <= 50 ? 'medium' : 'high'] *)
Definition level_of (p : Q) : string :=
  if Qle_bool p 25 then "low" else if Qle_bool p 50 then "medium" else "high".

Definition adjust_risk (risk : Risk.t) : Risk.t :=
  let np := newPercentage risk in
  {| Risk.type := Risk.type risk;
     Risk.percentage := Math_round np;
     Risk.level := level_of np;
     Risk.rest := Risk.rest risk |}.

(** The object [{ ...adjusted, risks: newRisks }]. *)
Record Simulation := {
  steps : list ForecastItem.t;
  heartRate : list ForecastItem.t;
  sleep : list ForecastItem.t;
  risks : list Risk.t
}.

Definition simulateForecast : Simulation :=
  {| steps := map adjust_steps (Forecast.steps (mockForecastData mock));
     heartRate := map adjust_heartRate (Forecast.heartRate (mockForecastData mock));
     sleep := map adjust_sleep (Forecast.sleep (mockForecastData mock));
     risks := map adjust_risk (mockRiskData mock) |}.

End Simulate.
End Simulator.

(** ** Vocabulary of the statements *)

(** The entries of a payload's time series for one metric, in input order. *)
Definition items_of (m : string) (ts : list TimeseriesItem) : list TimeseriesItem :=
  filter (fun item => metric item = m) ts.


(** The chart point carries the item's value divided by 1000 and rounded to
    one decimal place. *)
Definition liters_1dp (item : TimeseriesItem) (pt : Point) : Prop :=
  exists v, pt !! "value" = Some (PNum v) /\ round_at 10 (value item / 1000) v = true.

Definition summary_of (p : BackendData) : Summary :=
  default Transformer.empty_summary (summary p).

Definition nonneg_opt (x : option Q) : Prop :=
  match x with Some v => 0 <= v | None => True end.

(** Every numeric field of a metric set is non-negative. *)
Definition nonneg_metrics (m : Metrics) : Prop :=
  0 <= totalPatients m /\ 0 <= activePatients m /\ 0 <= avgAge m /\
  0 <= criticalCases m /\ 0 <= avgSteps m /\ 0 <= avgHeartRate m /\
  0 <= avgSleep m /\ 0 <= avgWater m /\ 0 <= stepsChange m /\
  0 <= heartRateChange m /\ 0 <= sleepChange m /\ 0 <= waterChange m.

(** [total_users] as a head count: absent, zero, or at least one. *)
Definition head_count (x : option Q) : Prop :=
  match x with Some v => v == 0 \/ 1 <= v | None => True end.

(** A payload none of whose figures is negative. *)
Definition nonneg_payload (p : BackendData) : Prop :=
  head_count (total_users (summary_of p)) /\
  nonneg_opt (steps_avg_7d (summary_of p)) /\
  nonneg_opt (heart_rate_avg_7d (summary_of p)) /\
  nonneg_opt (sleep_avg_7d (summary_of p)) /\
  nonneg_opt (water_avg_7d (summary_of p)) /\
  Forall (fun t => 0 <= change_percent t) (default [] (trends p)).

(** *** Sample payloads *)

Definition payload_of_summary (s : Summary) (tr : list Trend) (ts : list TimeseriesItem)
  : BackendData :=
  {| summary := Some s; trends := Some tr; anomalies := None; timeseries := Some ts |}.


(** Steps fell by 5 percent; the user count is below zero. *)
Definition falling_steps : BackendData :=
  payload_of_summary
    {| total_users := Some (-3); steps_avg_7d := Some 8420; heart_rate_avg_7d := Some 72;
       sleep_avg_7d := Some (72 # 10); water_avg_7d := Some 2200 |}
    [ {| trend_metric := "steps"; change_percent := -5 |} ] [].

(** Two water readings in millilitres, and readings of the other metrics. *)
Definition one_day : BackendData :=
  payload_of_summary
    {| total_users := Some 3; steps_avg_7d := Some 8420; heart_rate_avg_7d := Some 72;
       sleep_avg_7d := Some (72 # 10); water_avg_7d := Some 2200 |}
    [ {| trend_metric := "sleep"; change_percent := 4 |} ]
    [ {| metric := "water"; day := "2024-01-15"; value := 2250 |};
      {| metric := "steps"; day := "2024-01-15"; value := 8500 |};
      {| metric := "heart_rate"; day := "2024-01-15"; value := 72 |};
      {| metric := "water"; day := "2024-01-16"; value := 1849 |};
      {| metric := "sleep"; day := "2024-01-15"; value := 75 # 10 |} ].

(** *** Uploads and stored snapshots *)

(** The environment lets an upload of [file] go through: the probe
    resolves, the server accepts the file and names the data set [id], and
    the summary of [id] transforms to [t]. *)
Definition upload_accepted (env : Env) (file : File) (id : string) (t : Transformed.t) : Prop :=
  (exists r, health env = Resolved r) /\
  (exists r reply, upload env file = Resolved r /\ Response.ok r = true /\
                   Response.json r = Some reply /\ reply_data_id reply = Some id) /\
  Str.truthy id = true /\
  (exists r full, data_summary env id = Resolved r /\ Response.ok r = true /\
                  Response.json r = Some full /\
                  Transformer.transformBackendData full = Return t).

(** The object that [JSON.parse(localStorage.getItem(key) || '{}')] yields,
    if it yields one: it may also throw, or yield [null]. *)
Definition parsed (item : option StoredItem) : option Blob.t :=
  match item with
  | None | Some EmptyItem => Some Blob.empty
  | Some Malformed | Some StoredNull => None
  | Some (Stored b) => Some b
  end.

(** The six fields of the store that [loadUserData] takes from a stored
    snapshot [b] whose metrics are [m]. *)
Definition overwritten_by (b : Blob.t) (m : Metrics) (s : Store.t) : Prop :=
  Store.metrics s = m /\
  Store.trendData s = default [] (Blob.trendData b) /\
  Store.heartRateData s = Some (default [] (Blob.heartRateData b)) /\
  Store.sleepData s = Some (default [] (Blob.sleepData b)) /\
  Store.waterData s = Some (default [] (Blob.waterData b)) /\
  Store.currentDataId s = Blob.data_id b.

(** The snapshot held under a key of local storage, if one is. *)
Definition stored_blob (w : World) (key : string) : option Blob.t :=
  match localStorage w !! key with
  | Some (Stored b) => Some b
  | _ => None
  end.

(** The generic insight of an upload. *)
Definition processed_insight (i : Insight.t) : Prop :=
  Insight.type i = "success" /\ Insight.title i = "Health Data Processed".

(** The insight that depends on the number of anomalies. *)
Definition assessment_insight (anomalies : nat) (i : Insight.t) : Prop :=
  Insight.title i = "Health Assessment" /\
  Insight.type i = (if (0 <? anomalies)%nat then "warning" else "success").

(** *** A sample session *)

Definition sample_metrics : Metrics :=
  {| totalPatients := 1247; activePatients := 1100; avgAge := 42; criticalCases := 23;
     avgSteps := 8420; avgHeartRate := 72; avgSleep := 72 # 10; avgWater := 21 # 10;
     stepsChange := 12; heartRateChange := -2; sleepChange := 5; waterChange := 8;
     userGrowth := None |}.

Definition sample_insight (k : Z) : Insight.t :=
  {| Insight.id := k; Insight.type := "info"; Insight.title := "Weekly summary";
     Insight.description := "Steps are up this week"; Insight.timestamp := "1 hour ago" |}.

Definition forecast_row (v : Q) : ForecastItem.t :=
  {| ForecastItem.predicted := v; ForecastItem.rest := ∅ |}.

Definition risk_row (ty : string) (pct : Q) (lvl : string) : Risk.t :=
  {| Risk.type := ty; Risk.percentage := pct; Risk.level := lvl; Risk.rest := ∅ |}.

Definition sample_mock : MockData :=
  {| mockMetrics := sample_metrics;
     mockTrendData := [];
     mockDiseaseData := [];
     mockAgeGroups := [];
     mockInsights := [sample_insight 1; sample_insight 2; sample_insight 3];
     mockForecastData :=
       {| Forecast.steps := [forecast_row 8400; forecast_row 8650];
          Forecast.heartRate := [forecast_row 72; forecast_row 70];
          Forecast.sleep := [forecast_row (72 # 10); forecast_row (75 # 10)] |};
     mockRiskData :=
       [ risk_row "fatigue" 40 "medium"; risk_row "hydration" 30 "medium";
         risk_row "sleep" 45 "medium"; risk_row "stress" 60 "high" ] |}.

Definition ok_response {A} (v : A) : Fetched A :=
  Resolved {| Response.ok := true; Response.statusText := "OK";
              Response.text := ""; Response.json := Some v |}.

(** The summary of a data set with [n] users. *)
Definition payload_users (n : Q) : BackendData :=
  {| summary := Some {| total_users := Some n; steps_avg_7d := Some 8000;
                        heart_rate_avg_7d := None; sleep_avg_7d := None;
                        water_avg_7d := None |};
     trends := None;
     anomalies := Some [ {| reason := Some "Urgent: resting heart rate" |} ];
     timeseries := Some [ {| metric := "steps"; day := "2024-01-15"; value := 8000 |} ] |}.

(** A backend that is up (or not) and serves a data set with [n] users. *)
Definition sample_env (up : bool) (n : Q) : Env :=
  {| health := if up then ok_response tt else Rejected "Failed to fetch";
     upload := fun _ => ok_response {| reply_data_id := Some "abc" |};
     data_summary := fun _ => ok_response (payload_users n);
     data_trends := fun _ => ok_response [];
     Date_now := fun k => (1700000000000 + Z.of_nat k)%Z;
     toISOString := fun _ => "2023-11-14T22:13:20.000Z";
     Math_random := 1 # 3;
     generateRandomData := [];
     setItem_throws := false |}.

Definition fresh_world : World :=
  {| currentData := Store.initial sample_mock;
     localStorage := ∅; network := []; events := [] |}.

Definition csv_file : File := {| name := "week.csv"; content := "" |}.
Definition pdf_file : File := {| name := "week.pdf"; content := "" |}.

(** A snapshot as an earlier upload left it. *)
Definition stored_session : Blob.t :=
  {| Blob.metrics := Some sample_metrics;
     Blob.trendData := None;
     Blob.heartRateData := Some [];
     Blob.sleepData := None;
     Blob.waterData := None;
     Blob.diseaseData := None;
     Blob.anomalies := None;
     Blob.trends := None;
     Blob.data_id := Some "abc";
     Blob.fileName := Some "week.csv";
     Blob.uploadDate := None;
     Blob.totalPatients := None |}.

Definition returning_world : World :=
  {| currentData := Store.initial sample_mock;
     localStorage := {[ "healthApp_user_u1" := Stored stored_session ]};
     network := []; events := [] |}.

(** The upload page before any file was chosen. *)
Definition idle_page : UploadPage.PageState :=
  {| UploadPage.dragActive := false;
     UploadPage.uploading := false;
     UploadPage.uploadResult := None;
     UploadPage.uploadedData := None;
     UploadPage.savedUploads := [] |}.

(** *** The simulator *)

(** The floor of each named risk category. *)
Definition risk_floor (ty : string) : option Q :=
  if String.eqb ty "fatigue" then Some 5
  else if String.eqb ty "hydration" then Some 5
  else if String.eqb ty "sleep" then Some 10
  else if String.eqb ty "stress" then Some 8
  else None.

(** The amount taken off each named risk category, as a function of the
    sleep, steps and hydration sliders. *)
Definition risk_reduction (ty : string) (s e h : Q) : Q :=
  if String.eqb ty "fatigue" then 15 * s + 8 * h
  else if String.eqb ty "hydration" then 25 * h
  else if String.eqb ty "sleep" then 20 * s
  else if String.eqb ty "stress" then 10 * s + 3 * (e / 1000)
  else 0.

(** [lvl] is the bucket of the percentage [p]. *)
Definition bucket (p : Q) (lvl : string) : Prop :=
  (p <= 25 -> lvl = "low") /\
  (25 < p -> p <= 50 -> lvl = "medium") /\
  (50 < p -> lvl = "high").

Definition in_range_risk (r : Risk.t) : bool :=
  is_integer (Risk.percentage r) &&
  match risk_floor (Risk.type r) with
  | Some fl => Qle_bool fl (Risk.percentage r)
  | None => true
  end.




(** *** More vocabulary *)

(** The anomaly has a reason in which "Urgent" occurs. *)
Definition mentions_urgent (a : Anomaly) : Prop :=
  exists pre post, reason a = Some (pre ++ "Urgent" ++ post).

(** The percent-change field the transformer fills for a metric. *)
Definition change_field (m : string) (ms : Metrics) : Q :=
  if String.eqb m "steps" then stepsChange ms
  else if String.eqb m "heart_rate" then heartRateChange ms
  else if String.eqb m "sleep" then sleepChange ms
  else waterChange ms.

Definition tracked_metrics : list string := [ "steps"; "heart_rate"; "sleep"; "water" ].

(** [t] is the first entry of [l] for the metric [m]. *)
Definition first_trend (m : string) (l : list Trend) (t : Trend) : Prop :=
  exists pre post,
    l = (pre ++ t :: post)%list /\
    Forall (fun t' => trend_metric t' <> m) pre /\
    trend_metric t = m.

(** *** More sample environments *)


(** The sample backend answering the upload without a data id. *)
Definition sample_env_without_id : Env :=
  {| health := health (sample_env true 10);
     upload := fun _ => ok_response {| reply_data_id := None |};
     data_summary := data_summary (sample_env true 10);
     data_trends := data_trends (sample_env true 10);
     Date_now := Date_now (sample_env true 10);
     toISOString := toISOString (sample_env true 10);
     Math_random := Math_random (sample_env true 10);
     generateRandomData := generateRandomData (sample_env true 10);
     setItem_throws := false |}.

(** A browser whose entry for user [u1] is not JSON. *)
Definition corrupt_world : World :=
  {| currentData := Store.initial sample_mock;
     localStorage := {[ "healthApp_user_u1" := Malformed ]};
     network := []; events := [] |}.

(** A payload with one reading, of the metric [m]. *)
Definition reading_named (m : string) : BackendData :=
  {| summary := None; trends := None; anomalies := None;
     timeseries := Some [ {| metric := m; day := "2024-01-15"; value := 1 |} ] |}.

(** A browser whose entry for user [u1] is the text [null]. *)
Definition null_world : World :=
  {| currentData := Store.initial sample_mock;
     localStorage := {[ "healthApp_user_u1" := StoredNull ]};
     network := []; events := [] |}.

(** An entry that [loadUserData] cannot read: [JSON.parse] throws on it, or
    yields [null]. *)
Definition unreadable (item : option StoredItem) : Prop :=
  item = Some Malformed \/ item = Some StoredNull.

(** No snapshot with metrics is served to [userId]: there is no user id,
    or the entry stored for the user parses to an object without
    [metrics]. *)
Definition no_snapshot (userId : option string) (w : World) : Prop :=
  Str.opt_truthy userId = false \/
  exists b, parsed (localStorage w !! userKey userId) = Some b /\ Blob.metrics b = None.

(** The store of [w] names a data set whose summary the backend serves and
    the transformer turns into [t]. *)
Definition session_summary (env : Env) (w : World) (id : string) (t : Transformed.t) : Prop :=
  Store.currentDataId (currentData w) = Some id /\
  Str.truthy id = true /\
  exists r full, data_summary env id = Resolved r /\ Response.ok r = true /\
                 Response.json r = Some full /\
                 Transformer.transformBackendData full = Return t.

(** The world [w] with the store [s], after one more request. *)
Definition after_request (req : Request) (s : Store.t) (w : World) : World :=
  {| currentData := s;
     localStorage := localStorage w;
     network := (network w ++ [req])%list;
     events := events w |}.

Definition summary_request (id : string) : Request :=
  GET ("http://localhost:8000/data/" ++ id ++ "/summary").



(** A world whose store names the data set [abc]. *)
Definition session_world : World :=
  {| currentData := FrontEndApi.set_currentDataId (Some "abc") (Store.initial sample_mock);
     localStorage := ∅; network := []; events := [] |}.


(** *** The health chart *)

(** The sum of the readings. *)
Definition total (l : list TimeseriesItem) : Q :=
  fold_right (fun item acc => value item + acc) 0 l.

(** The tallies of one metric: the fold of [HealthChart.tally_step] seen
    from a single key. *)
Definition key_step (sc : option Q * option Q) (v : Q) : option Q * option Q :=
  let fresh :=
    match fst sc with
    | Some s => negb (Num.truthy s)
    | None => true
    end in
  let s0 := if fresh then Some 0 else fst sc in
  let c0 := if fresh then Some 0 else snd sc in
  (Some (default 0 s0 + v), Some (default 0 c0 + 1)).

(** A segment of the chart: positive whole value. *)
Definition chart_segment_ok (o : Obj) : Prop :=
  exists v, o !! "value" = Some (PNum v) /\ 0 < v /\ is_integer v = true.

Definition chart_names : list (option Prim) :=
  [ Some (PStr "Steps"); Some (PStr "Heart rate"); Some (PStr "Sleep"); Some (PStr "Water") ].

(** A day without a step, recorded as a reading of 0. *)
Definition rest_day : list TimeseriesItem :=
  [ {| metric := "steps"; day := "2024-01-14"; value := 0 |} ].

(** *** The simulator's tables *)

(** The level printed beside a risk percentage is that of a figure that
    rounds to the percentage. *)
Definition level_fits (r : Risk.t) : Prop :=
  (Risk.level r = "low" /\ Risk.percentage r <= 25) \/
  (Risk.level r = "medium" /\ 25 <= Risk.percentage r /\ Risk.percentage r <= 50) \/
  (Risk.level r = "high" /\ 50 <= Risk.percentage r).

Definition not_above (a b : ForecastItem.t) : Prop :=
  ForecastItem.predicted b <= ForecastItem.predicted a.

Definition risk_not_above (a b : Risk.t) : Prop :=
  Risk.percentage b <= Risk.percentage a.

(** What every returned row keeps of its baseline row, whatever the
    sliders: type and other fields; a whole percentage not below the floor
    of its category; a level that fits the percentage up to rounding. *)
Definition kept_row (base out : Risk.t) : Prop :=
  Risk.type out = Risk.type base /\
  Risk.rest out = Risk.rest base /\
  in_range_risk out = true /\
  level_fits out.

(** A baseline percentage that is a whole number from 0 to 100. *)
Definition whole_percentage (r : Risk.t) : Prop :=
  is_integer (Risk.percentage r) = true /\
  0 <= Risk.percentage r /\ Risk.percentage r <= 100.

(** Slider values on which the source's binary64 arithmetic is exact:
    non-negative multiples of a quarter (of an hour, of a litre), and of
    250 steps. *)
Definition on_grid (s e h : Q) : Prop :=
  (0 <= s /\ is_integer (4 * s) = true) /\
  (0 <= e /\ is_integer (e / 250) = true) /\
  (0 <= h /\ is_integer (4 * h) = true).

(** The baseline percentage less the category's reduction, not below the
    category's floor; the baseline itself for a row of another type. *)
Definition unrounded (s e h : Q) (base : Risk.t) : Q :=
  match risk_floor (Risk.type base) with
  | Some fl => Qmax fl (Risk.percentage base - risk_reduction (Risk.type base) s e h)
  | None => Risk.percentage base
  end.

(** For a whole baseline percentage: the returned row has the level of the
    unrounded figure and shows that figure rounded. *)
Definition exact_row (s e h : Q) (base out : Risk.t) : Prop :=
  whole_percentage base ->
  Risk.percentage out = Math_round (unrounded s e h base) /\
  bucket (unrounded s e h base) (Risk.level out).

(** For the sleep row of a whole baseline percentage: exactly 20 points
    off the baseline, not below 10, with the level of the percentage
    returned. *)
Definition sleep_20_off (base out : Risk.t) : Prop :=
  Risk.type base = "sleep" ->
  whole_percentage base ->
  Risk.percentage out == Qmax 10 (Risk.percentage base - 20) /\
  bucket (Risk.percentage out) (Risk.level out).

(** The level goes by the percentage returned. *)
Definition level_by_percentage (r : Risk.t) : Prop :=
  bucket (Risk.percentage r) (Risk.level r).


(** The sample tables with the fatigue risk at 29. *)
Definition borderline_mock : MockData :=
  {| mockMetrics := mockMetrics sample_mock;
     mockTrendData := [];
     mockDiseaseData := [];
     mockAgeGroups := [];
     mockInsights := [];
     mockForecastData := mockForecastData sample_mock;
     mockRiskData := [ risk_row "fatigue" 29 "medium" ] |}.

(** *** The upload page *)

(** The argument the page passes to [saveUserUpload] for the result [res]. *)
Definition history_entry (file : File) (res : UploadResult.t) : UploadPage.SavedUpload :=
  {| UploadPage.saved_fileName := name file;
     UploadPage.saved_data_id := UploadResult.data_id res;
     UploadPage.saved_metrics := UploadResult.uploadData res ≫= Blob.metrics |}.

(** The calls to [saveUserUpload] after a successful upload: one more for a
    signed-in user, none for a visitor. *)
Definition history_after (user : option UploadPage.User) (file : File)
    (res : UploadResult.t) (before : list UploadPage.SavedUpload)
  : list UploadPage.SavedUpload :=
  match user with
  | Some _ => (before ++ [history_entry file res])%list
  | None => before
  end.

Definition sample_user : UploadPage.User := {| UploadPage.user_id := Some "u1" |}.
(** * Properties *)

(** ** Rounding *)

Lemma Math_round_bounds (x : Q) :
  Math_round x - (1 # 2) <= x /\ x < Math_round x + (1 # 2).
Proof.
  unfold Math_round.
  pose proof (Qfloor_le (x + (1 # 2))) as Hle.
  pose proof (Qlt_floor (x + (1 # 2))) as Hlt.
  rewrite inject_Z_plus in Hlt. change (inject_Z 1) with 1 in Hlt.
  split; lra.
Qed.

Lemma Math_round_integer (x : Q) : is_integer (Math_round x) = true.
Proof.
  unfold is_integer, Math_round. apply Qeq_bool_iff.
  rewrite Qfloor_Z. reflexivity.
Qed.

Lemma Math_round_of_integer (x : Q) : is_integer x = true -> Math_round x == x.
Proof.
  unfold is_integer, Math_round. intros H. apply Qeq_bool_iff in H.
  rewrite <- H at 2.
  assert (Hx : x + (1 # 2) == inject_Z (Qfloor x) + (1 # 2)) by (rewrite H; reflexivity).
  rewrite Hx. 
  assert (Qfloor (inject_Z (Qfloor x) + (1 # 2)) = Qfloor x) as ->; [|reflexivity].
  set (n := Qfloor x).
  pose proof (Qfloor_le (inject_Z n + (1 # 2))) as Hle.
  pose proof (Qlt_floor (inject_Z n + (1 # 2))) as Hlt.
  set (m := Qfloor (inject_Z n + (1 # 2))) in *.
  assert (inject_Z m < inject_Z (n + 1)) by (rewrite inject_Z_plus; change (inject_Z 1) with 1; lra).
  assert (inject_Z n < inject_Z (m + 1)) by (rewrite inject_Z_plus in *; change (inject_Z 1) with 1 in *; lra).
  rewrite <- Zlt_Qlt in *. lia.
Qed.

Lemma round_at_iff (k x y : Q) :
  round_at k x y = true <->
  inject_Z (Qfloor (y * k)) == y * k /\ y * k - (1 # 2) <= x * k /\ x * k < y * k + (1 # 2).
Proof.
  unfold round_at, is_integer.
  rewrite !andb_true_iff, negb_true_iff, Qeq_bool_iff, Qle_bool_iff.
  rewrite <- not_true_iff_false, Qle_bool_iff.
  split; intros [[H1 H2] H3] || intros (H1 & H2 & H3); repeat split; try assumption.
  - apply Qnot_le_lt; assumption.
  - apply Qlt_not_le; assumption.
Qed.

Lemma round_at_Math_round (k x : Q) :
  ~ k == 0 -> round_at k x (Math_round (x * k) / k) = true.
Proof.
  intros Hk. apply round_at_iff.
  assert (Hy : Math_round (x * k) / k * k == Math_round (x * k)) by (field; exact Hk).
  pose proof (Math_round_bounds (x * k)) as [Hlo Hhi].
  split; [|split].
  - rewrite (Qfloor_comp _ _ Hy), Hy. unfold Math_round. rewrite Qfloor_Z. reflexivity.
  - lra.
  - lra.
Qed.

(** Rounding to a unit determines the result. *)
Lemma round_at_unique (k x y1 y2 : Q) :
  ~ k == 0 -> round_at k x y1 = true -> round_at k x y2 = true -> y1 == y2.
Proof.
  intros Hk H1 H2.
  apply round_at_iff in H1 as (Hn1 & Hlo1 & Hhi1).
  apply round_at_iff in H2 as (Hn2 & Hlo2 & Hhi2).
  assert (Hlt12 : inject_Z (Qfloor (y1 * k)) < inject_Z (Qfloor (y2 * k) + 1))
    by (rewrite inject_Z_plus; change (inject_Z 1) with 1; lra).
  assert (Hlt21 : inject_Z (Qfloor (y2 * k)) < inject_Z (Qfloor (y1 * k) + 1))
    by (rewrite inject_Z_plus; change (inject_Z 1) with 1; lra).
  rewrite <- Zlt_Qlt in Hlt12, Hlt21.
  assert (Heq : Qfloor (y1 * k) = Qfloor (y2 * k)) by lia.
  assert (Hyk : y1 * k == y2 * k) by (rewrite <- Hn1, <- Hn2, Heq; reflexivity).
  apply Qmult_inj_r in Hyk; assumption.
Qed.


(** ** The transformer *)

Section TransformerFacts.
Import Transformer.

Lemma chart_step_Return acc item acc' :
  chart_step acc item = Return acc' ->
  inherited (metric item) = false /\
  acc' = <[metric item := (default [] (acc !! metric item) ++ [chart_point item])%list]> acc.
Proof.
  unfold chart_step. destruct (inherited (metric item)); [discriminate|].
  intros [= <-]. split; reflexivity.
Qed.




Lemma build_chartData_throws ts :
  Exists (fun item => inherited (metric item) = true) ts ->
  exists msg, build_chartData ts = Throw msg.
Proof.
  unfold build_chartData. generalize (∅ : gmap string (list Point)).
  induction ts as [|item ts IH]; intros acc Hex; simpl.
  - inversion Hex.
  - unfold chart_step at 1. destruct (inherited (metric item)) eqn:Hi; simpl.
    + eauto.
    + apply IH. inversion Hex; subst; [congruence | assumption].
Qed.


Lemma transformBackendData_Return p r :
  transformBackendData p = Return r ->
  exists cd, build_chartData (default [] (timeseries p)) = Return cd /\
    Transformed.metrics r =
      {| totalPatients := num_or (total_users (summary_of p)) 1;
         activePatients := num_or (total_users (summary_of p)) 1;
         avgAge := 35;
         criticalCases :=
           inject_Z (Z.of_nat (length (List.filter urgent (default [] (anomalies p)))));
         avgSteps := Math_round (num_or (steps_avg_7d (summary_of p)) 0);
         avgHeartRate := Math_round (num_or (heart_rate_avg_7d (summary_of p)) 0);
         avgSleep := Math_round (num_or (sleep_avg_7d (summary_of p)) 0 * 10) / 10;
         avgWater := Math_round (num_or (water_avg_7d (summary_of p)) 0);
         stepsChange := getTrendChange (default [] (trends p)) "steps";
         heartRateChange := getTrendChange (default [] (trends p)) "heart_rate";
         sleepChange := getTrendChange (default [] (trends p)) "sleep";
         waterChange := getTrendChange (default [] (trends p)) "water";
         userGrowth := None |} /\
    Transformed.trendData r =
      match cd !! "steps" with
      | Some l => l
      | None => plain_series "steps" (default [] (timeseries p))
      end /\
    Transformed.heartRateData r = default [] (cd !! "heart_rate") /\
    Transformed.sleepData r = default [] (cd !! "sleep") /\
    Transformed.waterData r = default [] (cd !! "water") /\
    Transformed.anomalies r = default [] (anomalies p) /\
    Transformed.trends r = default [] (trends p).
Proof.
  unfold transformBackendData, summary_of.
  destruct (build_chartData (default [] (timeseries p))) as [cd|msg]; simpl; [|discriminate].
  intros [= <-]. exists cd. repeat split; reflexivity.
Qed.





Lemma Math_round_nonneg (x : Q) : 0 <= x -> 0 <= Math_round x.
Proof.
  intros Hx. pose proof (Math_round_bounds x) as [_ Hhi].
  unfold Math_round in *. set (n := Qfloor (x + (1 # 2))) in *.
  assert (Hn : inject_Z (-1) < inject_Z n) by (change (inject_Z (-1)) with (-1 # 1); lra).
  rewrite <- Zlt_Qlt in Hn.
  change 0 with (inject_Z 0). rewrite <- Zle_Qle. lia.
Qed.

Lemma num_or_nonneg (x : option Q) (d : Q) : nonneg_opt x -> 0 <= d -> 0 <= num_or x d.
Proof.
  destruct x as [v|]; simpl; intros Hx Hd; [|exact Hd].
  destruct (Num.truthy v); assumption.
Qed.

Lemma num_or_head_count (x : option Q) : head_count x -> 1 <= num_or x 1.
Proof.
  destruct x as [v|]; simpl; [|intros _; apply Qle_refl].
  unfold Num.truthy. intros [Hz|Hge].
  - apply Qeq_bool_iff in Hz. rewrite Hz. simpl. apply Qle_refl.
  - destruct (Qeq_bool v 0); simpl; [apply Qle_refl | exact Hge].
Qed.

Lemma getTrendChange_nonneg (l : list Trend) (m : string) :
  Forall (fun t => 0 <= change_percent t) l -> 0 <= getTrendChange l m.
Proof.
  unfold getTrendChange. intros Hall.
  destruct (find _ l) as [t|] eqn:Hfind; [|apply Qle_refl].
  apply find_some in Hfind as [Hin _].
  rewrite List.Forall_forall in Hall. apply Hall. exact Hin.
Qed.

Lemma getTrendChange_absent (l : list Trend) (m : string) :
  Forall (fun t => trend_metric t <> m) l -> getTrendChange l m = 0.
Proof.
  unfold getTrendChange. induction 1 as [|t l Ht _ IH]; simpl; [reflexivity|].
  destruct (String.eqb_spec (trend_metric t) m); [contradiction | exact IH].
Qed.

(** C2 (as amended).  For a payload none of whose figures is negative and
    whose user count is absent, zero or at least one, every numeric field of
    the metric set is non-negative and [totalPatients] and [activePatients]
    are at least 1. *)
Theorem metrics_nonneg (p : BackendData) (r : Transformed.t) :
  nonneg_payload p ->
  transformBackendData p = Return r ->
  nonneg_metrics (Transformed.metrics r) /\
  1 <= totalPatients (Transformed.metrics r) /\
  1 <= activePatients (Transformed.metrics r).
Proof.
  intros (Hu & Hst & Hhr & Hsl & Hwa & Htr) H.
  apply transformBackendData_Return in H as (cd & _ & -> & _).
  pose proof (num_or_head_count _ Hu) as Husers.
  unfold nonneg_metrics; simpl.
  repeat split; try exact Husers;
    try (apply getTrendChange_nonneg; exact Htr);
    try (apply Math_round_nonneg, num_or_nonneg; [assumption | apply Qle_refl]).
  - apply Qle_trans with 1; [discriminate | exact Husers].
  - apply Qle_trans with 1; [discriminate | exact Husers].
  - discriminate.
  - change 0 with (inject_Z 0). rewrite <- Zle_Qle. lia.
  - assert (0 <= Math_round (num_or (sleep_avg_7d (summary_of p)) 0 * 10)).
    { apply Math_round_nonneg.
      apply Qmult_le_0_compat; [|discriminate].
      apply num_or_nonneg; [exact Hsl | apply Qle_refl]. }
    apply Qle_shift_div_l; [reflexivity|].
    rewrite Qmult_0_l. assumption.
Qed.



(** C2, as stated, fails: a trend of -5 percent gives a negative
    [stepsChange], and a user count of -3 a [totalPatients] below 1. *)
Lemma metrics_can_be_negative :
  exists r, transformBackendData falling_steps = Return r /\
    stepsChange (Transformed.metrics r) < 0 /\
    totalPatients (Transformed.metrics r) < 1.
Proof.
  eexists. split; [vm_compute; reflexivity|]. split; reflexivity.
Qed.


Lemma metrics_nonneg_witness :
  nonneg_payload one_day /\
  exists r, transformBackendData one_day = Return r /\
    1 <= totalPatients (Transformed.metrics r).
Proof.
  assert (Hp : nonneg_payload one_day).
  { unfold nonneg_payload, one_day; simpl.
    repeat split; try discriminate.
    - right. discriminate.
    - repeat constructor; discriminate. }
  split; [exact Hp|].
  eexists. split; [vm_compute; reflexivity|].
  apply (metrics_nonneg one_day _ Hp eq_refl).
Defined.

(** The accessor [getWaterData] is not the transformer: in
    [src/FrontEnd/src/services/api.js] it scales like the transformer, in
    the second copy it rounds the raw value without dividing by 1000. *)
Lemma getWaterData_of_the_two_copies (env : Env) (w : World) (id : string)
    (r : Response.t (list TimeseriesItem)) (ts : list TimeseriesItem) :
  Store.currentDataId (currentData w) = Some id ->
  Str.truthy id = true ->
  data_trends env id = Resolved r ->
  Response.ok r = true ->
  Response.json r = Some ts ->
  fst (FrontEndApi.getWaterData env w) = Return (FrontEndApi.water_series ts) /\
  Forall2 liters_1dp (items_of "water" ts) (FrontEndApi.water_series ts) /\
  fst (AltApi.getWaterData env w) = Return (AltApi.water_series ts) /\
  Forall2 (fun item pt => exists v, pt !! "value" = Some (PNum v) /\
                                    round_at 10 (value item) v = true)
          (items_of "water" ts) (AltApi.water_series ts).
Proof.
  intros Hid Htruthy Hfetch Hok Hjson.
  unfold FrontEndApi.getWaterData, AltApi.getWaterData, FrontEndApi.fetch_water,
    AltApi.fetch_water, bind, try_catch, get_store, fetch, json_of, modify_store, ret.
  simpl. rewrite Hid. simpl. rewrite Htruthy, Hfetch. simpl. rewrite Hok, Hjson. simpl.
  unfold FrontEndApi.water_series, AltApi.water_series. fold (items_of "water" ts).
  repeat split.
  - induction (items_of "water" ts) as [|item l IH]; simpl; constructor; [|exact IH].
    eexists. split; [apply lookup_insert_eq|]. apply round_at_Math_round. discriminate.
  - induction (items_of "water" ts) as [|item l IH]; simpl; constructor; [|exact IH].
    eexists. split; [apply lookup_insert_eq|]. apply round_at_Math_round. discriminate.
Qed.

Example water_series_of_the_two_copies :
  map (fun pt => pt !! "value")
      (FrontEndApi.water_series (default [] (timeseries one_day))) =
    [ Some (PNum (23 # 10)); Some (PNum (18 # 10)) ] /\
  map (fun pt => pt !! "value")
      (AltApi.water_series (default [] (timeseries one_day))) =
    [ Some (PNum (22500 # 10)); Some (PNum (18490 # 10)) ].   (* 2250 and 1849 *)
Proof. split; reflexivity. Qed.


End TransformerFacts.

(** ** Stepping through the monad *)

(** Expose the state passing of the monadic operations. *)
Ltac unfold_monad :=
  unfold bind, try_catch, ret, throw, lift, fetch, json_of, get_store, modify_store,
         getItem, setItem, dispatchEvent, parse_item in *.

(** Split on the innermost scrutinee of the run [H], dropping the branches
    that throw. *)
Ltac case_step H :=
  match type of H with
  | context [match ?x with _ => _ end] =>
      lazymatch x with
      | context [match _ with _ => _ end] => fail
      | _ => destruct x eqn:?; simpl in H; try discriminate H
      end
  | context [if ?x then _ else _] =>
      lazymatch x with
      | context [if _ then _ else _] => fail
      | context [match _ with _ => _ end] => fail
      | _ => destruct x eqn:?; simpl in H; try discriminate H
      end
  end.

(** What a successful [uploadFile] of the second copy did. *)
Lemma AltApi_uploadFile_Return env file userId w res w' :
  AltApi.uploadFile env file userId w = (Return res, w') ->
  exists id t,
    upload_accepted env file id t /\
    let growth :=
      AltApi.userGrowth_of
        (num_or (Blob.totalPatients
                   (default Blob.empty (parsed (localStorage w !! userKey userId)))) 0)
        (totalPatients (Transformed.metrics t)) in
    let saved :=
      FrontEndApi.blob_of_transformed t
        (AltApi.with_userGrowth growth (Transformed.metrics t))
        id (name file) (toISOString env (Date_now env 0)) in
    UploadResult.success res = true /\
    UploadResult.uploadData res = Some saved /\
    Store.metrics (currentData w') = AltApi.with_userGrowth growth (Transformed.metrics t) /\
    Store.insights (currentData w') =
      AltApi.prepend_insights (AltApi.new_insights env t) (Store.insights (currentData w)) /\
    localStorage w' =
      (if setItem_throws env then localStorage w
       else <[userKey userId := Stored saved]> (localStorage w)) /\
    network w' = (network w ++
                    [ GET "http://localhost:8000/health";
                      POST "http://localhost:8000/upload" file;
                      GET ("http://localhost:8000/data/" ++ id ++ "/summary") ])%list.
Proof.
  unfold AltApi.uploadFile, AltApi.uploadFile_body, AltApi.getDataById, AltApi.previousData,
    AltApi.API_BASE_URL.
  intros H. repeat (progress unfold_monad). simpl in H.
  repeat case_step H.
  all: injection H as <- <-; simpl.
  all: repeat match goal with
              | H : negb _ = false |- _ => apply negb_false_iff in H
              end.
  all: eexists _, _; split;
    [ unfold upload_accepted; eauto 15
    | repeat split; try reflexivity; rewrite <- !app_assoc; reflexivity ].
Qed.

(** ** The two [uploadFile]s *)

Section UnreachableBackend.

(** An accepted upload does return, unless the entry stored under the
    user's key is the text [null]. *)
Lemma AltApi_uploadFile_accepted env file userId w id t :
  upload_accepted env file id t ->
  localStorage w !! userKey userId <> Some StoredNull ->
  exists res w', AltApi.uploadFile env file userId w = (Return res, w').
Proof.
  intros ([rh Hh] & (ru & reply & Hu & Huok & Hujson & Hid) & Htruthy &
          (rs & full & Hs & Hsok & Hsjson & Ht)) Hnull.
  unfold AltApi.uploadFile, AltApi.uploadFile_body, AltApi.getDataById, AltApi.previousData.
  repeat (progress unfold_monad). simpl.
  rewrite Hh, Hu, Huok, Hujson, Hid, Htruthy. simpl.
  rewrite Hs, Hsok, Hsjson. simpl. rewrite Ht. simpl.
  destruct (localStorage w !! userKey userId) as [[| | |b]|]; try congruence;
    destruct (setItem_throws env); simpl; eauto.
Qed.

(** [uploadFile] of [src/FrontEnd/src/services/api.js] never assigns
    [currentData.insights]. *)
Lemma FrontEndApi_uploadFile_insights mock env file userId w :
  Store.insights (currentData (snd (FrontEndApi.uploadFile mock env file userId w))) =
  Store.insights (currentData w).
Proof.
  unfold FrontEndApi.uploadFile, FrontEndApi.uploadFile_body, FrontEndApi.mockUploadResponse,
    FrontEndApi.getDataById, FrontEndApi.saveUserData.
  repeat (progress unfold_monad). simpl.
  repeat match goal with
         | |- context [match ?x with _ => _ end] =>
             lazymatch x with
             | context [match _ with _ => _ end] => fail
             | _ => destruct x eqn:?; simpl
             end
         | |- context [if ?x then _ else _] =>
             lazymatch x with
             | context [if _ then _ else _] => fail
             | context [match _ with _ => _ end] => fail
             | _ => destruct x eqn:?; simpl
             end
         end; reflexivity.
Qed.

(** The patient count drawn for the mock data set lies in 50..149. *)
Lemma mock_totalPatients_range env :
  0 <= Math_random env -> Math_random env < 1 ->
  50 <= FrontEndApi.mock_totalPatients env /\ FrontEndApi.mock_totalPatients env <= 149.
Proof.
  intros H0 H1. unfold FrontEndApi.mock_totalPatients.
  pose proof (Qfloor_le (Math_random env * 100)) as Hle.
  pose proof (Qlt_floor (Math_random env * 100)) as Hlt.
  set (n := Qfloor (Math_random env * 100)) in *.
  rewrite inject_Z_plus in Hlt. change (inject_Z 1) with 1 in Hlt.
  assert (Hlo : inject_Z (-1) < inject_Z n) by (change (inject_Z (-1)) with (-1 # 1); lra).
  assert (Hhi : inject_Z n < inject_Z 100) by (change (inject_Z 100) with (100 # 1); lra).
  rewrite <- Zlt_Qlt in Hlo, Hhi.
  assert (H50 : inject_Z 0 <= inject_Z n) by (rewrite <- Zle_Qle; lia).
  assert (H99 : inject_Z n <= inject_Z 99) by (rewrite <- Zle_Qle; lia).
  change (inject_Z 0) with 0 in H50. change (inject_Z 99) with 99 in H99.
  split; lra.
Qed.

(** C1 (as amended).  When the health probe is rejected, [uploadFile] of
    [src/FrontEnd/src/services/api.js] issues no further request, stores the
    mock data set (mock id, mock metrics with a drawn patient count, the
    generated trend series, empty other series) and returns a success
    result; the other copy of [api.js] throws "File upload failed: Backend
    server is not running. ..." instead. *)
Theorem uploadFile_backend_unreachable mock env file userId w msg :
  health env = Rejected msg ->
  FrontEndApi.uploadFile mock env file userId w =
    (Return {| UploadResult.success := true;
               UploadResult.message := "File processed with mock data (backend unavailable)";
               UploadResult.fileName := Some (name file);
               UploadResult.data_id := Some ("mock_" ++ pretty (Date_now env 0));
               UploadResult.uploadData := None |},
     {| currentData :=
          FrontEndApi.assign_mock mock env
            (FrontEndApi.set_currentDataId (Some ("mock_" ++ pretty (Date_now env 0)))
               (currentData w));
        localStorage := localStorage w;
        network := (network w ++ [GET "http://localhost:8000/health"])%list;
        events := events w |}) /\
  Store.metrics
    (currentData (snd (FrontEndApi.uploadFile mock env file userId w))) =
    FrontEndApi.with_totalPatients
      (inject_Z (Qfloor (Math_random env * 100)) + 50) (mockMetrics mock) /\
  AltApi.uploadFile env file userId w =
    (Throw "File upload failed: Backend server is not running. Please start the backend server first.",
     {| currentData := currentData w;
        localStorage := localStorage w;
        network := (network w ++ [GET "http://localhost:8000/health"])%list;
        events := events w |}).
Proof.
  intros H.
  unfold FrontEndApi.uploadFile, FrontEndApi.uploadFile_body, FrontEndApi.mockUploadResponse,
    AltApi.uploadFile, AltApi.uploadFile_body.
  repeat (progress unfold_monad). simpl. rewrite H. simpl.
  repeat split; reflexivity.
Qed.

Lemma uploadFile_backend_unreachable_witness :
  health (sample_env false 10) = Rejected "Failed to fetch" /\
  fst (FrontEndApi.uploadFile sample_mock (sample_env false 10) csv_file (Some "u1") fresh_world) =
    Return {| UploadResult.success := true;
              UploadResult.message := "File processed with mock data (backend unavailable)";
              UploadResult.fileName := Some "week.csv";
              UploadResult.data_id := Some "mock_1700000000000";
              UploadResult.uploadData := None |}.
Proof.
  split; [reflexivity|].
  pose proof (uploadFile_backend_unreachable sample_mock (sample_env false 10) csv_file
                (Some "u1") fresh_world "Failed to fetch" eq_refl) as [H _].
  rewrite H. reflexivity.
Defined.

(** C1, as stated, fails on the second copy of [api.js]: with the backend
    unreachable its [uploadFile] throws. *)
Lemma uploadFile_unreachable_throws :
  fst (AltApi.uploadFile (sample_env false 10) csv_file (Some "u1") fresh_world) =
  Throw "File upload failed: Backend server is not running. Please start the backend server first.".
Proof. reflexivity. Qed.

End UnreachableBackend.

Section SuccessfulUpload.

(** C5 (as amended).  After a successful [uploadFile] of the second copy of
    [api.js] the insights are two new entries, the generic "processed"
    insight and the anomaly-count insight, followed by the first two (at
    most) of the insights held before, hence by no more than three of them;
    a successful [uploadFile] of [src/FrontEnd/src/services/api.js] leaves
    the insights as they were. *)
Theorem upload_insights mock env file userId w res w' :
  AltApi.uploadFile env file userId w = (Return res, w') ->
  (exists id t i1 i2 kept,
      upload_accepted env file id t /\
      Store.insights (currentData w') = i1 :: i2 :: kept /\
      processed_insight i1 /\
      assessment_insight (length (Transformed.anomalies t)) i2 /\
      kept = firstn 2 (Store.insights (currentData w)) /\
      (length kept <= 3)%nat) /\
  (forall res2 w2,
      FrontEndApi.uploadFile mock env file userId w = (Return res2, w2) ->
      Store.insights (currentData w2) = Store.insights (currentData w)).
Proof.
  intros H. split.
  - apply AltApi_uploadFile_Return in H as (id & t & Hacc & _ & _ & _ & Hins & _).
    unfold AltApi.prepend_insights, AltApi.new_insights in Hins. simpl in Hins.
    eexists id, t, _, _, _. split; [exact Hacc|]. split; [exact Hins|].
    repeat split; simpl.
    rewrite length_firstn. lia.
  - intros res2 w2 H2.
    pose proof (FrontEndApi_uploadFile_insights mock env file userId w) as Hfe.
    rewrite H2 in Hfe. exact Hfe.
Qed.

Lemma upload_insights_witness :
  exists res w',
    AltApi.uploadFile (sample_env true 10) csv_file (Some "u1") fresh_world = (Return res, w') /\
    map Insight.title (Store.insights (currentData w')) =
      [ "Health Data Processed"; "Health Assessment"; "Weekly summary"; "Weekly summary" ].
Proof.
  destruct (AltApi.uploadFile (sample_env true 10) csv_file (Some "u1") fresh_world)
    as [c w'] eqn:E.
  destruct c as [res|msg]; [|vm_compute in E; discriminate E].
  exists res, w'. split; [reflexivity|].
  destruct (upload_insights sample_mock _ _ _ _ _ _ E)
    as [(id & t & i1 & i2 & kept & _ & Hins & [_ H1] & [H2 _] & Hkept & _) _].
  rewrite Hins, Hkept. simpl. rewrite H1, H2. reflexivity.
Defined.

(** C5, as stated, fails: after a successful [uploadFile] of
    [src/FrontEnd/src/services/api.js] the insights are the three held
    before, none of them new; and the second copy keeps two earlier
    insights, not three, when three were held. *)
Lemma insights_after_upload_differ :
  map Insight.id
    (Store.insights
       (currentData
          (snd (FrontEndApi.uploadFile sample_mock (sample_env true 10) csv_file
                  (Some "u1") fresh_world)))) = [1%Z; 2%Z; 3%Z] /\
  UploadResult.success <$>
    (match fst (FrontEndApi.uploadFile sample_mock (sample_env true 10) csv_file
                  (Some "u1") fresh_world) with
     | Return res => Some res
     | Throw _ => None
     end) = Some true /\
  map Insight.id
    (Store.insights
       (currentData
          (snd (AltApi.uploadFile (sample_env true 10) csv_file (Some "u1") fresh_world)))) =
    [1700000000001%Z; 1700000000003%Z; 1%Z; 2%Z].
Proof. vm_compute. repeat split; reflexivity. Qed.

(** C4, evaluated on two uploads in a row by user [u1], the first of a data
    set with 10 users, the second of one with 15: the growth recorded by
    the second upload is 15.5, not 50. *)
Theorem second_upload_growth :
  let w1 := snd (AltApi.uploadFile (sample_env true 10) csv_file (Some "u1") fresh_world) in
  let second := AltApi.uploadFile (sample_env true 15) csv_file (Some "u1") w1 in
  Blob.totalPatients <$> stored_blob w1 (userKey (Some "u1")) = Some None /\
  (b ← stored_blob w1 (userKey (Some "u1")); m ← Blob.metrics b; Some (totalPatients m))
    = Some 10 /\
  userGrowth (Store.metrics (currentData (snd second))) = Some (155 # 10) /\
  AltApi.userGrowth_of 10 15 = 50.
Proof. vm_compute. repeat split; reflexivity. Qed.

(** The growth an upload records, by what is stored under the user's key. *)
Lemma upload_growth_formula env file userId w res w' :
  AltApi.uploadFile env file userId w = (Return res, w') ->
  exists id t,
    upload_accepted env file id t /\
    userGrowth (Store.metrics (currentData w')) =
      Some (AltApi.userGrowth_of
              (num_or (Blob.totalPatients
                         (default Blob.empty (parsed (localStorage w !! userKey userId)))) 0)
              (totalPatients (Transformed.metrics t))).
Proof.
  intros H.
  apply AltApi_uploadFile_Return in H as (id & t & Hacc & _ & _ & Hm & _).
  exists id, t. split; [exact Hacc|]. rewrite Hm. reflexivity.
Qed.

Lemma first_upload_growth (newTotal : Q) :
  AltApi.userGrowth_of 0 newTotal = if Qlt_le_dec 1 newTotal then 155 # 10 else 82 # 10.
Proof. reflexivity. Qed.

(** Whatever was uploaded before, the snapshot it stored has no top-level
    [totalPatients], so the next upload under the same key takes the
    previous count to be 0. *)
Lemma growth_after_upload env1 file1 env2 file2 userId w res1 w1 res2 w2 :
  AltApi.uploadFile env1 file1 userId w = (Return res1, w1) ->
  setItem_throws env1 = false ->
  AltApi.uploadFile env2 file2 userId w1 = (Return res2, w2) ->
  userGrowth (Store.metrics (currentData w2)) = Some (155 # 10) \/
  userGrowth (Store.metrics (currentData w2)) = Some (82 # 10).
Proof.
  intros H1 Hset H2.
  apply AltApi_uploadFile_Return in H1 as (id1 & t1 & _ & _ & _ & _ & _ & Hls & _).
  apply AltApi_uploadFile_Return in H2 as (id2 & t2 & _ & _ & _ & Hm & _).
  rewrite Hset in Hls. rewrite Hm, Hls, lookup_insert_eq. simpl.
  unfold AltApi.userGrowth_of. simpl.
  destruct (Qlt_le_dec 1 (totalPatients (Transformed.metrics t2))); auto.
Qed.

End SuccessfulUpload.

(** ** [loadUserData] *)

Section LoadFacts.

Lemma parse_item_parsed key w b :
  parsed (localStorage w !! key) = Some b -> parse_item key w = (Return (Some b), w).
Proof.
  unfold parse_item, getItem, bind, ret, throw, parsed.
  destruct (localStorage w !! key) as [[| | |b']|]; intros [= <-]; reflexivity.
Qed.

(** C10.  [loadUserData] writes to the store.  When the object parsed from
    the user's key (the guest key without a user id) has a [metrics] field,
    both copies of [loadUserData] return that object and overwrite
    [metrics], [trendData], [heartRateData], [sleepData], [waterData] and
    [currentDataId] of the store with its values (an absent series is
    stored as the empty list); when it has none they return [null] and the
    store, local storage included, is left as it was. *)
Theorem loadUserData_effect mock userId w b :
  parsed (localStorage w !! userKey userId) = Some b ->
  match Blob.metrics b with
  | Some m =>
      (exists w', AltApi.loadUserData userId w = (Return (Some b), w') /\
                  overwritten_by b m (currentData w') /\
                  localStorage w' = localStorage w) /\
      (exists w', FrontEndApi.loadUserData mock userId w = (Return (Some b), w') /\
                  overwritten_by b m (currentData w') /\
                  localStorage w' = localStorage w)
  | None =>
      AltApi.loadUserData userId w = (Return None, w) /\
      FrontEndApi.loadUserData mock userId w = (Return None, w)
  end.
Proof.
  intros Hb. apply parse_item_parsed in Hb.
  destruct (Blob.metrics b) as [m|] eqn:Hm;
    unfold AltApi.loadUserData, FrontEndApi.loadUserData, bind;
    rewrite Hb, Hm.
  - split; eexists; (split; [reflexivity|]); simpl;
      (split; [repeat split | reflexivity]).
  - split; reflexivity.
Qed.

Lemma loadUserData_effect_witness :
  parsed (localStorage returning_world !! userKey (Some "u1")) = Some stored_session /\
  Store.currentDataId
    (currentData (snd (AltApi.loadUserData (Some "u1") returning_world))) = Some "abc".
Proof.
  split; [reflexivity|].
  pose proof (loadUserData_effect sample_mock (Some "u1") returning_world stored_session eq_refl)
    as H.
  simpl in H. destruct H as [(w' & Hrun & Hov & _) _].
  rewrite Hrun. simpl. destruct Hov as (_ & _ & _ & _ & _ & Hid). exact Hid.
Defined.

(** A stored string that is not JSON makes [loadUserData] throw. *)
Lemma loadUserData_malformed mock userId w :
  localStorage w !! userKey userId = Some Malformed ->
  AltApi.loadUserData userId w = (Throw "Unexpected token in JSON", w) /\
  FrontEndApi.loadUserData mock userId w = (Throw "Unexpected token in JSON", w).
Proof.
  intros H.
  unfold AltApi.loadUserData, FrontEndApi.loadUserData, parse_item, getItem, bind, ret, throw.
  rewrite H. split; reflexivity.
Qed.

(** So does the stored text [null], at the read of [userData.metrics]. *)
Lemma loadUserData_null mock userId w :
  localStorage w !! userKey userId = Some StoredNull ->
  AltApi.loadUserData userId w = (Throw (null_read "metrics"), w) /\
  FrontEndApi.loadUserData mock userId w = (Throw (null_read "metrics"), w).
Proof.
  intros H.
  unfold AltApi.loadUserData, FrontEndApi.loadUserData, parse_item, getItem, bind, ret, throw.
  rewrite H. split; reflexivity.
Qed.

End LoadFacts.

(** ** The upload page *)

Section PageFacts.
Import UploadPage.

(** C9.  A file whose name does not end in [.csv] is rejected by the upload
    handler with a failure result, whatever [uploadFile] it is built with:
    the world, and with it the list of requests issued, is unchanged, so
    neither the health probe nor the upload request is made. *)
Theorem handleFile_rejects_non_csv
    (uploadFile : File -> option string -> M UploadResult.t)
    (user : option User) (file : File) (p : PageState) (w : World) :
  Str.endsWith ".csv" (name file) = false ->
  let '(p', w') := handleFile uploadFile user file p w in
  uploadResult p' = Some (failure "Please upload a CSV file only.") /\
  UploadResult.success <$> uploadResult p' = Some false /\
  uploading p' = uploading p /\
  w' = w /\
  network w' = network w.
Proof.
  intros H. unfold handleFile. rewrite H. simpl. repeat split; reflexivity.
Qed.

Lemma handleFile_rejects_non_csv_witness :
  Str.endsWith ".csv" (name pdf_file) = false /\
  network (snd (handleFile (AltApi.uploadFile (sample_env true 10)) None pdf_file
                  idle_page fresh_world)) = [].
Proof.
  split; [reflexivity|].
  pose proof (handleFile_rejects_non_csv (AltApi.uploadFile (sample_env true 10)) None
                pdf_file idle_page fresh_world eq_refl) as H.
  destruct (handleFile _ _ _ _ _) as [p' w'].
  destruct H as (_ & _ & _ & _ & Hnet). exact Hnet.
Defined.

(** A [.csv] file does reach the network. *)
Lemma handleFile_csv_uploads :
  network (snd (handleFile (AltApi.uploadFile (sample_env true 10)) None csv_file
                  idle_page fresh_world)) =
  [ GET "http://localhost:8000/health";
    POST "http://localhost:8000/upload" csv_file;
    GET "http://localhost:8000/data/abc/summary" ].
Proof. reflexivity. Qed.

End PageFacts.

(** ** The simulator *)

Section SimulatorFacts.
Import Simulator.

Lemma Math_round_comp (x y : Q) : x == y -> Math_round x = Math_round y.
Proof.
  intros H. unfold Math_round.
  assert (Hxy : x + (1 # 2) == y + (1 # 2)) by (rewrite H; reflexivity).
  rewrite (Qfloor_comp _ _ Hxy). reflexivity.
Qed.

Lemma is_integer_inject_Z (n : Z) : is_integer (inject_Z n) = true.
Proof. unfold is_integer. apply Qeq_bool_iff. rewrite Qfloor_Z. reflexivity. Qed.

Lemma is_integer_shift (x : Q) (n : Z) :
  is_integer x = true -> Math_round (x - inject_Z n) == x - inject_Z n.
Proof.
  unfold is_integer. intros H. apply Qeq_bool_iff in H.
  assert (Hx : x - inject_Z n == inject_Z (Qfloor x - n)).
  { unfold Z.sub. rewrite inject_Z_plus, inject_Z_opp, H. reflexivity. }
  rewrite (Math_round_comp _ _ Hx).
  apply Qeq_trans with (inject_Z (Qfloor x - n)).
  - apply Math_round_of_integer, is_integer_inject_Z.
  - apply Qeq_sym. exact Hx.
Qed.

Lemma Qmax_cases (x y : Q) :
  (x < y /\ Qmax x y = y) \/ (y <= x /\ Qmax x y = x).
Proof.
  unfold Qmax, GenericMinMax.gmax.
  destruct (x ?= y) eqn:E.
  - right. split; [|reflexivity]. apply Qeq_alt in E. rewrite E. apply Qle_refl.
  - left. split; [|reflexivity]. apply Qlt_alt. exact E.
  - right. split; [|reflexivity]. apply Qgt_alt in E. apply Qlt_le_weak. exact E.
Qed.

Lemma Qmin_cases (x y : Q) :
  (x <= y /\ Qmin x y = x) \/ (y < x /\ Qmin x y = y).
Proof.
  unfold Qmin, GenericMinMax.gmin.
  destruct (x ?= y) eqn:E.
  - left. split; [|reflexivity]. apply Qeq_alt in E. rewrite E. apply Qle_refl.
  - left. split; [|reflexivity]. apply Qlt_alt in E. apply Qlt_le_weak. exact E.
  - right. split; [|reflexivity]. apply Qgt_alt. exact E.
Qed.

Lemma Qmax_Qeq (fl x y : Q) : x == y -> Qmax fl x == Qmax fl y.
Proof.
  intros H.
  destruct (Qmax_cases fl x) as [[H1 ->]|[H1 ->]];
    destruct (Qmax_cases fl y) as [[H2 ->]|[H2 ->]]; lra.
Qed.

Lemma level_of_bucket (p : Q) : bucket p (level_of p).
Proof.
  unfold bucket, level_of.
  destruct (Qle_bool p 25) eqn:E25; [|destruct (Qle_bool p 50) eqn:E50].
  - apply Qle_bool_iff in E25. repeat split; intros; try reflexivity; lra.
  - apply Qle_bool_iff in E50.
    assert (~ p <= 25) by (rewrite <- Qle_bool_iff; congruence).
    repeat split; intros; try reflexivity; lra.
  - assert (~ p <= 25) by (rewrite <- Qle_bool_iff; congruence).
    assert (~ p <= 50) by (rewrite <- Qle_bool_iff; congruence).
    repeat split; intros; try reflexivity; lra.
Qed.

Lemma newPercentage_spec (s e h : Q) (risk : Risk.t) :
  match risk_floor (Risk.type risk) with
  | Some fl => newPercentage s e h risk ==
               Qmax fl (Risk.percentage risk - risk_reduction (Risk.type risk) s e h)
  | None => newPercentage s e h risk == Risk.percentage risk
  end.
Proof.
  unfold newPercentage, risk_floor, risk_reduction.
  destruct (String.eqb (Risk.type risk) "fatigue");
    [apply Qmax_Qeq; ring|].
  destruct (String.eqb (Risk.type risk) "hydration");
    [apply Qmax_Qeq; ring|].
  destruct (String.eqb (Risk.type risk) "sleep");
    [apply Qmax_Qeq; ring|].
  destruct (String.eqb (Risk.type risk) "stress");
    [apply Qmax_Qeq; unfold Qdiv; ring|].
  reflexivity.
Qed.

Example sample_risks_after_sliders :
  map (fun r => (Risk.type r, Risk.percentage r, Risk.level r))
      (risks (simulateForecast sample_mock 1 2000 (5 # 10))) =
  [ ("fatigue", 21, "low"); ("hydration", 18, "low");
    ("sleep", 25, "low"); ("stress", 44, "medium") ].
Proof. reflexivity. Qed.

End SimulatorFacts.

Section IdentityFacts.
Import Simulator.







(** The condition on the baseline is needed: a baseline heart rate of 50 is
    returned as 55, a half step as a whole one. *)
Example out_of_range_baseline_moves :
  ForecastItem.predicted (adjust_heartRate 0 0 (forecast_row 50)) = 55 /\
  ForecastItem.predicted (adjust_steps 0 (forecast_row (16801 # 2))) = 8401.
Proof. split; reflexivity. Qed.

End IdentityFacts.

Section IdentityConverse.
Import Simulator.


Lemma Math_round_le (x y : Q) : x <= y -> Math_round x <= Math_round y.
Proof.
  intros H. unfold Math_round. rewrite <- Zle_Qle.
  apply Qfloor_resp_le. lra.
Qed.



End IdentityConverse.

(** * Further properties of the sources *)

(** ** The transformer *)

Section TransformerMore.
Import Transformer.

Lemma build_chartData_Return_clean ts : forall acc cd,
  cfoldl chart_step acc ts = Return cd ->
  Forall (fun item => inherited (metric item) = false) ts.
Proof.
  induction ts as [|item ts IH]; intros acc cd H; [constructor|].
  simpl in H.
  destruct (chart_step acc item) as [acc'|msg] eqn:Hstep; simpl in H; [|discriminate].
  apply chart_step_Return in Hstep as [Hclean _].
  constructor; [exact Hclean | exact (IH _ _ H)].
Qed.

(** X1.  [transformBackendData] throws on every payload that has a
    time-series entry whose metric is named like a property that [{}]
    inherits from [Object.prototype] ([constructor], [toString],
    [__proto__], ...): [chartData[item.metric]] is then truthy, so no array
    is created, and it has no [push]. *)
Theorem transformBackendData_throws_on_inherited (p : BackendData) :
  Exists (fun item => inherited (metric item) = true) (default [] (timeseries p)) ->
  exists msg, transformBackendData p = Throw msg.
Proof.
  intros Hex.
  destruct (transformBackendData p) as [r|msg] eqn:H; [exfalso | eauto].
  apply transformBackendData_Return in H as (cd & Hcd & _).
  pose proof (build_chartData_Return_clean _ _ _ Hcd) as Hclean.
  clear Hcd.
  induction Hex as [item ts Hitem|item ts _ IH];
    inversion Hclean as [|? ? Hhead Htail]; subst.
  - congruence.
  - exact (IH Htail).
Qed.

Lemma transformBackendData_throws_on_inherited_witness :
  exists msg, transformBackendData (reading_named "constructor") = Throw msg.
Proof.
  apply transformBackendData_throws_on_inherited.
  apply Exists_cons_hd. reflexivity.
Defined.

Lemma append_cons (c : ascii) (s t : string) : String c s ++ t = String c (s ++ t).
Proof. reflexivity. Qed.

Lemma prefix_iff (sub s : string) :
  String.prefix sub s = true <-> exists post, s = sub ++ post.
Proof.
  revert s. induction sub as [|c sub IH]; intros s; simpl.
  - split; [intros _; exists s; reflexivity | intros _; destruct s; reflexivity].
  - destruct s as [|c' s]; simpl.
    + split; [discriminate | intros [post H]; rewrite append_cons in H; discriminate].
    + destruct (Ascii.ascii_dec c c') as [->|Hne].
      * rewrite IH. split; intros [post H]; exists post.
        -- rewrite append_cons, H. reflexivity.
        -- rewrite append_cons in H. congruence.
      * split; [discriminate | intros [post H]; rewrite append_cons in H; congruence].
Qed.

Lemma includes_cons (sub : string) (c : ascii) (s : string) :
  Str.includes sub (String c s) = String.prefix sub (String c s) || Str.includes sub s.
Proof. reflexivity. Qed.

Lemma includes_iff (sub s : string) :
  Str.includes sub s = true <-> exists pre post, s = pre ++ sub ++ post.
Proof.
  induction s as [|c s IH].
  - change (Str.includes sub "") with (String.prefix sub "" || false).
    rewrite orb_false_r, prefix_iff. split.
    + intros [post H]. exists "", post. exact H.
    + intros (pre & post & H). destruct pre as [|c' pre].
      * exists post. exact H.
      * rewrite append_cons in H. discriminate.
  - rewrite includes_cons, orb_true_iff, prefix_iff, IH. split.
    + intros [[post H]|(pre & post & H)].
      * exists "", post. exact H.
      * exists (String c pre), post. rewrite append_cons. congruence.
    + intros (pre & post & H). destruct pre as [|c' pre].
      * left. exists post. exact H.
      * right. exists pre, post. rewrite append_cons in H. congruence.
Qed.

Lemma urgent_iff (a : Anomaly) : urgent a = true <-> mentions_urgent a.
Proof.
  unfold urgent, mentions_urgent. destruct (reason a) as [r|].
  - rewrite andb_true_iff, includes_iff. split.
    + intros [_ (pre & post & H)]. exists pre, post. congruence.
    + intros (pre & post & [= H]). split; [|eauto].
      subst r. destruct pre; reflexivity.
  - split; [discriminate | intros (pre & post & H); discriminate].
Qed.

(** X2.  [criticalCases] is the number of anomalies whose reason is present
    and contains "Urgent" as a substring, capitals as written; it is at
    most the number of anomalies. *)
Theorem criticalCases_counts_urgent (p : BackendData) (r : Transformed.t) :
  transformBackendData p = Return r ->
  criticalCases (Transformed.metrics r) =
    inject_Z (Z.of_nat (length (List.filter urgent (default [] (anomalies p))))) /\
  (forall a, urgent a = true <-> mentions_urgent a) /\
  criticalCases (Transformed.metrics r)
    <= inject_Z (Z.of_nat (length (default [] (anomalies p)))).
Proof.
  intros H. apply transformBackendData_Return in H as (cd & _ & -> & _). simpl.
  split; [reflexivity|]. split; [exact urgent_iff|].
  rewrite <- Zle_Qle. apply Nat2Z.inj_le.
  induction (default [] (anomalies p)) as [|a l IH]; simpl; [lia|].
  destruct (urgent a); simpl; lia.
Qed.

Lemma getTrendChange_first (m : string) (l : list Trend) (t : Trend) :
  first_trend m l t -> getTrendChange l m = change_percent t.
Proof.
  intros (pre & post & -> & Hpre & Ht). unfold getTrendChange.
  induction Hpre as [|t' pre Hne _ IH]; simpl.
  - rewrite Ht, String.eqb_refl. reflexivity.
  - destruct (String.eqb_spec (trend_metric t') m); [contradiction | exact IH].
Qed.

Lemma change_field_getTrendChange (p : BackendData) (r : Transformed.t) (m : string) :
  transformBackendData p = Return r ->
  In m tracked_metrics ->
  change_field m (Transformed.metrics r) = getTrendChange (default [] (trends p)) m.
Proof.
  intros H Hm. apply transformBackendData_Return in H as (cd & _ & -> & _).
  simpl in Hm. destruct Hm as [<-|[<-|[<-|[<-|[]]]]]; reflexivity.
Qed.

(** X3.  The percent-change field of a tracked metric is the
    [change_percent] of the first trend entry for that metric, later
    entries being ignored, and 0 when the payload has no entry for it. *)
Theorem change_field_first_match (p : BackendData) (r : Transformed.t) (m : string) :
  transformBackendData p = Return r ->
  In m tracked_metrics ->
  (forall t, first_trend m (default [] (trends p)) t ->
             change_field m (Transformed.metrics r) = change_percent t) /\
  (Forall (fun t => trend_metric t <> m) (default [] (trends p)) ->
   change_field m (Transformed.metrics r) = 0).
Proof.
  intros H Hm. rewrite (change_field_getTrendChange p r m H Hm). split.
  - intros t Ht. apply getTrendChange_first. exact Ht.
  - apply getTrendChange_absent.
Qed.

Lemma criticalCases_counts_urgent_witness :
  exists r, transformBackendData (payload_users 10) = Return r /\
    criticalCases (Transformed.metrics r) = 1.
Proof.
  eexists. split; [vm_compute; reflexivity|].
  destruct (criticalCases_counts_urgent (payload_users 10) _ eq_refl) as [H _].
  exact H.
Defined.

Lemma change_field_first_match_witness :
  exists r, transformBackendData one_day = Return r /\
    In "sleep" tracked_metrics /\
    change_field "sleep" (Transformed.metrics r) = 4 /\
    change_field "water" (Transformed.metrics r) = 0.
Proof.
  eexists. split; [vm_compute; reflexivity|].
  assert (Hsleep : In "sleep" tracked_metrics) by (simpl; tauto).
  assert (Hwater : In "water" tracked_metrics) by (simpl; tauto).
  split; [exact Hsleep|]. split.
  - destruct (change_field_first_match one_day _ "sleep" eq_refl Hsleep) as [H _].
    apply (H {| trend_metric := "sleep"; change_percent := 4 |}).
    exists [], []. repeat split. constructor.
  - destruct (change_field_first_match one_day _ "water" eq_refl Hwater) as [_ H].
    apply H. repeat constructor. discriminate.
Defined.

End TransformerMore.

(** ** More on the two [uploadFile]s *)

Section UploadMore.

(** What a returning [uploadFile] of [src/FrontEnd/src/services/api.js]
    did: the mock path, or an accepted upload. *)
Lemma FrontEndApi_uploadFile_Return mock env file userId w res w' :
  FrontEndApi.uploadFile mock env file userId w = (Return res, w') ->
  (exists msg, health env = Rejected msg) \/
  (exists id t,
      upload_accepted env file id t /\
      (Str.opt_truthy userId = true -> setItem_throws env = false) /\
      UploadResult.data_id res = Some id /\
      (UploadResult.uploadData res ≫= Blob.metrics) = Some (Transformed.metrics t) /\
      currentData w' =
        FrontEndApi.assign_transformed t
          (FrontEndApi.set_currentDataId (Some id) (currentData w)) /\
      localStorage w' =
        (if Str.opt_truthy userId
         then <[userKey userId :=
                  Stored (FrontEndApi.blob_of_transformed t (Transformed.metrics t) id
                            (name file) (toISOString env (Date_now env 0)))]>
                (localStorage w)
         else localStorage w) /\
      events w' = (events w ++ [DetailTransformed t])%list).
Proof.
  unfold FrontEndApi.uploadFile, FrontEndApi.uploadFile_body, FrontEndApi.mockUploadResponse,
    FrontEndApi.getDataById, FrontEndApi.saveUserData.
  intros H. repeat (progress unfold_monad). simpl in H.
  destruct (health env) as [msg|rh] eqn:Hh; simpl in H; [left; eauto|right].
  repeat case_step H.
  all: injection H as <- <-; simpl.
  all: repeat match goal with
              | H : negb _ = false |- _ => apply negb_false_iff in H
              end.
  all: eexists _, _; split;
    [ unfold upload_accepted; eauto 15
    | repeat split; try reflexivity; try congruence ].
Qed.

(** Every error of either [uploadFile] carries the prefix. *)
Lemma uploadFile_error_prefix (body : M UploadResult.t) w msg w' :
  try_catch body (fun m => throw ("File upload failed: " ++ m)) w = (Throw msg, w') ->
  exists cause, msg = "File upload failed: " ++ cause /\ body w = (Throw cause, w').
Proof.
  unfold try_catch, throw. destruct (body w) as [[res|cause] w1]; intros [= <- <-];
    eauto.
Qed.

(** A failing [uploadFile] of the second copy has written nothing and
    dispatched nothing. *)
Lemma AltApi_uploadFile_Throw env file userId w msg w' :
  AltApi.uploadFile env file userId w = (Throw msg, w') ->
  (exists cause, msg = "File upload failed: " ++ cause) /\
  localStorage w' = localStorage w /\
  events w' = events w.
Proof.
  intros H. apply uploadFile_error_prefix in H as (cause & -> & H).
  split; [eauto|].
  unfold AltApi.uploadFile_body, AltApi.getDataById, AltApi.previousData in H.
  repeat (progress unfold_monad). simpl in H.
  repeat case_step H.
  all: injection H as <- <-; simpl.
  all: split; reflexivity.
Qed.

(** X4.  A failing [uploadFile] of the second copy of [api.js] reports
    "File upload failed: " followed by the cause, and has persisted
    nothing and dispatched no event.  The store is as before, or has the
    new [currentDataId] only (the failure came after the server's reply
    carried a data id), or, when the upload was accepted but the entry
    stored under the user's key is the text [null], already holds the
    transformed metrics and series: the read of
    [previousData.totalPatients] then throws after they were assigned. *)
Theorem AltApi_uploadFile_failure env file userId w msg w' :
  AltApi.uploadFile env file userId w = (Throw msg, w') ->
  (exists cause, msg = "File upload failed: " ++ cause) /\
  localStorage w' = localStorage w /\
  events w' = events w /\
  (currentData w' = currentData w \/
   (exists r reply id,
      upload env file = Resolved r /\ Response.json r = Some reply /\
      reply_data_id reply = Some id /\
      currentData w' = FrontEndApi.set_currentDataId (Some id) (currentData w)) \/
   (exists id t,
      upload_accepted env file id t /\
      localStorage w !! userKey userId = Some StoredNull /\
      currentData w' =
        AltApi.assign_series (Transformed.metrics t) t
          (FrontEndApi.set_currentDataId (Some id) (currentData w)))).
Proof.
  intros H. apply uploadFile_error_prefix in H as (cause & -> & H).
  split; [eauto|].
  unfold AltApi.uploadFile_body, AltApi.getDataById, AltApi.previousData in H.
  repeat (progress unfold_monad). simpl in H.
  repeat case_step H.
  all: injection H as <- <-; simpl.
  all: repeat match goal with
              | H : negb _ = false |- _ => apply negb_false_iff in H
              end.
  all: split; [reflexivity|]; split; [reflexivity|].
  all: try (left; reflexivity).
  all: try (right; left; eexists _, _, _; repeat split; eauto; fail).
  all: right; right; eexists _, _; split; [unfold upload_accepted; eauto 15|].
  all: repeat split; reflexivity.
Qed.

Lemma AltApi_uploadFile_failure_witness :
  exists msg w',
    AltApi.uploadFile (sample_env true 10) csv_file (Some "u1") null_world = (Throw msg, w') /\
    localStorage w' = localStorage null_world /\
    events w' = [] /\
    Store.currentDataId (currentData w') = Some "abc".
Proof.
  destruct (AltApi.uploadFile (sample_env true 10) csv_file (Some "u1") null_world)
    as [c w'] eqn:E.
  destruct c as [res|msg]; [vm_compute in E; discriminate E|].
  exists msg, w'. split; [reflexivity|].
  destruct (AltApi_uploadFile_failure _ _ _ _ _ _ E) as (_ & Hls & Hev & _).
  split; [exact Hls|]. split; [exact Hev|].
  vm_compute in E. injection E as _ <-. reflexivity.
Defined.

(** X5.  A failing [uploadFile] of [src/FrontEnd/src/services/api.js]
    reports "File upload failed: " followed by the cause and has dispatched
    no event and written nothing to local storage; the store is as before,
    or has the new [currentDataId] only, or (when saving the snapshot
    failed) already holds the whole transformed data set. *)
Theorem FrontEndApi_uploadFile_failure mock env file userId w msg w' :
  FrontEndApi.uploadFile mock env file userId w = (Throw msg, w') ->
  (exists cause, msg = "File upload failed: " ++ cause) /\
  localStorage w' = localStorage w /\
  events w' = events w /\
  (currentData w' = currentData w \/
   (exists id,
       currentData w' = FrontEndApi.set_currentDataId (Some id) (currentData w)) \/
   (exists id t,
       upload_accepted env file id t /\ setItem_throws env = true /\
       Str.opt_truthy userId = true /\
       currentData w' =
         FrontEndApi.assign_transformed t
           (FrontEndApi.set_currentDataId (Some id) (currentData w)))).
Proof.
  intros H. apply uploadFile_error_prefix in H as (cause & -> & H).
  split; [eauto|].
  unfold FrontEndApi.uploadFile_body, FrontEndApi.mockUploadResponse,
    FrontEndApi.getDataById, FrontEndApi.saveUserData in H.
  repeat (progress unfold_monad). simpl in H.
  repeat case_step H.
  all: injection H as <- <-; simpl.
  all: repeat match goal with
              | H : negb _ = false |- _ => apply negb_false_iff in H
              end.
  all: repeat split; try reflexivity; auto.
  all: try (right; left; eexists; reflexivity).
  all: right; right; eexists _, _; split; [unfold upload_accepted; eauto 15|auto].
Qed.

Lemma FrontEndApi_uploadFile_failure_witness :
  exists msg w',
    FrontEndApi.uploadFile sample_mock sample_env_without_id csv_file (Some "u1") fresh_world
      = (Throw msg, w') /\
    msg = "File upload failed: No data ID received from server" /\
    localStorage w' = ∅.
Proof.
  destruct (FrontEndApi.uploadFile sample_mock sample_env_without_id csv_file (Some "u1")
              fresh_world) as [c w'] eqn:E.
  destruct c as [res|msg]; [vm_compute in E; discriminate E|].
  exists msg, w'. split; [reflexivity|].
  destruct (FrontEndApi_uploadFile_failure _ _ _ _ _ _ _ E) as (_ & Hls & _).
  split; [|rewrite Hls; reflexivity].
  vm_compute in E. injection E as <- _. reflexivity.
Defined.

(** With the text [null] stored under the user's key, [uploadFile] of the
    second copy does not return. *)
Lemma AltApi_uploadFile_not_null env file userId w res w' :
  AltApi.uploadFile env file userId w = (Return res, w') ->
  localStorage w !! userKey userId <> Some StoredNull.
Proof.
  intros H Hnull.
  unfold AltApi.uploadFile, AltApi.uploadFile_body, AltApi.getDataById, AltApi.previousData in H.
  repeat (progress unfold_monad). simpl in H.
  repeat case_step H.
  all: congruence.
Qed.

(** X6.  [uploadFile] of the second copy succeeds exactly when the health
    probe resolves, the server accepts the file with a data id, the
    summary of that id is served and transforms, and the entry stored
    under the user's key is not the text [null] (on which the read of
    [previousData.totalPatients] throws). *)
Theorem AltApi_uploadFile_succeeds_iff env file userId w :
  (exists res w', AltApi.uploadFile env file userId w = (Return res, w')) <->
  ((exists id t, upload_accepted env file id t) /\
   localStorage w !! userKey userId <> Some StoredNull).
Proof.
  split.
  - intros (res & w' & H). split.
    + apply AltApi_uploadFile_Return in H as (id & t & Hacc & _). eauto.
    + exact (AltApi_uploadFile_not_null _ _ _ _ _ _ H).
  - intros [(id & t & Hacc) Hnull]. eapply AltApi_uploadFile_accepted; eassumption.
Qed.

(** X7.  [uploadFile] of [src/FrontEnd/src/services/api.js] succeeds exactly
    when the health probe is rejected (the mock path) or the upload is
    accepted and, for a signed-in user, the snapshot can be saved. *)
Theorem FrontEndApi_uploadFile_succeeds_iff mock env file userId w :
  (exists res w', FrontEndApi.uploadFile mock env file userId w = (Return res, w')) <->
  ((exists msg, health env = Rejected msg) \/
   (exists id t, upload_accepted env file id t /\
                 (Str.opt_truthy userId = true -> setItem_throws env = false))).
Proof.
  split.
  - intros (res & w' & H).
    apply FrontEndApi_uploadFile_Return in H as [Hmock|(id & t & Hacc & Hset & _)];
      [left; exact Hmock | right; eauto].
  - unfold FrontEndApi.uploadFile, FrontEndApi.uploadFile_body,
      FrontEndApi.mockUploadResponse, FrontEndApi.getDataById, FrontEndApi.saveUserData.
    repeat (progress unfold_monad). simpl.
    intros [[msg Hh]|(id & t & Hacc & Hset)].
    + rewrite Hh. simpl. eauto.
    + destruct Hacc as ([rh Hh] & (ru & reply & Hu & Huok & Hujson & Hid) & Htruthy &
                        (rs & full & Hs & Hsok & Hsjson & Ht)).
      rewrite Hh. simpl. rewrite Hu. simpl. rewrite Huok, Hujson, Hid, Htruthy. simpl.
      rewrite Hs. simpl. rewrite Hsok, Hsjson. simpl. rewrite Ht. simpl.
      destruct (Str.opt_truthy userId); simpl; [rewrite (Hset eq_refl)|]; simpl; eauto.
Qed.


Lemma sample_upload_accepted (n : Q) :
  exists t, upload_accepted (sample_env true n) csv_file "abc" t.
Proof.
  unfold upload_accepted, sample_env, ok_response; simpl.
  destruct (Transformer.transformBackendData (payload_users n)) as [t|msg] eqn:Ht.
  - exists t. repeat split; eauto 10.
  - exfalso. revert Ht. unfold Transformer.transformBackendData. simpl. discriminate.
Qed.

Lemma AltApi_uploadFile_succeeds_iff_witness :
  (exists res w',
     AltApi.uploadFile (sample_env true 10) csv_file (Some "u1") fresh_world = (Return res, w')) /\
  ~ (exists res w',
       AltApi.uploadFile (sample_env true 10) csv_file (Some "u1") null_world = (Return res, w')).
Proof.
  destruct (sample_upload_accepted 10) as [t Hacc].
  split.
  - apply (AltApi_uploadFile_succeeds_iff (sample_env true 10) csv_file (Some "u1") fresh_world).
    split; [eauto | discriminate].
  - intros H.
    apply (AltApi_uploadFile_succeeds_iff (sample_env true 10) csv_file (Some "u1") null_world)
      in H as [_ Hnull].
    apply Hnull. reflexivity.
Defined.


(** The store and world a successful [uploadFile] of the second copy
    leaves behind. *)
Lemma AltApi_uploadFile_world env file userId w res w' :
  AltApi.uploadFile env file userId w = (Return res, w') ->
  exists id t saved,
    upload_accepted env file id t /\
    UploadResult.uploadData res = Some saved /\
    UploadResult.data_id res = Some id /\
    Blob.metrics saved = Some (Store.metrics (currentData w')) /\
    Blob.data_id saved = Some id /\
    saved = FrontEndApi.blob_of_transformed t (Store.metrics (currentData w')) id (name file)
              (toISOString env (Date_now env 0)) /\
    currentData w' =
      AltApi.set_insights (Store.insights (currentData w'))
        (AltApi.assign_series (Store.metrics (currentData w')) t
           (FrontEndApi.set_currentDataId (Some id) (currentData w))) /\
    localStorage w' =
      (if setItem_throws env then localStorage w
       else <[userKey userId := Stored saved]> (localStorage w)) /\
    events w' = (events w ++ [DetailStore (currentData w')])%list.
Proof.
  unfold AltApi.uploadFile, AltApi.uploadFile_body, AltApi.getDataById, AltApi.previousData.
  intros H. repeat (progress unfold_monad). simpl in H.
  repeat case_step H.
  all: injection H as <- <-; simpl.
  all: repeat match goal with
              | H : negb _ = false |- _ => apply negb_false_iff in H
              end.
  all: eexists _, _, _; split;
    [ unfold upload_accepted; eauto 15
    | repeat split; reflexivity ].
Qed.

(** X9.  Round trip through local storage in the second copy: after a
    successful [uploadFile] whose snapshot was saved, [loadUserData] for
    the same user returns that very snapshot (the [uploadData] of the
    result) and changes nothing in the store. *)
Theorem AltApi_upload_then_load env file userId w res w' :
  AltApi.uploadFile env file userId w = (Return res, w') ->
  setItem_throws env = false ->
  AltApi.loadUserData userId w' = (Return (UploadResult.uploadData res), w') /\
  (UploadResult.uploadData res ≫= Blob.metrics) = Some (Store.metrics (currentData w')) /\
  Store.currentDataId (currentData w') = UploadResult.data_id res.
Proof.
  intros H Hset.
  apply AltApi_uploadFile_world in H
    as (id & t & saved & _ & Hres & Hid & Hm & Hsid & Hsaved & Hstore & Hls & _).
  rewrite Hset in Hls. rewrite Hres, Hid. simpl. rewrite Hm.
  split; [|split; [reflexivity | rewrite Hstore; reflexivity]].
  unfold AltApi.loadUserData, parse_item, getItem, bind, ret, modify_store.
  rewrite Hls, lookup_insert_eq, Hm.
  destruct w' as [store ls net ev]; simpl in *.
  f_equal. f_equal.
  destruct store.
  unfold AltApi.load_into, AltApi.set_insights, AltApi.assign_series,
    FrontEndApi.set_currentDataId in *; simpl in *.
  injection Hstore as Htrend Hdisease Hage Hsearch Hcur Hprev Hheart Hsleep Hwater Han Htr.
  subst saved. simpl. f_equal; congruence.
Qed.


Lemma AltApi_upload_then_load_witness :
  exists res w',
    AltApi.uploadFile (sample_env true 10) csv_file (Some "u1") fresh_world = (Return res, w') /\
    setItem_throws (sample_env true 10) = false /\
    AltApi.loadUserData (Some "u1") w' = (Return (UploadResult.uploadData res), w').
Proof.
  destruct (AltApi.uploadFile (sample_env true 10) csv_file (Some "u1") fresh_world)
    as [c w'] eqn:E.
  destruct c as [res|msg]; [|vm_compute in E; discriminate E].
  exists res, w'. split; [reflexivity|]. split; [reflexivity|].
  destruct (AltApi_upload_then_load _ _ _ _ _ _ E eq_refl) as [H _]. exact H.
Defined.

(** X10.  In [src/FrontEnd/src/services/api.js] an upload that reached the
    backend is persisted for a signed-in user only: [loadUserData] then
    returns a snapshot with the uploaded metrics and data id, keeps the
    store's metrics and puts the mock distribution back in [diseaseData];
    without a user id local storage is left as it was. *)
Theorem FrontEndApi_upload_then_load mock env file userId w res w' rh :
  health env = Resolved rh ->
  FrontEndApi.uploadFile mock env file userId w = (Return res, w') ->
  (Str.opt_truthy userId = true ->
   exists b w2,
     FrontEndApi.loadUserData mock userId w' = (Return (Some b), w2) /\
     Blob.metrics b = Some (Store.metrics (currentData w')) /\
     Blob.data_id b = UploadResult.data_id res /\
     Store.metrics (currentData w2) = Store.metrics (currentData w') /\
     Store.currentDataId (currentData w2) = Store.currentDataId (currentData w') /\
     Store.diseaseData (currentData w2) = mockDiseaseData mock) /\
  (Str.opt_truthy userId = false -> localStorage w' = localStorage w).
Proof.
  intros Hh H.
  apply FrontEndApi_uploadFile_Return in H
    as [[msg Hmock]|(id & t & _ & _ & Hid & _ & Hstore & Hls & _)]; [congruence|].
  split; intros Huser; rewrite Huser in Hls; [|exact Hls].
  unfold FrontEndApi.loadUserData, parse_item, getItem, bind, ret, modify_store.
  rewrite Hls, lookup_insert_eq. simpl.
  eexists _, _. split; [reflexivity|]. simpl. rewrite Hstore, Hid. repeat split.
Qed.

Lemma FrontEndApi_upload_then_load_witness :
  exists res w',
    FrontEndApi.uploadFile sample_mock (sample_env true 10) csv_file (Some "u1") fresh_world
      = (Return res, w') /\
    exists b w2,
      FrontEndApi.loadUserData sample_mock (Some "u1") w' = (Return (Some b), w2) /\
      Blob.data_id b = Some "abc".
Proof.
  destruct (FrontEndApi.uploadFile sample_mock (sample_env true 10) csv_file (Some "u1")
              fresh_world) as [c w'] eqn:E.
  destruct c as [res|msg]; [|vm_compute in E; discriminate E].
  exists res, w'. split; [reflexivity|].
  destruct (FrontEndApi_upload_then_load sample_mock (sample_env true 10) csv_file (Some "u1")
              fresh_world res w' _ eq_refl E) as [H _].
  destruct (H eq_refl) as (b & w2 & Hload & _ & Hid & _).
  exists b, w2. split; [exact Hload|]. rewrite Hid.
  vm_compute in E. injection E as <- _. reflexivity.
Defined.

(** X11.  [saveUserData] then [loadUserData] under the same user id gives
    the saved object back when it has metrics and [null] when it has none;
    the entries of other keys are not touched. *)
Theorem save_then_load mock env userId data w :
  setItem_throws env = false ->
  exists w1,
    FrontEndApi.saveUserData env userId data w = (Return tt, w1) /\
    fst (FrontEndApi.loadUserData mock userId w1) =
      Return (match Blob.metrics data with Some _ => Some data | None => None end) /\
    (forall key, key <> userKey userId -> localStorage w1 !! key = localStorage w !! key).
Proof.
  intros Hset. unfold FrontEndApi.saveUserData, setItem. rewrite Hset.
  eexists. split; [reflexivity|]. split.
  - unfold FrontEndApi.loadUserData, parse_item, getItem, bind, ret, modify_store. simpl.
    rewrite lookup_insert_eq. destruct (Blob.metrics data); reflexivity.
  - intros key Hkey. simpl. apply lookup_insert_ne. congruence.
Qed.

Lemma save_then_load_witness :
  setItem_throws (sample_env true 10) = false /\
  fst (FrontEndApi.loadUserData sample_mock (Some "u1")
         (snd (FrontEndApi.saveUserData (sample_env true 10) (Some "u1") stored_session
                 fresh_world))) = Return (Some stored_session).
Proof.
  split; [reflexivity|].
  destruct (save_then_load sample_mock (sample_env true 10) (Some "u1") stored_session
              fresh_world eq_refl) as (w1 & Hsave & Hload & _).
  rewrite Hsave. exact Hload.
Defined.

(** X12.  An entry of local storage that is not JSON makes [loadUserData]
    of both copies throw, while [uploadFile] of the second copy treats it
    as an empty object: an accepted upload succeeds, records the growth of
    a first upload and overwrites the entry with its snapshot. *)
Theorem corrupt_entry mock env file userId w id t :
  localStorage w !! userKey userId = Some Malformed ->
  upload_accepted env file id t ->
  setItem_throws env = false ->
  AltApi.loadUserData userId w = (Throw "Unexpected token in JSON", w) /\
  FrontEndApi.loadUserData mock userId w = (Throw "Unexpected token in JSON", w) /\
  exists res w',
    AltApi.uploadFile env file userId w = (Return res, w') /\
    userGrowth (Store.metrics (currentData w')) =
      Some (AltApi.userGrowth_of 0 (totalPatients (Transformed.metrics t))) /\
    stored_blob w' (userKey userId) = UploadResult.uploadData res.
Proof.
  intros Hbad Hacc Hset.
  destruct (loadUserData_malformed mock userId w Hbad) as [Halt Hfe].
  split; [exact Halt|]. split; [exact Hfe|].
  assert (Hnull : localStorage w !! userKey userId <> Some StoredNull)
    by (rewrite Hbad; discriminate).
  destruct (AltApi_uploadFile_accepted env file userId w id t Hacc Hnull) as (res & w' & H).
  exists res, w'. split; [exact H|].
  pose proof H as H2.
  apply AltApi_uploadFile_Return in H as (id' & t' & Hacc' & _ & Hres & Hm & _ & Hls & _).
  assert (Heq : t' = t /\ id' = id).
  { destruct Hacc as (_ & (r1 & p1 & Hu1 & _ & Hj1 & Hi1) & _ & (r2 & f2 & Hs2 & _ & Hf2 & Ht2)).
    destruct Hacc' as (_ & (r3 & p3 & Hu3 & _ & Hj3 & Hi3) & _ & (r4 & f4 & Hs4 & _ & Hf4 & Ht4)).
    assert (id' = id) by congruence. subst id'. split; [congruence | reflexivity]. }
  destruct Heq as [-> ->].
  rewrite Hbad in Hm, Hres. simpl in Hm, Hres.
  split; [rewrite Hm; reflexivity|].
  unfold stored_blob. rewrite Hls, Hset, lookup_insert_eq, Hres, Hbad. reflexivity.
Qed.

Lemma corrupt_entry_witness :
  localStorage corrupt_world !! userKey (Some "u1") = Some Malformed /\
  AltApi.loadUserData (Some "u1") corrupt_world = (Throw "Unexpected token in JSON", corrupt_world) /\
  exists res w',
    AltApi.uploadFile (sample_env true 10) csv_file (Some "u1") corrupt_world = (Return res, w').
Proof.
  split; [reflexivity|].
  destruct (sample_upload_accepted 10) as [t Hacc].
  destruct (corrupt_entry sample_mock (sample_env true 10) csv_file (Some "u1") corrupt_world
              "abc" t eq_refl Hacc eq_refl) as (Hload & _ & res & w' & Hup & _).
  split; [exact Hload|]. exists res, w'. exact Hup.
Defined.

(** X13.  Once an upload has saved its snapshot, every later successful
    upload under the same key records the growth of a first upload, 15.5
    for more than one patient and 8.2 otherwise, whatever the two data
    sets' patient counts are. *)
Theorem growth_of_later_uploads env1 file1 env2 file2 userId w res1 w1 res2 w2 :
  AltApi.uploadFile env1 file1 userId w = (Return res1, w1) ->
  setItem_throws env1 = false ->
  AltApi.uploadFile env2 file2 userId w1 = (Return res2, w2) ->
  userGrowth (Store.metrics (currentData w2)) =
    Some (if Qlt_le_dec 1 (totalPatients (Store.metrics (currentData w2)))
          then 155 # 10 else 82 # 10).
Proof.
  intros H1 Hset H2.
  apply AltApi_uploadFile_Return in H1 as (id1 & t1 & _ & _ & _ & _ & _ & Hls & _).
  apply AltApi_uploadFile_Return in H2 as (id2 & t2 & _ & _ & _ & Hm & _).
  rewrite Hset in Hls. rewrite Hm, Hls, lookup_insert_eq. reflexivity.
Qed.

Lemma growth_of_later_uploads_witness :
  exists res1 w1 res2 w2,
    AltApi.uploadFile (sample_env true 10) csv_file (Some "u1") fresh_world = (Return res1, w1) /\
    setItem_throws (sample_env true 10) = false /\
    AltApi.uploadFile (sample_env true 15) csv_file (Some "u1") w1 = (Return res2, w2) /\
    userGrowth (Store.metrics (currentData w2)) = Some (155 # 10).
Proof.
  destruct (AltApi.uploadFile (sample_env true 10) csv_file (Some "u1") fresh_world)
    as [c1 w1] eqn:E1.
  destruct c1 as [res1|msg]; [|vm_compute in E1; discriminate E1].
  destruct (sample_upload_accepted 15) as [t Hacc].
  assert (Hentry : localStorage w1 !! userKey (Some "u1") <> Some StoredNull).
  { destruct (AltApi_uploadFile_Return _ _ _ _ _ _ E1) as (id1 & t1 & _ & _ & _ & _ & _ & Hls & _).
    simpl in Hls. rewrite Hls, lookup_insert_eq. discriminate. }
  destruct (AltApi_uploadFile_accepted (sample_env true 15) csv_file (Some "u1") w1 "abc" t Hacc
              Hentry)
    as (res2 & w2 & E2).
  exists res1, w1, res2, w2. split; [reflexivity|]. split; [reflexivity|].
  split; [exact E2|].
  rewrite (growth_of_later_uploads _ _ _ _ _ _ _ _ _ _ E1 eq_refl E2).
  apply AltApi_uploadFile_Return in E2 as (id2 & t2 & Hacc2 & _ & _ & Hm & _).
  rewrite Hm. simpl.
  assert (Ht : t2 = t).
  { destruct Hacc as (_ & (r1 & p1 & Hu1 & _ & Hj1 & Hi1) & _ & (r2 & f2 & Hs2 & _ & Hf2 & Ht2)).
    destruct Hacc2 as (_ & (r3 & p3 & Hu3 & _ & Hj3 & Hi3) & _ & (r4 & f4 & Hs4 & _ & Hf4 & Ht4)).
    simpl in *. congruence. }
  subst t2.
  destruct Hacc as (_ & _ & _ & (r2 & f2 & Hs2 & _ & Hf2 & Ht2)).
  simpl in Hs2. injection Hs2 as <-. simpl in Hf2. injection Hf2 as <-.
  vm_compute in Ht2. injection Ht2 as <-. reflexivity.
Defined.

End UploadMore.

(** ** The accessors *)

Section AccessorFacts.

Lemma with_session_never_throws {A} (run : string -> M (option A)) (w : World) :
  exists r w', FrontEndApi.with_session run w = (Return r, w').
Proof.
  unfold FrontEndApi.with_session, bind, get_store, try_catch, ret.
  destruct (Store.currentDataId (currentData w)) as [id|]; [|eauto].
  destruct (Str.truthy id); [|eauto].
  destruct (run id w) as [[r|msg] w']; eauto.
Qed.

Lemma with_session_no_session {A} (run : string -> M (option A)) (w : World) :
  Str.opt_truthy (Store.currentDataId (currentData w)) = false ->
  FrontEndApi.with_session run w = (Return None, w).
Proof.
  unfold FrontEndApi.with_session, bind, get_store, try_catch, ret, Str.opt_truthy.
  destruct (Store.currentDataId (currentData w)) as [id|]; [|reflexivity].
  intros ->. reflexivity.
Qed.


Ltac accessor_returns run w :=
  unfold bind at 1;
  destruct (with_session_never_throws run w) as (r & w' & ->);
  destruct r; unfold bind, get_store, ret; simpl; eauto.

(** X14.  The series accessors of both copies never throw: a rejected
    request, a bad status, a body that is not JSON or any other error is
    swallowed, and a value is returned. *)
Theorem accessors_never_throw (env : Env) (w : World) :
  (exists v w', FrontEndApi.getTrendData env w = (Return v, w')) /\
  (exists v w', FrontEndApi.getDiseaseData env w = (Return v, w')) /\
  (exists v w', FrontEndApi.getHeartRateData env w = (Return v, w')) /\
  (exists v w', FrontEndApi.getSleepData env w = (Return v, w')) /\
  (exists v w', FrontEndApi.getWaterData env w = (Return v, w')) /\
  (exists v w', AltApi.getTrendData env w = (Return v, w')) /\
  (exists v w', AltApi.getDiseaseData env w = (Return v, w')) /\
  (exists v w', AltApi.getHeartRateData env w = (Return v, w')) /\
  (exists v w', AltApi.getSleepData env w = (Return v, w')) /\
  (exists v w', AltApi.getWaterData env w = (Return v, w')).
Proof.
  repeat split.
  - unfold FrontEndApi.getTrendData.
    match goal with |- context [FrontEndApi.with_session ?run] => accessor_returns run w end.
  - unfold FrontEndApi.getDiseaseData.
    match goal with |- context [FrontEndApi.with_session ?run] => accessor_returns run w end.
  - unfold FrontEndApi.getHeartRateData.
    match goal with |- context [FrontEndApi.with_session ?run] => accessor_returns run w end.
  - unfold FrontEndApi.getSleepData.
    match goal with |- context [FrontEndApi.with_session ?run] => accessor_returns run w end.
  - unfold FrontEndApi.getWaterData, FrontEndApi.fetch_water, bind, get_store, try_catch,
      fetch, json_of, modify_store, ret, throw. simpl.
    destruct (Str.opt_truthy _); [|eauto].
    destruct (data_trends env _) as [msg|r]; simpl; [eauto|].
    destruct (Response.ok r); simpl; [|eauto].
    destruct (Response.json r); simpl; eauto.
  - unfold AltApi.getTrendData.
    match goal with |- context [FrontEndApi.with_session ?run] => accessor_returns run w end.
  - unfold AltApi.getDiseaseData.
    match goal with |- context [FrontEndApi.with_session ?run] => accessor_returns run w end.
  - unfold AltApi.getHeartRateData.
    match goal with |- context [FrontEndApi.with_session ?run] => accessor_returns run w end.
  - unfold AltApi.getSleepData.
    match goal with |- context [FrontEndApi.with_session ?run] => accessor_returns run w end.
  - unfold AltApi.getWaterData, AltApi.fetch_water, bind, get_store, try_catch,
      fetch, json_of, modify_store, ret, throw. simpl.
    destruct (Str.opt_truthy _); [|eauto].
    destruct (data_trends env _) as [msg|r]; simpl; [eauto|].
    destruct (Response.ok r); simpl; [|eauto].
    destruct (Response.json r); simpl; eauto.
Qed.

(** The accessors when the store names no data set. *)
Lemma no_session_runs (env : Env) (w : World) :
  Str.opt_truthy (Store.currentDataId (currentData w)) = false ->
  FrontEndApi.getTrendData env w = (Return (Store.trendData (currentData w)), w) /\
  FrontEndApi.getDiseaseData env w = (Return (Store.diseaseData (currentData w)), w) /\
  FrontEndApi.getHeartRateData env w
    = (Return (default [] (Store.heartRateData (currentData w))), w) /\
  FrontEndApi.getSleepData env w = (Return (default [] (Store.sleepData (currentData w))), w) /\
  FrontEndApi.getWaterData env w = (Return (default [] (Store.waterData (currentData w))), w) /\
  AltApi.getTrendData env w = (Return (Store.trendData (currentData w)), w) /\
  AltApi.getDiseaseData env w = (Return (Store.diseaseData (currentData w)), w) /\
  AltApi.getHeartRateData env w = (Return [], w) /\
  AltApi.getSleepData env w = (Return [], w) /\
  AltApi.getWaterData env w = (Return [], w).
Proof.
  intros H.
  assert (Hbind : forall A B (run : string -> M (option A)) (k : option A -> M B),
             bind (FrontEndApi.with_session run) k w = k None w).
  { intros A B run k. unfold bind at 1. rewrite (with_session_no_session _ _ H).
    reflexivity. }
  repeat split.
  - unfold FrontEndApi.getTrendData. rewrite Hbind. reflexivity.
  - unfold FrontEndApi.getDiseaseData. rewrite Hbind. reflexivity.
  - unfold FrontEndApi.getHeartRateData. rewrite Hbind. reflexivity.
  - unfold FrontEndApi.getSleepData. rewrite Hbind. reflexivity.
  - unfold FrontEndApi.getWaterData, bind, get_store, ret. simpl. rewrite H. reflexivity.
  - unfold AltApi.getTrendData. rewrite Hbind. reflexivity.
  - unfold AltApi.getDiseaseData. rewrite Hbind. reflexivity.
  - unfold AltApi.getHeartRateData. rewrite Hbind. reflexivity.
  - unfold AltApi.getSleepData. rewrite Hbind. reflexivity.
  - unfold AltApi.getWaterData, bind, get_store, ret. simpl. rewrite H. reflexivity.
Qed.

(** X15.  Without a session id no accessor contacts the backend or changes
    anything: the copy in [src/FrontEnd/src/services/api.js] returns what
    the store holds (an absent series as the empty list), the second copy
    returns the stored trend and distribution but the empty list for heart
    rate, sleep and water whatever the store holds. *)
Theorem accessors_without_session (env : Env) (w : World) :
  Str.opt_truthy (Store.currentDataId (currentData w)) = false ->
  FrontEndApi.getTrendData env w = (Return (Store.trendData (currentData w)), w) /\
  FrontEndApi.getDiseaseData env w = (Return (Store.diseaseData (currentData w)), w) /\
  FrontEndApi.getHeartRateData env w
    = (Return (default [] (Store.heartRateData (currentData w))), w) /\
  FrontEndApi.getSleepData env w = (Return (default [] (Store.sleepData (currentData w))), w) /\
  FrontEndApi.getWaterData env w = (Return (default [] (Store.waterData (currentData w))), w) /\
  AltApi.getTrendData env w = (Return (Store.trendData (currentData w)), w) /\
  AltApi.getDiseaseData env w = (Return (Store.diseaseData (currentData w)), w) /\
  AltApi.getHeartRateData env w = (Return [], w) /\
  AltApi.getSleepData env w = (Return [], w) /\
  AltApi.getWaterData env w = (Return [], w).
Proof. exact (no_session_runs env w). Qed.

Lemma accessors_without_session_witness :
  Str.opt_truthy (Store.currentDataId (currentData fresh_world)) = false /\
  AltApi.getWaterData (sample_env true 10) fresh_world = (Return [], fresh_world).
Proof.
  split; [reflexivity|].
  apply (accessors_without_session (sample_env true 10) fresh_world eq_refl).
Defined.






(** Split on the innermost scrutinee of the goal. *)
Ltac case_goal :=
  match goal with
  | |- context [match ?x with _ => _ end] =>
      lazymatch x with
      | context [match _ with _ => _ end] => fail
      | _ => destruct x eqn:?; simpl
      end
  | |- context [if ?x then _ else _] =>
      lazymatch x with
      | context [if _ then _ else _] => fail
      | context [match _ with _ => _ end] => fail
      | _ => destruct x eqn:?; simpl
      end
  end.

Lemma bind_Return {A B} (m : M A) (k : A -> M B) (w w1 : World) (a : A) :
  m w = (Return a, w1) -> bind m k w = k a w1.
Proof. unfold bind. intros ->. reflexivity. Qed.

Lemma bind_Throw {A B} (m : M A) (k : A -> M B) (w w1 : World) (msg : string) :
  m w = (Throw msg, w1) -> bind m k w = (Throw msg, w1).
Proof. unfold bind. intros ->. reflexivity. Qed.

(** The ways [loadUserData] can go, for either copy. *)
Lemma loadUserData_runs mock userId w :
  match localStorage w !! userKey userId with
  | Some Malformed =>
      FrontEndApi.loadUserData mock userId w = (Throw "Unexpected token in JSON", w) /\
      AltApi.loadUserData userId w = (Throw "Unexpected token in JSON", w)
  | Some StoredNull =>
      FrontEndApi.loadUserData mock userId w = (Throw (null_read "metrics"), w) /\
      AltApi.loadUserData userId w = (Throw (null_read "metrics"), w)
  | item =>
      let b := default Blob.empty (parsed item) in
      match Blob.metrics b with
      | Some m =>
          FrontEndApi.loadUserData mock userId w =
            (Return (Some b),
             {| currentData := FrontEndApi.load_into mock b m (currentData w);
                localStorage := localStorage w; network := network w; events := events w |}) /\
          AltApi.loadUserData userId w =
            (Return (Some b),
             {| currentData := AltApi.load_into b m (currentData w);
                localStorage := localStorage w; network := network w; events := events w |})
      | None =>
          FrontEndApi.loadUserData mock userId w = (Return None, w) /\
          AltApi.loadUserData userId w = (Return None, w)
      end
  end.
Proof.
  unfold FrontEndApi.loadUserData, AltApi.loadUserData, parse_item, getItem, bind, ret, throw,
    modify_store.
  destruct (localStorage w !! userKey userId) as [[| | |b]|]; simpl;
    try (split; reflexivity).
  destruct (Blob.metrics b); split; reflexivity.
Qed.

(** The part of [getMetrics] after the stored snapshot was looked up. *)
Lemma getMetrics_rest_returns (get : string -> M BackendData) (w : World) :
  exists m w',
    (do fetched <- FrontEndApi.with_session (fun id =>
       do data <- get id;
       do transformed <- lift (Transformer.transformBackendData data);
       modify_store (FrontEndApi.set_metrics (Transformed.metrics transformed)) ;;
       ret (Some (Transformed.metrics transformed)));
     match fetched with
     | Some m => ret m
     | None => do store <- get_store; ret (Store.metrics store)
     end) w = (Return m, w').
Proof.
  match goal with
  | |- context [FrontEndApi.with_session ?run] =>
      destruct (with_session_never_throws run w) as (r & w' & Hrun)
  end.
  erewrite bind_Return by exact Hrun.
  destruct r; unfold bind, get_store, ret; eauto.
Qed.

Lemma getMetrics_stored mock env userId w b m :
  Str.opt_truthy userId = true ->
  parsed (localStorage w !! userKey userId) = Some b ->
  Blob.metrics b = Some m ->
  (exists w', FrontEndApi.getMetrics mock env userId w = (Return m, w') /\
              network w' = network w /\ overwritten_by b m (currentData w')) /\
  (exists w', AltApi.getMetrics env userId w = (Return m, w') /\
              network w' = network w /\ overwritten_by b m (currentData w')).
Proof.
  intros Huser Hb Hm.
  pose proof (loadUserData_runs mock userId w) as Hload.
  destruct (localStorage w !! userKey userId) as [[| | |b']|]; simpl in Hb, Hload;
    try discriminate; injection Hb as <-; try discriminate Hm.
  rewrite Hm in Hload. destruct Hload as [Hfe Halt].
  unfold FrontEndApi.getMetrics, AltApi.getMetrics. rewrite Huser.
  split; eexists.
  - erewrite bind_Return by exact Hfe. simpl. rewrite Hm.
    split; [reflexivity|]. simpl. split; [reflexivity | repeat split].
  - erewrite bind_Return by exact Halt. simpl. rewrite Hm.
    split; [reflexivity|]. simpl. split; [reflexivity | repeat split].
Qed.

(** X17.  [getMetrics] for a user whose stored snapshot has metrics returns
    those metrics without any request to the backend, and (through
    [loadUserData]) overwrites the store with the snapshot. *)
Theorem getMetrics_prefers_stored mock env userId w b m :
  Str.opt_truthy userId = true ->
  parsed (localStorage w !! userKey userId) = Some b ->
  Blob.metrics b = Some m ->
  (exists w', FrontEndApi.getMetrics mock env userId w = (Return m, w') /\
              network w' = network w /\ overwritten_by b m (currentData w')) /\
  (exists w', AltApi.getMetrics env userId w = (Return m, w') /\
              network w' = network w /\ overwritten_by b m (currentData w')).
Proof. exact (getMetrics_stored mock env userId w b m). Qed.

Lemma getMetrics_prefers_stored_witness :
  Str.opt_truthy (Some "u1") = true /\
  parsed (localStorage returning_world !! userKey (Some "u1")) = Some stored_session /\
  exists w', AltApi.getMetrics (sample_env true 10) (Some "u1") returning_world
               = (Return sample_metrics, w') /\ network w' = [].
Proof.
  split; [reflexivity|]. split; [reflexivity|].
  destruct (getMetrics_prefers_stored sample_mock (sample_env true 10) (Some "u1")
              returning_world stored_session sample_metrics eq_refl eq_refl eq_refl)
    as [_ (w' & Hrun & Hnet & _)].
  exists w'. split; assumption.
Defined.

Lemma loadUserData_returns mock userId w :
  ~ unreadable (localStorage w !! userKey userId) ->
  (exists o w1, FrontEndApi.loadUserData mock userId w = (Return o, w1)) /\
  (exists o w1, AltApi.loadUserData userId w = (Return o, w1)).
Proof.
  unfold unreadable.
  intros Hok. pose proof (loadUserData_runs mock userId w) as Hload.
  destruct (localStorage w !! userKey userId) as [[| | |b]|]; simpl in Hload;
    try (exfalso; apply Hok; auto; fail);
    try (destruct Hload as [-> ->]; split; eauto).
  destruct (Blob.metrics b); destruct Hload as [-> ->]; split; eauto.
Qed.

Lemma loadUserData_unreadable mock userId w :
  unreadable (localStorage w !! userKey userId) ->
  (exists msg, FrontEndApi.loadUserData mock userId w = (Throw msg, w)) /\
  (exists msg, AltApi.loadUserData userId w = (Throw msg, w)).
Proof.
  intros [Hbad|Hnull].
  - destruct (loadUserData_malformed mock userId w Hbad) as [Halt Hfe]. eauto.
  - destruct (loadUserData_null mock userId w Hnull) as [Halt Hfe]. eauto.
Qed.

Lemma getMetrics_returns mock env userId w :
  (Str.opt_truthy userId = true -> ~ unreadable (localStorage w !! userKey userId)) ->
  (exists m w', FrontEndApi.getMetrics mock env userId w = (Return m, w')) /\
  (exists m w', AltApi.getMetrics env userId w = (Return m, w')).
Proof.
  intros Hok. unfold FrontEndApi.getMetrics, AltApi.getMetrics.
  destruct (Str.opt_truthy userId).
  - destruct (loadUserData_returns mock userId w (Hok eq_refl))
      as [(o1 & w1 & Hfe) (o2 & w2 & Halt)].
    split.
    + erewrite bind_Return by exact Hfe.
      destruct (o1 ≫= Blob.metrics); [unfold ret; eauto|].
      apply (getMetrics_rest_returns (FrontEndApi.getDataById env)).
    + erewrite bind_Return by exact Halt.
      destruct (o2 ≫= Blob.metrics); [unfold ret; eauto|].
      apply (getMetrics_rest_returns (AltApi.getDataById env)).
  - split; (erewrite bind_Return by reflexivity); simpl.
    + apply (getMetrics_rest_returns (FrontEndApi.getDataById env)).
    + apply (getMetrics_rest_returns (AltApi.getDataById env)).
Qed.

(** X18.  [getMetrics] of either copy throws in exactly these cases: a user
    id is given and the entry stored for that user is not JSON (the parse
    throws) or is the text [null] (the read of [userData.metrics] throws).
    Every failure of the backend is swallowed. *)
Theorem getMetrics_throws_iff mock env userId w :
  ((exists msg w', FrontEndApi.getMetrics mock env userId w = (Throw msg, w')) <->
   (Str.opt_truthy userId = true /\ unreadable (localStorage w !! userKey userId))) /\
  ((exists msg w', AltApi.getMetrics env userId w = (Throw msg, w')) <->
   (Str.opt_truthy userId = true /\ unreadable (localStorage w !! userKey userId))).
Proof.
  assert (Hdec : (Str.opt_truthy userId = true /\
                  unreadable (localStorage w !! userKey userId)) \/
                 (Str.opt_truthy userId = true ->
                  ~ unreadable (localStorage w !! userKey userId))).
  { unfold unreadable.
    destruct (Str.opt_truthy userId); [|right; discriminate].
    destruct (localStorage w !! userKey userId) as [[| | |b]|];
      try (right; intros _ [?|?]; discriminate); left; auto. }
  destruct Hdec as [[Huser Hbad]|Hok].
  - destruct (loadUserData_unreadable mock userId w Hbad) as [[m1 Hfe] [m2 Halt]].
    unfold FrontEndApi.getMetrics, AltApi.getMetrics. rewrite Huser.
    split; (split; [intros _; split; [reflexivity | exact Hbad]|intros _]); eexists _, _.
    + erewrite bind_Throw by exact Hfe. reflexivity.
    + erewrite bind_Throw by exact Halt. reflexivity.
  - destruct (getMetrics_returns mock env userId w Hok)
      as [(m1 & w1 & Hfe) (m2 & w2 & Halt)].
    split; (split; [intros (msg & w' & H); congruence|]).
    + intros [Huser Hbad]. exfalso. exact (Hok Huser Hbad).
    + intros [Huser Hbad]. exfalso. exact (Hok Huser Hbad).
Qed.

Lemma getMetrics_throws_iff_witness :
  exists msg w',
    AltApi.getMetrics (sample_env true 10) (Some "u1") null_world = (Throw msg, w').
Proof.
  destruct (getMetrics_throws_iff sample_mock (sample_env true 10) (Some "u1") null_world)
    as [_ [_ H]].
  apply H. split; [reflexivity|]. right. reflexivity.
Defined.

(** X19.  [getMetrics] without a user id, in both copies.  When the store
    names a data set whose summary is served and transforms, it issues
    that one request, stores the transformed metrics and returns them.
    In every other case (no session, a rejected request, a bad status, a
    body that is not JSON, a failing transformer) it returns the metrics
    the store holds and changes neither the store, nor local storage, nor
    the events. *)
Theorem getMetrics_without_user mock env userId w :
  Str.opt_truthy userId = false ->
  (forall id t,
     session_summary env w id t ->
     FrontEndApi.getMetrics mock env userId w =
       (Return (Transformed.metrics t),
        after_request (summary_request id)
          (FrontEndApi.set_metrics (Transformed.metrics t) (currentData w)) w) /\
     AltApi.getMetrics env userId w =
       (Return (Transformed.metrics t),
        after_request (summary_request id)
          (FrontEndApi.set_metrics (Transformed.metrics t) (currentData w)) w)) /\
  ((forall id t, ~ session_summary env w id t) ->
   exists w',
     FrontEndApi.getMetrics mock env userId w = (Return (Store.metrics (currentData w)), w') /\
     AltApi.getMetrics env userId w = (Return (Store.metrics (currentData w)), w') /\
     currentData w' = currentData w /\
     localStorage w' = localStorage w /\
     events w' = events w).
Proof.
  intros Huser.
  assert (Hsame : AltApi.getMetrics env userId w = FrontEndApi.getMetrics mock env userId w).
  { unfold AltApi.getMetrics, FrontEndApi.getMetrics. rewrite Huser. reflexivity. }
  rewrite Hsame.
  unfold FrontEndApi.getMetrics, FrontEndApi.with_session, FrontEndApi.getDataById.
  rewrite Huser. repeat (progress unfold_monad). simpl.
  split.
  - intros id t (Hid & Htruthy & r & full & Hs & Hok & Hjson & Ht).
    rewrite Hid, Htruthy. simpl. rewrite Hs. simpl. rewrite Hok, Hjson. simpl.
    rewrite Ht. simpl. split; reflexivity.
  - intros Hno.
    repeat case_goal.
    all: try (eexists; repeat split; reflexivity).
    exfalso. eapply Hno. unfold session_summary. repeat split; eauto.
    eexists _, _. repeat split; eauto. apply negb_false_iff. assumption.
Qed.

Lemma getMetrics_without_user_witness :
  exists m w',
    FrontEndApi.getMetrics sample_mock (sample_env true 10) None session_world = (Return m, w') /\
    totalPatients m = 10 /\
    network w' = [GET "http://localhost:8000/data/abc/summary"].
Proof.
  destruct (sample_upload_accepted 10) as [t Hacc].
  assert (Hserved : session_summary (sample_env true 10) session_world "abc" t).
  { destruct Hacc as (_ & _ & Htruthy & Hsum). split; [reflexivity|]. split; assumption. }
  destruct (getMetrics_without_user sample_mock (sample_env true 10) None session_world eq_refl)
    as [Hrefresh _].
  destruct (Hrefresh "abc" t Hserved) as [Hfe _].
  eexists _, _. split; [exact Hfe|]. split; [|reflexivity].
  destruct Hserved as (_ & _ & r & full & Hs & _ & Hjson & Ht).
  simpl in Hs. injection Hs as <-. simpl in Hjson. injection Hjson as <-.
  vm_compute in Ht. injection Ht as <-. reflexivity.
Defined.

Lemma clearCurrentData_no_session mock w :
  Str.opt_truthy
    (Store.currentDataId (currentData (snd (FrontEndApi.clearCurrentData mock w)))) = false /\
  Str.opt_truthy
    (Store.currentDataId (currentData (snd (AltApi.clearCurrentData mock w)))) = false.
Proof. split; reflexivity. Qed.

(** Without a session, [getMetrics] for a visitor, or for a user whose
    stored entry has no metrics, returns the metrics of the store. *)
Lemma getMetrics_no_snapshot mock env userId w :
  Str.opt_truthy (Store.currentDataId (currentData w)) = false ->
  no_snapshot userId w ->
  FrontEndApi.getMetrics mock env userId w = (Return (Store.metrics (currentData w)), w) /\
  AltApi.getMetrics env userId w = (Return (Store.metrics (currentData w)), w).
Proof.
  intros Hsession Hno.
  assert (Hload : Str.opt_truthy userId = true ->
                  FrontEndApi.loadUserData mock userId w = (Return None, w) /\
                  AltApi.loadUserData userId w = (Return None, w)).
  { intros Huser. destruct Hno as [Hv|(b & Hb & Hm)]; [congruence|].
    pose proof (loadUserData_runs mock userId w) as Hruns.
    destruct (localStorage w !! userKey userId) as [[| | |b']|]; simpl in Hb, Hruns;
      try discriminate; injection Hb as <-; try exact Hruns.
    rewrite Hm in Hruns. exact Hruns. }
  unfold FrontEndApi.getMetrics, AltApi.getMetrics.
  destruct (Str.opt_truthy userId).
  - destruct (Hload eq_refl) as [Hfe Halt]. split.
    + erewrite bind_Return by exact Hfe. simpl.
      erewrite bind_Return by (apply with_session_no_session; exact Hsession). reflexivity.
    + erewrite bind_Return by exact Halt. simpl.
      erewrite bind_Return by (apply with_session_no_session; exact Hsession). reflexivity.
  - split; (erewrite bind_Return by reflexivity); simpl;
      (erewrite bind_Return by (apply with_session_no_session; exact Hsession)); reflexivity.
Qed.

(** X20.  After [clearCurrentData] of either copy the store has no
    session: the series accessors issue no request and serve the mock
    trend and empty heart-rate, sleep and water series (the copy in
    [src/FrontEnd/src/services/api.js] also puts the mock distribution
    back, the second copy keeps serving the distribution held before), and
    [getMetrics] serves the mock metrics to a visitor and to a user whose
    stored entry has no metrics.  Local storage is not cleared: for a user
    whose stored snapshot has metrics, [getMetrics] still returns those
    and puts the snapshot's data id back into the store. *)
Theorem accessors_after_clear mock env w :
  (let w1 := snd (FrontEndApi.clearCurrentData mock w) in
   localStorage w1 = localStorage w /\
   FrontEndApi.getMetrics mock env None w1 = (Return (mockMetrics mock), w1) /\
   FrontEndApi.getTrendData env w1 = (Return (mockTrendData mock), w1) /\
   FrontEndApi.getDiseaseData env w1 = (Return (mockDiseaseData mock), w1) /\
   FrontEndApi.getHeartRateData env w1 = (Return [], w1) /\
   FrontEndApi.getSleepData env w1 = (Return [], w1) /\
   FrontEndApi.getWaterData env w1 = (Return [], w1)) /\
  (let w1 := snd (AltApi.clearCurrentData mock w) in
   localStorage w1 = localStorage w /\
   AltApi.getMetrics env None w1 = (Return (mockMetrics mock), w1) /\
   AltApi.getTrendData env w1 = (Return (mockTrendData mock), w1) /\
   AltApi.getDiseaseData env w1 = (Return (Store.diseaseData (currentData w)), w1) /\
   AltApi.getHeartRateData env w1 = (Return [], w1) /\
   AltApi.getSleepData env w1 = (Return [], w1) /\
   AltApi.getWaterData env w1 = (Return [], w1)) /\
  (forall userId,
     no_snapshot userId w ->
     (let w1 := snd (FrontEndApi.clearCurrentData mock w) in
      FrontEndApi.getMetrics mock env userId w1 = (Return (mockMetrics mock), w1)) /\
     (let w1 := snd (AltApi.clearCurrentData mock w) in
      AltApi.getMetrics env userId w1 = (Return (mockMetrics mock), w1))) /\
  (forall userId b m,
     Str.opt_truthy userId = true ->
     parsed (localStorage w !! userKey userId) = Some b ->
     Blob.metrics b = Some m ->
     (exists w2,
        FrontEndApi.getMetrics mock env userId (snd (FrontEndApi.clearCurrentData mock w))
          = (Return m, w2) /\
        Store.currentDataId (currentData w2) = Blob.data_id b) /\
     (exists w2,
        AltApi.getMetrics env userId (snd (AltApi.clearCurrentData mock w)) = (Return m, w2) /\
        Store.currentDataId (currentData w2) = Blob.data_id b)).
Proof.
  destruct (clearCurrentData_no_session mock w) as [Hfe Halt].
  assert (Hvisitor : forall w0, no_snapshot None w0) by (intros w0; left; reflexivity).
  split; [|split; [|split]].
  - intros w1.
    destruct (no_session_runs env w1 Hfe) as (Ht & Hd & Hh & Hs & Hw & _).
    split; [reflexivity|].
    split; [|repeat split; assumption].
    exact (proj1 (getMetrics_no_snapshot mock env None w1 Hfe (Hvisitor w1))).
  - intros w1.
    destruct (no_session_runs env w1 Halt) as (_ & _ & _ & _ & _ & Ht & Hd & Hh & Hs & Hw).
    split; [reflexivity|].
    split; [|repeat split; assumption].
    exact (proj2 (getMetrics_no_snapshot mock env None w1 Halt (Hvisitor w1))).
  - intros userId Hno. split; intros w1.
    + exact (proj1 (getMetrics_no_snapshot mock env userId w1 Hfe Hno)).
    + exact (proj2 (getMetrics_no_snapshot mock env userId w1 Halt Hno)).
  - intros userId b m Huser Hb Hm. split.
    + destruct (getMetrics_stored mock env userId (snd (FrontEndApi.clearCurrentData mock w))
                  b m Huser Hb Hm) as [(w2 & Hrun & _ & Hov) _].
      exists w2. split; [exact Hrun|]. apply Hov.
    + destruct (getMetrics_stored mock env userId (snd (AltApi.clearCurrentData mock w))
                  b m Huser Hb Hm) as [_ (w2 & Hrun & _ & Hov)].
      exists w2. split; [exact Hrun|]. apply Hov.
Qed.

Lemma accessors_after_clear_witness :
  exists w2,
    AltApi.getMetrics (sample_env true 10) (Some "u1")
      (snd (AltApi.clearCurrentData sample_mock returning_world)) = (Return sample_metrics, w2) /\
    Store.currentDataId (currentData w2) = Some "abc".
Proof.
  destruct (accessors_after_clear sample_mock (sample_env true 10) returning_world)
    as (_ & _ & _ & Hstored).
  destruct (Hstored (Some "u1") stored_session sample_metrics eq_refl eq_refl eq_refl)
    as [_ (w2 & Hrun & Hid)].
  exists w2. split; [exact Hrun | exact Hid].
Defined.

(** X21.  [refreshData] of the two copies.  The second copy, when the
    store names a data set whose summary is served and transforms, issues
    that one request, stores the transformer's metrics and trend series
    and returns the store; in every other case it stores the regenerated
    random series and leaves the metrics as they were.  The copy in
    [src/FrontEnd/src/services/api.js] always does the latter and never
    contacts the backend. *)
Theorem refreshData_of_the_two_copies env w :
  (forall id t,
     session_summary env w id t ->
     AltApi.refreshData env w =
       (Return (FrontEndApi.set_trendData (Transformed.trendData t)
                  (FrontEndApi.set_metrics (Transformed.metrics t) (currentData w))),
        after_request (summary_request id)
          (FrontEndApi.set_trendData (Transformed.trendData t)
             (FrontEndApi.set_metrics (Transformed.metrics t) (currentData w))) w)) /\
  ((forall id t, ~ session_summary env w id t) ->
   exists w',
     AltApi.refreshData env w = (Return (currentData w'), w') /\
     currentData w' = FrontEndApi.set_trendData (generateRandomData env) (currentData w) /\
     localStorage w' = localStorage w /\
     events w' = events w) /\
  FrontEndApi.refreshData env w =
    (Return (FrontEndApi.set_trendData (generateRandomData env) (currentData w)),
     {| currentData := FrontEndApi.set_trendData (generateRandomData env) (currentData w);
        localStorage := localStorage w;
        network := network w;
        events := events w |}).
Proof.
  split; [|split; [|reflexivity]].
  - intros id t (Hid & Htruthy & r & full & Hs & Hok & Hjson & Ht).
    unfold AltApi.refreshData, FrontEndApi.with_session, AltApi.getDataById.
    repeat (progress unfold_monad). simpl.
    rewrite Hid, Htruthy. simpl. rewrite Hs. simpl. rewrite Hok, Hjson. simpl.
    rewrite Ht. reflexivity.
  - intros Hno.
    unfold AltApi.refreshData, FrontEndApi.with_session, AltApi.getDataById.
    repeat (progress unfold_monad). simpl.
    repeat case_goal.
    all: try (eexists {| currentData := _; localStorage := _; network := _; events := _ |};
              repeat split; reflexivity).
    exfalso. eapply Hno. unfold session_summary. repeat split; eauto.
    eexists _, _. repeat split; eauto. apply negb_false_iff. assumption.
Qed.

Lemma refreshData_of_the_two_copies_witness :
  exists store w',
    AltApi.refreshData (sample_env true 10) session_world = (Return store, w') /\
    totalPatients (Store.metrics store) = 10 /\
    network w' = [GET "http://localhost:8000/data/abc/summary"].
Proof.
  destruct (sample_upload_accepted 10) as [t Hacc].
  assert (Hserved : session_summary (sample_env true 10) session_world "abc" t).
  { destruct Hacc as (_ & _ & Htruthy & Hsum). split; [reflexivity|]. split; assumption. }
  destruct (refreshData_of_the_two_copies (sample_env true 10) session_world) as [Hrefresh _].
  eexists _, _. split; [exact (Hrefresh "abc" t Hserved)|]. split; [|reflexivity].
  destruct Hserved as (_ & _ & r & full & Hs & _ & Hjson & Ht).
  simpl in Hs. injection Hs as <-. simpl in Hjson. injection Hjson as <-.
  vm_compute in Ht. injection Ht as <-. reflexivity.
Defined.

End AccessorFacts.

(** ** The health chart of [getDiseaseData] *)

Section HealthChartFacts.
Import HealthChart.

Lemma segment_name (kv : string * Q) :
  segment kv !! "name" = Some (PStr (display_name (fst kv))).
Proof.
  unfold segment. rewrite lookup_insert_ne by discriminate.
  rewrite lookup_insert_ne by discriminate. apply lookup_insert_eq.
Qed.

Lemma segment_value (kv : string * Q) : segment kv !! "value" = Some (PNum (snd kv)).
Proof.
  unfold segment. rewrite lookup_insert_ne by discriminate. apply lookup_insert_eq.
Qed.

(** X22.  Whatever the backend serves, the chart computed by
    [getDiseaseData] has at most the four segments Steps, Heart rate,
    Sleep and Water, in that order and none twice, and every segment has a
    positive whole value: a metric whose normalised average is 0 or less
    is left out. *)
Theorem healthData_segments (ts : list TimeseriesItem) :
  sublist (map (fun o => o !! "name") (healthData ts)) chart_names /\
  Forall chart_segment_ok (healthData ts) /\
  (length (healthData ts) <= 4)%nat.
Proof.
  unfold healthData, normalizedMetrics.
  set (acc := tally ts).
  assert (Hok : forall k x, negb (Qle_bool (Math_round x) 0) = true ->
                            chart_segment_ok (segment (k, Math_round x))).
  { intros k x H. exists (Math_round x). split; [apply segment_value|].
    split; [|apply Math_round_integer].
    apply negb_true_iff in H. apply Qnot_le_lt. rewrite <- Qle_bool_iff. congruence. }
  simpl.
  destruct (negb (Qle_bool (Math_round (average acc "steps" / 100)) 0)) eqn:H1;
  destruct (negb (Qle_bool (Math_round (average acc "heart_rate")) 0)) eqn:H2;
  destruct (negb (Qle_bool (Math_round (average acc "sleep" * 10)) 0)) eqn:H3;
  destruct (negb (Qle_bool (Math_round (average acc "water" / 100)) 0)) eqn:H4;
  simpl; rewrite ?segment_name;
  (split; [vm_compute;
           repeat first [apply sublist_nil | apply sublist_skip | apply sublist_cons]
         | split; [repeat constructor; auto | lia]]).
Qed.

Lemma tally_step_key (acc : gmap string Q * gmap string Q) (item : TimeseriesItem) (k : string) :
  Transformer.inherited k = false ->
  (fst (tally_step acc item) !! k, snd (tally_step acc item) !! k) =
    if decide (metric item = k)
    then key_step (fst acc !! k, snd acc !! k) (value item)
    else (fst acc !! k, snd acc !! k).
Proof.
  intros Hk. unfold tally_step.
  destruct (decide (metric item = k)) as [->|Hne].
  - rewrite Hk. unfold key_step. simpl.
    destruct (match fst acc !! k with
              | Some s => negb (Num.truthy s)
              | None => true
              end); simpl; rewrite !lookup_insert_eq; simpl; reflexivity.
  - destruct (Transformer.inherited (metric item)); [reflexivity|].
    simpl. rewrite !lookup_insert_ne by assumption.
    destruct (match fst acc !! metric item with
              | Some s => negb (Num.truthy s)
              | None => true
              end); rewrite ?lookup_insert_ne by assumption; reflexivity.
Qed.

Lemma tally_key (ts : list TimeseriesItem) (k : string) : forall acc,
  Transformer.inherited k = false ->
  (fst (fold_left tally_step ts acc) !! k, snd (fold_left tally_step ts acc) !! k) =
    fold_left key_step (map value (items_of k ts)) (fst acc !! k, snd acc !! k).
Proof.
  induction ts as [|item ts IH]; intros acc Hk; [reflexivity|].
  simpl. rewrite (IH _ Hk), (tally_step_key acc item k Hk). unfold items_of.
  destruct (decide (metric item = k)) as [He|Hne].
  - rewrite filter_cons_True by assumption. reflexivity.
  - rewrite filter_cons_False by assumption. reflexivity.
Qed.

Lemma key_fold_positive (vals : list Q) : forall s c : Q,
  0 < s -> Forall (fun v => 0 < v) vals ->
  exists s' c',
    fold_left key_step vals (Some s, Some c) = (Some s', Some c') /\
    s' == s + fold_right Qplus 0 vals /\
    c' == c + inject_Z (Z.of_nat (length vals)) /\
    0 < s'.
Proof.
  induction vals as [|v vals IH]; intros s c Hs Hall.
  - exists s, c. simpl. repeat split; try assumption; ring.
  - inversion Hall as [|? ? Hv Hrest]; subst.
    assert (Htruthy : Num.truthy s = true).
    { unfold Num.truthy. apply negb_true_iff. apply not_true_iff_false.
      rewrite Qeq_bool_iff. lra. }
    simpl fold_left. unfold key_step at 2. simpl. rewrite Htruthy. simpl.
    destruct (IH (s + v) (c + 1)) as (s' & c' & Hfold & Hs' & Hc' & Hpos);
      [lra | assumption |].
    exists s', c'. split; [exact Hfold|].
    split; [rewrite Hs'; simpl; ring|].
    split; [|exact Hpos].
    rewrite Hc'. rewrite Nat2Z.inj_succ, <- Z.add_1_l, inject_Z_plus. simpl. ring.
Qed.

Lemma truthy_pos (s : Q) : 0 < s -> Num.truthy s = true.
Proof.
  intros Hs. unfold Num.truthy. apply negb_true_iff. apply not_true_iff_false.
  rewrite Qeq_bool_iff. lra.
Qed.

Lemma total_values (l : list TimeseriesItem) :
  fold_right Qplus 0 (map value l) = total l.
Proof. induction l as [|i l IH]; simpl; [reflexivity|]. rewrite IH. reflexivity. Qed.

(** X23.  For a metric all of whose readings are positive, the figure that
    [getDiseaseData] normalises is the arithmetic mean of the readings:
    their sum divided by their number. *)
Theorem average_of_positive_readings (ts : list TimeseriesItem) (k : string) :
  Transformer.inherited k = false ->
  items_of k ts <> [] ->
  Forall (fun item => 0 < value item) (items_of k ts) ->
  average (tally ts) k ==
  total (items_of k ts) / inject_Z (Z.of_nat (length (items_of k ts))).
Proof.
  intros Hk Hne Hpos.
  pose proof (tally_key ts k (∅, ∅) Hk) as H.
  change (fold_left tally_step ts (∅, ∅)) with (tally ts) in H.
  simpl in H. rewrite !lookup_empty in H.
  destruct (items_of k ts) as [|i rest] eqn:E; [congruence|].
  inversion Hpos as [|? ? Hi Hrest]; subst.
  simpl in H. unfold key_step at 2 in H. simpl in H.
  destruct (key_fold_positive (map value rest) (0 + value i) (0 + 1))
    as (s' & c' & Hfold & Hs' & Hc' & Hs'pos).
  { lra. }
  { apply Forall_map. exact Hrest. }
  rewrite Hfold in H. injection H as H1 H2.
  unfold average. rewrite H1, H2. simpl.
  assert (Hlen : 0 <= inject_Z (Z.of_nat (length (map value rest)))).
  { change 0 with (inject_Z 0). rewrite <- Zle_Qle. lia. }
  rewrite (truthy_pos s' Hs'pos), (truthy_pos c') by lra.
  rewrite Hs', Hc', total_values, length_map.
  change (length (i :: rest)) with (S (length rest)).
  rewrite Nat2Z.inj_succ, <- Z.add_1_l, inject_Z_plus.
  change (inject_Z 1) with 1.
  apply Qdiv_comp; ring.
Qed.

Lemma average_of_positive_readings_witness :
  average (tally (default [] (timeseries one_day))) "water" == 4099 # 2.
Proof.
  assert (Hne : items_of "water" (default [] (timeseries one_day)) <> []).
  { vm_compute. discriminate. }
  assert (Hpos : Forall (fun item => 0 < value item)
                        (items_of "water" (default [] (timeseries one_day)))).
  { vm_compute. repeat constructor. }
  apply (Qeq_trans _ _ _
           (average_of_positive_readings _ "water" eq_refl Hne Hpos)).
  vm_compute. reflexivity.
Defined.

Lemma key_fold_counts (vals : list Q) : forall sc : option Q * option Q,
  match sc with
  | (None, None) => True
  | (Some _, Some c) => 1 <= c
  | _ => False
  end ->
  match fold_left key_step vals sc with
  | (None, None) => True
  | (Some _, Some c) => 1 <= c
  | _ => False
  end.
Proof.
  induction vals as [|v vals IH]; intros sc Hsc; [exact Hsc|].
  simpl. apply IH. unfold key_step.
  destruct sc as [[s|] [c|]]; simpl in *; try contradiction; try lra.
  destruct (negb (Num.truthy s)); simpl; lra.
Qed.

Lemma items_of_app (k : string) (l1 l2 : list TimeseriesItem) :
  items_of k (l1 ++ l2) = (items_of k l1 ++ items_of k l2)%list.
Proof. unfold items_of. apply filter_app. Qed.

(** X24.  The running sum of a metric restarts, together with its count,
    whenever it stands at zero: readings whose average so far is zero (a
    first reading of 0, or readings that cancel) leave no trace in the
    average over the readings that follow. *)
Theorem average_forgets_cancelled_readings (pre post : list TimeseriesItem) (k : string) :
  Transformer.inherited k = false ->
  average (tally pre) k == 0 ->
  average (tally (pre ++ post)) k == average (tally post) k.
Proof.
  intros Hk Hzero.
  pose proof (tally_key pre k (∅, ∅) Hk) as Hpre.
  pose proof (tally_key post k (∅, ∅) Hk) as Hpost.
  pose proof (tally_key (pre ++ post) k (∅, ∅) Hk) as Hall.
  change (fold_left tally_step ?l (∅, ∅)) with (tally l) in *.
  simpl in Hpre, Hpost, Hall. rewrite !lookup_empty in *.
  rewrite items_of_app, map_app, fold_left_app in Hall.
  pose proof (key_fold_counts (map value (items_of k pre)) (None, None) I) as Hinv.
  destruct (fold_left key_step (map value (items_of k pre)) (None, None))
    as [s c] eqn:Epre.
  injection Hpre as Hs Hc.
  unfold average in Hzero. rewrite Hs, Hc in Hzero.
  assert (Hfresh : match s with Some x => negb (Num.truthy x) | None => true end = true).
  { destruct s as [x|]; [|reflexivity]. destruct c as [y|]; [|contradiction].
    simpl in Hzero. unfold Num.truthy in *.
    destruct (Qeq_bool x 0) eqn:Ex; [reflexivity|]. simpl in Hzero.
    assert (Hx : ~ x == 0) by (rewrite <- Qeq_bool_iff; congruence).
    destruct (Qeq_bool y 0) eqn:Ey.
    - apply Qeq_bool_iff in Ey. lra.
    - simpl in Hzero. exfalso. apply Hx.
      assert (Hy : ~ y == 0) by lra.
      rewrite <- (Qmult_div_r x y Hy). rewrite Hzero. ring. }
  destruct (items_of k post) as [|i rest] eqn:Epost.
  - simpl in Hall, Hpost. injection Hall as Ha1 Ha2. injection Hpost as Hp1 Hp2.
    unfold average. rewrite Ha1, Ha2, Hp1, Hp2. simpl.
    unfold average in Hzero. rewrite Hzero. reflexivity.
  - simpl in Hall, Hpost.
    assert (Hstep : key_step (s, c) (value i) = key_step (None, None) (value i)).
    { unfold key_step. simpl. rewrite Hfresh. reflexivity. }
    rewrite Hstep, <- Hpost in Hall. injection Hall as Ha1 Ha2.
    unfold average. rewrite Ha1, Ha2. reflexivity.
Qed.

Lemma average_forgets_cancelled_readings_witness :
  average (tally rest_day) "steps" == 0 /\
  average (tally (rest_day ++ default [] (timeseries one_day))) "steps" == 8500.
Proof.
  assert (Hzero : average (tally rest_day) "steps" == 0) by (vm_compute; reflexivity).
  split; [exact Hzero|].
  apply (Qeq_trans _ _ _
           (average_forgets_cancelled_readings rest_day _ "steps" eq_refl Hzero)).
  vm_compute. reflexivity.
Defined.

End HealthChartFacts.
(** ** Ranges and monotonicity of [simulateForecast] *)

Section SimulatorRanges.
Import Simulator.

Lemma is_integer_Qmax (x y : Q) :
  is_integer x = true -> is_integer y = true -> is_integer (Qmax x y) = true.
Proof. intros Hx Hy. destruct (Qmax_cases x y) as [[_ ->]|[_ ->]]; assumption. Qed.

Lemma Qmax_lower (x y : Q) : x <= Qmax x y.
Proof. destruct (Qmax_cases x y) as [[H ->]|[H ->]]; lra. Qed.

Lemma Qmax_mono (fl x y : Q) : x <= y -> Qmax fl x <= Qmax fl y.
Proof.
  intros H.
  destruct (Qmax_cases fl x) as [[H1 ->]|[H1 ->]];
    destruct (Qmax_cases fl y) as [[H2 ->]|[H2 ->]]; lra.
Qed.

Lemma Qmin_mono (c x y : Q) : x <= y -> Qmin c x <= Qmin c y.
Proof.
  intros H.
  destruct (Qmin_cases c x) as [[H1 ->]|[H1 ->]];
    destruct (Qmin_cases c y) as [[H2 ->]|[H2 ->]]; lra.
Qed.

Lemma Math_round_Z (n : Z) : Math_round (inject_Z n) == inject_Z n.
Proof. apply Math_round_of_integer, is_integer_inject_Z. Qed.

Lemma Forall_map_all {A B} (P : B -> Prop) (f : A -> B) (l : list A) :
  (forall x, P (f x)) -> Forall P (map f l).
Proof. intros H. induction l; simpl; constructor; auto. Qed.

Lemma Forall2_map_both {A B} (R : B -> B -> Prop) (f g : A -> B) (l : list A) :
  (forall x, R (f x) (g x)) -> Forall2 R (map f l) (map g l).
Proof. intros H. induction l; simpl; constructor; auto. Qed.

Lemma adjust_risk_in_range (s e h : Q) (risk : Risk.t) :
  in_range_risk (adjust_risk s e h risk) = true.
Proof.
  unfold in_range_risk, adjust_risk. simpl.
  rewrite Math_round_integer. simpl.
  pose proof (newPercentage_spec s e h risk) as Hnp.
  destruct (risk_floor (Risk.type risk)) as [fl|] eqn:Efl; [|reflexivity].
  apply Qle_bool_iff.
  assert (Hfl : exists n, fl = inject_Z n).
  { unfold risk_floor in Efl.
    repeat match type of Efl with
           | (if ?c then _ else _) = _ => destruct c
           end; inversion Efl; eexists; reflexivity. }
  destruct Hfl as [n ->].
  rewrite <- (Math_round_Z n). apply Math_round_le.
  rewrite Hnp. apply Qmax_lower.
Qed.

(** X25.  Whatever the sliders and the baseline tables, the simulated
    tables stay in range: step counts are whole, heart rates are whole and
    at least 55, sleep hours lie between 5 and 9.5, and every risk
    percentage is whole and not below the floor of its category. *)
Theorem simulateForecast_in_range (mock : MockData) (s e h : Q) :
  Forall (fun it => is_integer (ForecastItem.predicted it) = true)
         (steps (simulateForecast mock s e h)) /\
  Forall (fun it => is_integer (ForecastItem.predicted it) = true /\
                    55 <= ForecastItem.predicted it)
         (heartRate (simulateForecast mock s e h)) /\
  Forall (fun it => 5 <= ForecastItem.predicted it /\ ForecastItem.predicted it <= 95 # 10)
         (sleep (simulateForecast mock s e h)) /\
  Forall (fun r => in_range_risk r = true) (risks (simulateForecast mock s e h)).
Proof.
  unfold simulateForecast. simpl. repeat split.
  - apply Forall_map_all. intros it. apply Math_round_integer.
  - apply Forall_map_all. intros it. simpl. split.
    + apply is_integer_Qmax; [apply (is_integer_inject_Z 55) | apply Math_round_integer].
    + apply Qmax_lower.
  - apply Forall_map_all. intros it. simpl.
    set (x := ForecastItem.predicted it + s * (8 # 10)).
    destruct (Qmax_cases 5 x) as [[H1 E1]|[H1 E1]]; rewrite E1;
      destruct (Qmin_cases (95 # 10) x) as [[H2 E2]|[H2 E2]];
      destruct (Qmin_cases (95 # 10) 5) as [[H3 E3]|[H3 E3]];
      rewrite ?E2, ?E3; lra.
  - apply Forall_map_all. intros r. apply adjust_risk_in_range.
Qed.

Lemma level_of_fits (s e h : Q) (risk : Risk.t) : level_fits (adjust_risk s e h risk).
Proof.
  unfold level_fits, adjust_risk, level_of. simpl.
  set (np := newPercentage s e h risk).
  destruct (Qle_bool np 25) eqn:E25; [|destruct (Qle_bool np 50) eqn:E50].
  - left. split; [reflexivity|]. apply Qle_bool_iff in E25.
    rewrite <- (Math_round_Z 25). apply Math_round_le. exact E25.
  - right. left. split; [reflexivity|]. apply Qle_bool_iff in E50.
    assert (H25 : 25 <= np).
    { apply Qlt_le_weak, Qnot_le_lt. rewrite <- Qle_bool_iff. congruence. }
    split.
    + rewrite <- (Math_round_Z 25). apply Math_round_le. exact H25.
    + rewrite <- (Math_round_Z 50). apply Math_round_le. exact E50.
  - right. right. split; [reflexivity|].
    assert (H50 : 50 <= np).
    { apply Qlt_le_weak, Qnot_le_lt. rewrite <- Qle_bool_iff. congruence. }
    rewrite <- (Math_round_Z 50). apply Math_round_le. exact H50.
Qed.

(** X26.  The level of a simulated risk is taken before the percentage is
    rounded, and the percentage shown agrees with it up to that rounding:
    a low risk shows at most 25, a medium risk 25 to 50, a high risk at
    least 50. *)
Theorem simulated_levels_fit (mock : MockData) (s e h : Q) :
  Forall level_fits (risks (simulateForecast mock s e h)).
Proof.
  unfold simulateForecast. simpl. apply Forall_map_all. intros r. apply level_of_fits.
Qed.

Lemma newPercentage_antitone (s1 e1 h1 s2 e2 h2 : Q) (risk : Risk.t) :
  s1 <= s2 -> e1 <= e2 -> h1 <= h2 ->
  newPercentage s2 e2 h2 risk <= newPercentage s1 e1 h1 risk.
Proof.
  intros Hs He Hh. unfold newPercentage.
  assert (Hdiv : e1 / 1000 <= e2 / 1000).
  { unfold Qdiv. apply Qmult_le_compat_r; [exact He|]. discriminate. }
  repeat match goal with
         | |- context [if ?c then _ else _] => destruct c
         end; try apply Qmax_mono; lra.
Qed.

(** X27.  More sleep, more steps and more water never make the simulated
    outlook worse: no predicted heart rate and no risk percentage goes up,
    and no predicted night gets shorter. *)
Theorem simulateForecast_monotone (mock : MockData) (s1 e1 h1 s2 e2 h2 : Q) :
  s1 <= s2 -> e1 <= e2 -> h1 <= h2 ->
  Forall2 not_above (heartRate (simulateForecast mock s1 e1 h1))
          (heartRate (simulateForecast mock s2 e2 h2)) /\
  Forall2 not_above (sleep (simulateForecast mock s2 e2 h2))
          (sleep (simulateForecast mock s1 e1 h1)) /\
  Forall2 risk_not_above (risks (simulateForecast mock s1 e1 h1))
          (risks (simulateForecast mock s2 e2 h2)).
Proof.
  intros Hs He Hh. unfold simulateForecast. simpl. repeat split.
  - apply Forall2_map_both. intros it. unfold not_above. simpl.
    apply Qmax_mono, Math_round_le. unfold sleepImpact, hydrationImpact. lra.
  - apply Forall2_map_both. intros it. unfold not_above. simpl.
    apply Qmin_mono, Qmax_mono. lra.
  - apply Forall2_map_both. intros r. unfold risk_not_above. simpl.
    apply Math_round_le, newPercentage_antitone; assumption.
Qed.

Lemma simulateForecast_monotone_witness :
  Forall2 risk_not_above (risks (simulateForecast sample_mock 0 0 0))
          (risks (simulateForecast sample_mock 1 2000 (5 # 10))).
Proof.
  assert (H1 : 0 <= 1) by lra.
  assert (H2 : 0 <= 2000) by lra.
  assert (H3 : 0 <= 5 # 10) by lra.
  destruct (simulateForecast_monotone sample_mock 0 0 0 1 2000 (5 # 10) H1 H2 H3)
    as (_ & _ & H).
  exact H.
Defined.

End SimulatorRanges.

(** ** The simulator with its sliders at rest, and its risk table *)

Section SimulatorClaims.
Import Simulator.




Lemma bucket_comp (x y : Q) (lvl : string) : x == y -> bucket x lvl -> bucket y lvl.
Proof.
  intros Hxy (Hlow & Hmid & Hhigh).
  repeat split; intros; [apply Hlow | apply Hmid | apply Hhigh]; lra.
Qed.

Lemma newPercentage_unrounded (s e h : Q) (risk : Risk.t) :
  newPercentage s e h risk == unrounded s e h risk.
Proof.
  unfold unrounded. pose proof (newPercentage_spec s e h risk) as H.
  destruct (risk_floor (Risk.type risk)); exact H.
Qed.

Lemma adjust_risk_kept (s e h : Q) (risk : Risk.t) : kept_row risk (adjust_risk s e h risk).
Proof.
  split; [reflexivity|]. split; [reflexivity|].
  split; [apply adjust_risk_in_range | apply level_of_fits].
Qed.

Lemma adjust_risk_exact (s e h : Q) (risk : Risk.t) :
  exact_row s e h risk (adjust_risk s e h risk).
Proof.
  intros _.
  pose proof (newPercentage_unrounded s e h risk) as Hnp.
  split; simpl.
  - apply Math_round_comp. exact Hnp.
  - apply (bucket_comp _ _ _ Hnp), level_of_bucket.
Qed.

Lemma adjust_risk_sleep (e h : Q) (risk : Risk.t) :
  sleep_20_off risk (adjust_risk 1 e h risk).
Proof.
  intros Hty (Hint & _ & _).
  assert (Hnp : newPercentage 1 e h risk == Qmax 10 (Risk.percentage risk - 20)).
  { unfold newPercentage. rewrite Hty. simpl. apply Qmax_Qeq. ring. }
  assert (Hwhole : Math_round (newPercentage 1 e h risk) == newPercentage 1 e h risk).
  { rewrite (Math_round_comp _ _ Hnp).
    destruct (Qmax_cases 10 (Risk.percentage risk - 20)) as [[_ E]|[_ E]];
      rewrite Hnp, E.
    - apply (is_integer_shift _ 20 Hint).
    - reflexivity. }
  split; simpl.
  - rewrite Hwhole. exact Hnp.
  - apply (bucket_comp (newPercentage 1 e h risk)); [|apply level_of_bucket].
    symmetry. exact Hwhole.
Qed.

Lemma Forall2_map_self {A B} (R : A -> B -> Prop) (f : A -> B) (l : list A) :
  (forall x, R x (f x)) -> Forall2 R l (map f l).
Proof. intros H. induction l; simpl; constructor; auto. Qed.

(** C8 (as amended).  For every baseline risk table and all slider values
    each returned row keeps its type and other fields, shows a whole
    percentage not below the floor of its category (5, 5, 10, 8 for
    fatigue, hydration, sleep, stress), and carries the level of the
    figure before rounding, which fits the percentage shown only up to
    that rounding: low rows show at most 25, medium rows 25 to 50, high
    rows at least 50.  For a row whose baseline percentage is a whole
    number from 0 to 100 and sliders on the grid of [on_grid], where the
    source's arithmetic is exact, the figure before rounding is the
    baseline less the category's reduction (15 s + 8 h for fatigue, 25 h
    for hydration, 20 s for sleep, 10 s + 3 e / 1000 for stress), not
    below the floor; its level is low up to 25, medium up to 50, high
    above; the percentage returned is that figure rounded, halves up.
    With a sleep increase of 1 the sleep row of such a baseline returns
    exactly 20 less than its baseline, not below 10, with the level of
    the percentage returned. *)
Theorem simulate_risks (mock : MockData) (s e h : Q) :
  Forall2 kept_row (mockRiskData mock) (risks (simulateForecast mock s e h)) /\
  (on_grid s e h ->
   Forall2 (exact_row s e h) (mockRiskData mock) (risks (simulateForecast mock s e h))) /\
  Forall2 sleep_20_off (mockRiskData mock) (risks (simulateForecast mock 1 e h)).
Proof.
  unfold simulateForecast. simpl. split; [|split].
  - apply Forall2_map_self, adjust_risk_kept.
  - intros _. apply Forall2_map_self, adjust_risk_exact.
  - apply Forall2_map_self, adjust_risk_sleep.
Qed.

Lemma simulate_risks_witness :
  on_grid 1 2000 (1 # 2) /\
  Forall whole_percentage (mockRiskData sample_mock) /\
  Forall2 (exact_row 1 2000 (1 # 2)) (mockRiskData sample_mock)
          (risks (simulateForecast sample_mock 1 2000 (1 # 2))) /\
  Forall2 sleep_20_off (mockRiskData sample_mock)
          (risks (simulateForecast sample_mock 1 2000 (1 # 2))).
Proof.
  assert (Hgrid : on_grid 1 2000 (1 # 2)).
  { repeat split; try reflexivity; discriminate. }
  assert (Hwhole : Forall whole_percentage (mockRiskData sample_mock)).
  { repeat constructor; discriminate. }
  destruct (simulate_risks sample_mock 1 2000 (1 # 2)) as (_ & Hexact & Hsleep).
  split; [exact Hgrid|]. split; [exact Hwhole|].
  split; [exact (Hexact Hgrid) | exact Hsleep].
Defined.

(** The percentage returned is rounded: a sleep baseline of 45.5 with one
    more hour of sleep comes back as 26, not 25.5. *)
Example fractional_baseline_is_rounded :
  Risk.percentage (adjust_risk 1 0 0 (risk_row "sleep" (91 # 2) "medium")) = 26.
Proof. reflexivity. Qed.

(** C8, as stated, fails on the returned rows: the level goes by the figure
    before rounding.  A fatigue baseline of 29 with a quarter of an hour
    more sleep gives 25.25, a medium risk, shown as 25. *)
Lemma level_is_taken_before_rounding :
  map (fun r => (Risk.type r, Risk.percentage r, Risk.level r))
      (risks (simulateForecast borderline_mock (1 # 4) 0 0)) = [ ("fatigue", 25, "medium") ] /\
  ~ Forall level_by_percentage (risks (simulateForecast borderline_mock (1 # 4) 0 0)).
Proof.
  split; [reflexivity|].
  intros H. inversion H as [|r l [Hlow _] _]; subst.
  assert (Hle : Risk.percentage (adjust_risk (1 # 4) 0 0 (risk_row "fatigue" 29 "medium")) <= 25)
    by (vm_compute; discriminate).
  specialize (Hlow Hle). vm_compute in Hlow. discriminate Hlow.
Qed.

End SimulatorClaims.
(** ** The upload page on top of [uploadFile] *)

Section PageUploads.
Import UploadPage.

Lemma upload_accepted_unique env file id t id' t' :
  upload_accepted env file id t -> upload_accepted env file id' t' -> id' = id /\ t' = t.
Proof.
  intros (_ & (r1 & p1 & Hu1 & _ & Hj1 & Hi1) & _ & (r2 & f2 & Hs2 & _ & Hf2 & Ht2))
         (_ & (r3 & p3 & Hu3 & _ & Hj3 & Hi3) & _ & (r4 & f4 & Hs4 & _ & Hf4 & Ht4)).
  assert (id' = id) by congruence. subst id'. split; [reflexivity | congruence].
Qed.

(** X28.  The upload page built on the second copy of [api.js], given a
    [.csv] file, always ends with [uploading] off.  When the backend
    accepts the upload as the data set [id] (and the entry stored under
    the user's key is not the text [null]) the page shows the successful
    result for [id], shows its snapshot as the analysis, has called
    [saveUserUpload] once if a user is signed in and not at all
    otherwise, and [dataUpdated] was dispatched twice: by [uploadFile]
    with the store and by the page with the snapshot.  In every other case
    it shows a failure whose message starts with "File upload failed: ":
    no analysis is shown, nothing was saved to the history or to local
    storage and no event was dispatched. *)
Theorem page_upload_second_copy (env : Env) (user : option User) (file : File)
    (p : PageState) (w : World) :
  Str.endsWith ".csv" (name file) = true ->
  let '(p', w') := handleFile (AltApi.uploadFile env) user file p w in
  uploading p' = false /\
  dragActive p' = dragActive p /\
  (forall id t,
     upload_accepted env file id t ->
     localStorage w !! userKey (user ≫= user_id) <> Some StoredNull ->
     exists res d,
       uploadResult p' = Some res /\
       UploadResult.success res = true /\
       UploadResult.data_id res = Some id /\
       UploadResult.uploadData res = Some d /\
       Blob.metrics d = Some (Store.metrics (currentData w')) /\
       uploadedData p' = Some d /\
       savedUploads p' = history_after user file res (savedUploads p) /\
       events w' =
         (events w ++ [DetailStore (currentData w'); DetailUpload (Some d)])%list) /\
  (~ (exists id t, upload_accepted env file id t) \/
   localStorage w !! userKey (user ≫= user_id) = Some StoredNull ->
   exists cause,
     uploadResult p' = Some (failure ("File upload failed: " ++ cause)) /\
     uploadedData p' = None /\
     savedUploads p' = savedUploads p /\
     localStorage w' = localStorage w /\
     events w' = events w).
Proof.
  intros Hcsv. unfold handleFile. rewrite Hcsv. simpl.
  destruct (AltApi.uploadFile env file (user ≫= λ u, user_id u) w) as [[res|msg] w1] eqn:E.
  - pose proof (AltApi_uploadFile_Return _ _ _ _ _ _ E) as (id0 & t0 & Hacc0 & Hok & _).
    pose proof (AltApi_uploadFile_world _ _ _ _ _ _ E)
      as (id' & t' & saved & Hacc' & Hdata & Hid & Hm & _ & _ & _ & _ & Hev).
    rewrite Hok. simpl. split; [reflexivity|]. split; [reflexivity|]. split.
    + intros id t Hacc _.
      destruct (upload_accepted_unique _ _ _ _ _ _ Hacc Hacc') as [-> _].
      exists res, saved. rewrite Hdata.
      repeat split; try assumption.
      * unfold history_after, history_entry. rewrite Hdata. destruct user; reflexivity.
      * rewrite Hev, <- app_assoc. reflexivity.
    + intros [Hno|Hnull]; exfalso.
      * apply Hno. eauto.
      * exact (AltApi_uploadFile_not_null _ _ _ _ _ _ E Hnull).
  - pose proof (AltApi_uploadFile_Throw _ _ _ _ _ _ E) as ((cause & ->) & Hls & Hev).
    simpl. split; [reflexivity|]. split; [reflexivity|]. split.
    + intros id t Hacc Hnull. exfalso.
      destruct (AltApi_uploadFile_accepted env file _ w id t Hacc Hnull) as (res & w2 & E2).
      discriminate (eq_trans (eq_sym E) E2).
    + intros _. exists cause. repeat split; assumption.
Qed.

Lemma page_upload_second_copy_witness :
  Str.endsWith ".csv" (name csv_file) = true /\
  exists res,
    uploadResult (fst (handleFile (AltApi.uploadFile (sample_env true 10)) (Some sample_user)
                         csv_file idle_page fresh_world)) = Some res /\
    UploadResult.data_id res = Some "abc" /\
    length (events (snd (handleFile (AltApi.uploadFile (sample_env true 10)) (Some sample_user)
                           csv_file idle_page fresh_world))) = 2%nat.
Proof.
  split; [reflexivity|].
  destruct (sample_upload_accepted 10) as [t Hacc].
  assert (Hentry : localStorage fresh_world !! userKey (Some sample_user ≫= user_id)
                   <> Some StoredNull) by discriminate.
  pose proof (page_upload_second_copy (sample_env true 10) (Some sample_user) csv_file
                idle_page fresh_world eq_refl) as H.
  destruct (handleFile _ _ _ _ _) as [p' w'].
  destruct H as (_ & _ & Hgo & _).
  destruct (Hgo "abc" t Hacc Hentry) as (res & d & Hres & _ & Hid & _ & _ & _ & _ & Hev).
  exists res. split; [exact Hres|]. split; [exact Hid|].
  simpl. rewrite Hev. reflexivity.
Defined.

Lemma FrontEndApi_uploadFile_offline mock env file userId w msg :
  health env = Rejected msg ->
  exists res w',
    FrontEndApi.uploadFile mock env file userId w = (Return res, w') /\
    UploadResult.success res = true /\
    UploadResult.message res = "File processed with mock data (backend unavailable)" /\
    UploadResult.data_id res = Some ("mock_" ++ pretty (Date_now env 0)) /\
    UploadResult.uploadData res = None /\
    localStorage w' = localStorage w /\
    events w' = events w.
Proof.
  intros H.
  unfold FrontEndApi.uploadFile, FrontEndApi.uploadFile_body, FrontEndApi.mockUploadResponse.
  repeat (progress unfold_monad). simpl. rewrite H. simpl.
  eexists _, _. repeat split; reflexivity.
Qed.

(** X29.  The upload page built on [src/FrontEnd/src/services/api.js], with
    the backend unreachable and a [.csv] file: it reports success with the
    mock message, but the result carries no snapshot, so no analysis is
    shown, the history entry of a signed-in user has the mock id and no
    metrics, local storage is untouched, and the only [dataUpdated] event
    has an empty detail. *)
Theorem page_upload_offline (mock : MockData) (env : Env) (user : option User)
    (file : File) (p : PageState) (w : World) (msg : string) :
  health env = Rejected msg ->
  Str.endsWith ".csv" (name file) = true ->
  let '(p', w') := handleFile (FrontEndApi.uploadFile mock env) user file p w in
  uploading p' = false /\
  (exists res,
     uploadResult p' = Some res /\
     UploadResult.success res = true /\
     UploadResult.message res = "File processed with mock data (backend unavailable)" /\
     savedUploads p' =
       match user with
       | Some _ =>
           (savedUploads p ++
              [ {| saved_fileName := name file;
                   saved_data_id := Some ("mock_" ++ pretty (Date_now env 0))%string;
                   saved_metrics := None |} ])%list
       | None => savedUploads p
       end) /\
  uploadedData p' = None /\
  localStorage w' = localStorage w /\
  events w' = (events w ++ [DetailUpload None])%list.
Proof.
  intros Hhealth Hcsv. unfold handleFile. rewrite Hcsv. simpl.
  destruct (FrontEndApi_uploadFile_offline mock env file (user ≫= λ u, user_id u) w msg Hhealth)
    as (res & w1 & E & Hok & Hmsg & Hid & Hdata & Hls & Hev).
  rewrite E, Hok. simpl. rewrite Hdata. simpl.
  split; [reflexivity|]. split.
  - exists res. rewrite Hid. repeat split; assumption.
  - repeat split; [exact Hls | rewrite Hev; reflexivity].
Qed.

Lemma page_upload_offline_witness :
  health (sample_env false 10) = Rejected "Failed to fetch" /\
  Str.endsWith ".csv" (name csv_file) = true /\
  events (snd (handleFile (FrontEndApi.uploadFile sample_mock (sample_env false 10))
                 (Some sample_user) csv_file idle_page fresh_world)) = [DetailUpload None].
Proof.
  split; [reflexivity|]. split; [reflexivity|].
  pose proof (page_upload_offline sample_mock (sample_env false 10) (Some sample_user)
                csv_file idle_page fresh_world _ eq_refl eq_refl) as H.
  destruct (handleFile _ _ _ _ _) as [p' w'].
  destruct H as (_ & _ & _ & _ & Hev). exact Hev.
Defined.

End PageUploads.

(** ** Random draws *)

Section RandomDraws.

Lemma floor_scaled (r : Q) (n : Z) :
  (0 < n)%Z -> 0 <= r -> r < 1 ->
  (0 <= Qfloor (r * inject_Z n) <= n - 1)%Z.
Proof.
  intros Hn H0 H1.
  assert (Hnq : 0 < inject_Z n) by (change 0 with (inject_Z 0); rewrite <- Zlt_Qlt; lia).
  split.
  - change 0%Z with (Qfloor 0). apply Qfloor_resp_le. nra.
  - assert (Hlt : (Qfloor (r * inject_Z n) < n)%Z).
    { rewrite Zlt_Qlt.
      apply Qle_lt_trans with (r * inject_Z n); [apply Qfloor_le | nra]. }
    lia.
Qed.

(** X30.  With [Math.random()] in [0, 1), [getStressLevel] returns a whole
    number from 20 to 59 and touches neither the store nor the network,
    and the patient count of the mock upload is a whole number from 50 to
    149. *)
Theorem random_draws (mock : MockData) (env : Env) (w : World) :
  0 <= Math_random env -> Math_random env < 1 ->
  (exists v, FrontEndApi.getStressLevel env w = (Return v, w) /\
             is_integer v = true /\ 20 <= v /\ v <= 59) /\
  is_integer (FrontEndApi.mock_totalPatients env) = true /\
  50 <= FrontEndApi.mock_totalPatients env /\
  FrontEndApi.mock_totalPatients env <= 149.
Proof.
  intros H0 H1.
  pose proof (floor_scaled (Math_random env) 40 eq_refl H0 H1) as [Ha Hb].
  pose proof (floor_scaled (Math_random env) 100 eq_refl H0 H1) as [Hc Hd].
  change (inject_Z 40) with 40 in *. change (inject_Z 100) with 100 in *.
  assert (Hint : forall n k : Z, is_integer (inject_Z n + inject_Z k) = true).
  { intros n k. rewrite <- inject_Z_plus. apply is_integer_inject_Z. }
  unfold FrontEndApi.getStressLevel, FrontEndApi.mock_totalPatients, ret.
  split; [eexists; split; [reflexivity|] |].
  - split; [apply (Hint _ 20%Z)|].
    change 20 with (inject_Z 20). change 59 with (inject_Z 59).
    rewrite <- inject_Z_plus, <- !Zle_Qle. lia.
  - split; [apply (Hint _ 50%Z)|].
    change 50 with (inject_Z 50). change 149 with (inject_Z 149).
    rewrite <- inject_Z_plus, <- !Zle_Qle. lia.
Qed.

Lemma random_draws_witness :
  exists v, FrontEndApi.getStressLevel (sample_env true 10) fresh_world = (Return v, fresh_world) /\
            20 <= v /\ v <= 59.
Proof.
  assert (H0 : 0 <= Math_random (sample_env true 10)) by (vm_compute; discriminate).
  assert (H1 : Math_random (sample_env true 10) < 1) by reflexivity.
  destruct (random_draws sample_mock (sample_env true 10) fresh_world H0 H1)
    as ((v & Hv & _ & Hlo & Hhi) & _).
  exists v. repeat split; assumption.
Defined.

End RandomDraws.
